(** * Meraki AP SSID configuration by tag: a shallow embedding of
      [configure_ssids.py] and the properties of its workflow.

The script is a sequence of calls against the Meraki dashboard, glued
together with Python dictionaries, lists and sets.  The embedding keeps
that shape:

- JSON values are a small inductive type, SSID records are finite maps
  from field names to values ([gmap string value]);
- dictionaries the script builds and iterates are insertion-ordered
  association lists with Python's [d[k] = v] semantics;
- the set of matched tags is a [gset string];
- SSID records are Python objects shared between [all_ssids] and
  [ssid_dict]: they live in a store and are passed by reference;
- the dashboard is an abstract collaborator: reads are functions of its
  state, the update call is a transition that may raise;
- the rich console is an abstract collaborator too: it parses what it is
  given as console markup and raises on a text it cannot render;
- [int] is modelled on ASCII text; what it reads in a string with other
  characters is the interpreter's, and is left to it;
- every function of the script is a computation in a small monad that
  threads the collaborator's state and the store, may raise a Python
  exception, and records what it prints and which calls it makes. *)

From Stdlib Require Import ZArith Ascii String List Lia.
From stdpp Require Import base option list strings pretty gmap fin_maps fin_sets.

#[local] Set Warnings "-clear-no-such-hyp".

Local Open Scope string_scope.
Local Open Scope list_scope.
Local Open Scope Z_scope.

(** ** Python values *)

(** What [json] decoding produces.  Floats, arrays and objects are never
    inspected by the script; they are carried as their text. *)
Inductive value : Type :=
| VNone
| VBool (b : bool)
| VInt (z : Z)
| VStr (s : string)
| VOther (text : string).

#[global] Instance value_eq_dec : EqDecision value.
Proof. solve_decision. Defined.

(** [==] on values: [True == 1] and [False == 0] hold in Python, every other
    comparison across kinds is false. *)
Definition py_eqb (a b : value) : bool :=
  match a, b with
  | VNone, VNone => true
  | VBool x, VBool y => bool_decide (x = y)
  | VInt x, VInt y => bool_decide (x = y)
  | VBool x, VInt y | VInt y, VBool x => bool_decide (y = if x then 1 else 0)
  | VStr x, VStr y => bool_decide (x = y)
  | VOther x, VOther y => bool_decide (x = y)
  | _, _ => false
  end.

(** [str(v)], as an f-string renders a value. *)
Definition py_str (v : value) : string :=
  match v with
  | VNone => "None"
  | VBool true => "True"
  | VBool false => "False"
  | VInt z => pretty z
  | VStr s => s
  | VOther t => t
  end.

(** An SSID record: a JSON object with string keys. *)
Abbreviation record := (gmap string value).

(** ** Strings *)

(** A Python string is modelled by the bytes of its UTF-8 encoding.
    Equality, concatenation and a prefix test are the same on the bytes as
    on the characters.  The two operations of the script that look at single
    characters are [lower], whose result is only compared with ["n"], and
    [int], which is modelled on ASCII text and left to the interpreter
    beyond. *)

Definition lower_ascii (c : ascii) : ascii :=
  let n := nat_of_ascii c in
  if (Nat.leb 65 n && Nat.leb n 90)%bool then ascii_of_nat (n + 32) else c.

(** [s.lower()] on the ASCII range.  No character outside that range
    lowers to an ASCII letter, so [lower s = "n"] tells what
    [s.lower() == "n"] does for every string. *)
Fixpoint lower (s : string) : string :=
  match s with
  | EmptyString => EmptyString
  | String c s' => String (lower_ascii c) (lower s')
  end.

(** [s.startswith(p)]. *)
Definition startswith (s p : string) : bool := String.prefix p s.

(** The whitespace [int] skips around an ASCII literal: space, tab, line
    feed, vertical tab, form feed and carriage return. *)
Definition is_space (c : ascii) : bool :=
  let n := nat_of_ascii c in
  ((Nat.leb 9 n && Nat.leb n 13) || Nat.eqb n 32)%bool.

Definition digit_of (c : ascii) : option Z :=
  let n := nat_of_ascii c in
  if (Nat.leb 48 n && Nat.leb n 57)%bool then Some (Z.of_nat (n - 48)) else None.

Fixpoint lstrip (l : list ascii) : list ascii :=
  match l with
  | c :: l' => if is_space c then lstrip l' else l
  | [] => []
  end.

Definition strip (l : list ascii) : list ascii := rev (lstrip (rev (lstrip l))).

(** Digits of an [int] literal: groups of decimal digits, a single
    underscore allowed between two digits.  [prev] tells whether the
    previous character was a digit. *)
Fixpoint parse_digits (l : list ascii) (acc : Z) (prev : bool) : option Z :=
  match l with
  | [] => if prev then Some acc else None
  | c :: l' =>
      match digit_of c with
      | Some d => parse_digits l' (10 * acc + d) true
      | None =>
          if (Ascii.eqb c "_" && prev)%bool then
            match l' with
            | c' :: _ => if digit_of c' is Some _ then parse_digits l' acc false else None
            | [] => None
            end
          else None
      end
  end.

(** The number of digits [int] converts at most, as CPython sets it by
    default ([sys.int_info.default_max_str_digits]). *)
Definition int_max_str_digits : Z := 4300.

(** [int(s)] for an ASCII string in base 10: surrounding whitespace is
    dropped, a sign may come first, and a literal with more digits than the
    limit is refused.  [None] stands for [ValueError]. *)
Definition parse_int (s : string) : option Z :=
  let l := strip (list_ascii_of_string s) in
  if int_max_str_digits <? Z.of_nat (length (omap digit_of l)) then None else
  match l with
  | "+"%char :: l => parse_digits l 0 false
  | "-"%char :: l => Z.opp <$> parse_digits l 0 false
  | l => parse_digits l 0 false
  end.

Definition is_ascii (s : string) : bool :=
  forallb (fun c => Nat.ltb (nat_of_ascii c) 128) (list_ascii_of_string s).

(** What the script takes from its interpreter beyond what is modelled
    here: [int] also accepts the decimal digits and the spaces of other
    scripts, as the interpreter's Unicode tables have them.
    [int_non_ascii s] is what [int(s)] returns for a string with a character
    outside ASCII, [None] standing for [ValueError]. *)
Class Interpreter : Type := {
  int_non_ascii : string -> option Z;
}.

(** [int(s)], [None] standing for [ValueError]. *)
Definition int_of_str {interpreter : Interpreter} (s : string) : option Z :=
  if is_ascii s then parse_int s else int_non_ascii s.

(** ** Exceptions *)

(** Instances of Python's [Exception].  What the interpreter raises for an
    operation of the script is kept by its class, [KeyError] with the
    missing key; the wording of its message varies with the interpreter and
    is not modelled.  What the rich library and the dashboard library raise
    carries its text. *)
Inductive exn : Type :=
| KeyError (key : string)
| AttributeError
| ValueError
| IndexError
| EOFError
| MarkupError (msg : string)
| APIError (msg : string).

(** [str(e)], what [print(e)] writes.  The handlers of the script enclose the
    update call only: what they print is the text of an exception that came
    out of the dashboard library. *)
Definition exn_text (e : exn) : string :=
  match e with
  | KeyError k => "'" +:+ k +:+ "'"
  | MarkupError m | APIError m => m
  | AttributeError | ValueError | IndexError => ""
  | EOFError => "EOF when reading a line"
  end.

Inductive res (A : Type) : Type :=
| Ok (a : A)
| Raise (e : exn).
Arguments Ok {A} a.
Arguments Raise {A} e.

(** ** Insertion-ordered dictionaries *)

Module PyDict.
Section Dict.
Context {V : Type}.

Definition dict := list (string * V).

(** [d[k]], [None] standing for [KeyError]. *)
Fixpoint get (d : dict) (k : string) : option V :=
  match d with
  | [] => None
  | (k', v) :: d' => if String.eqb k' k then Some v else get d' k
  end.

(** [d[k] = v]: an existing key keeps its place, a new key goes last. *)
Fixpoint set (d : dict) (k : string) (v : V) : dict :=
  match d with
  | [] => [(k, v)]
  | (k', v') :: d' =>
      if String.eqb k' k then (k', v) :: d' else (k', v') :: set d' k v
  end.

(** Iteration order of [for k in d]. *)
Definition keys (d : dict) : list string := map fst d.

End Dict.
Arguments dict V : clear implicits.
End PyDict.

(** ** The console *)

Fixpoint has_bracket (text : string) : bool :=
  match text with
  | EmptyString => false
  | String c rest => (Ascii.eqb c "[" || has_bracket rest)%bool
  end.

(** The rich console parses what it prints as console markup, and refuses
    a text it cannot render: a closing tag that closes nothing makes
    [console.print] raise [MarkupError] before anything is written.  The
    parser is the library's: [markup_error text] is the message of the
    exception for a text that does not render, [None] for a text that does.
    A tag opens with a bracket, so a text without one renders. *)
Class Console : Type := {
  markup_error : string -> option string;
  markup_error_plain (text : string) :
    has_bracket text = false -> markup_error text = None;
}.

(** ** The dashboard *)

(** The fields the script reads from a network object of the dashboard. *)
Record network : Type := Network {
  net_id : string;
  net_name : string;
  productTypes : list string;
}.

(** A device object; the script only counts them. *)
Abbreviation device := (gmap string value) (only parsing).

(** The four operations of the dashboard library the script calls, over an
    abstract state [D] of the organization.  The three listings read the
    state, [updateNetworkWirelessSsid] changes it; each may raise. *)
Record Dashboard (D : Type) : Type := {
  getOrganizationNetworks : D -> string -> res (list network);
  getOrganizationDevices : D -> string -> string -> string -> res (list device);
  getNetworkWirelessSsids : D -> string -> res (list record);
  updateNetworkWirelessSsid : D -> string -> value -> record -> res record * D;
}.
Arguments getOrganizationNetworks {D}.
Arguments getOrganizationDevices {D}.
Arguments getNetworkWirelessSsids {D}.
Arguments updateNetworkWirelessSsid {D}.

(** What a run does that can be observed from outside: console output,
    console input and the requests sent to the dashboard. *)
Inductive event : Type :=
| EPanel (title : option string) (text : string)
| EProgress (text : string)
| EPrint (text : string)
| EPrompt (text : string)
| ERead (line : string)
| EGetOrganizationNetworks (org : string)
| EGetOrganizationDevices (org net tag : string)
| EGetNetworkWirelessSsids (net : string)
| EUpdateNetworkWirelessSsid (net : string) (number : value) (payload : record).

(** A request that reads or writes SSIDs. *)
Definition is_ssid_request (e : event) : bool :=
  match e with
  | EGetNetworkWirelessSsids _ | EUpdateNetworkWirelessSsid _ _ _ => true
  | _ => false
  end.

Definition is_update (e : event) : bool :=
  match e with
  | EUpdateNetworkWirelessSsid _ _ _ => true
  | _ => false
  end.

(** ** The store of SSID objects *)

(** A reference to an SSID object: its position in the store. *)
Definition ref := nat.

Definition heap_get (h : list record) (r : ref) : record := default ∅ (h !! r).
Definition heap_set (h : list record) (r : ref) (v : record) : list record :=
  <[r := v]> h.

(** The element a Python list yields for index [i]: a negative index counts
    from the end. [None] stands for [IndexError]. *)
Definition list_getitem {A} (l : list A) (i : Z) : option A :=
  let n := Z.of_nat (length l) in
  if 0 <=? i then l !! Z.to_nat i
  else if - n <=? i then l !! Z.to_nat (n + i)
  else None.

(** ** The script *)

Section Script.
Context {D : Type} (dashboard : Dashboard D).
Context {console : Console} {interpreter : Interpreter}.

(** The state a run threads: the organization as the dashboard sees it and
    the store of SSID objects. *)
Record state : Type := State { dash : D; heap : list record }.

(** A computation: from a state to a result or a raised exception, the
    state it leaves and the events it produced, oldest first. *)
Definition M (A : Type) : Type := state -> res A * state * list event.

Definition ret {A} (a : A) : M A := fun s => (Ok a, s, []).

Definition bind {A B} (m : M A) (f : A -> M B) : M B := fun s =>
  match m s with
  | (Ok a, s1, ev1) => let '(r, s2, ev2) := f a s1 in (r, s2, ev1 ++ ev2)
  | (Raise e, s1, ev1) => (Raise e, s1, ev1)
  end.

Definition raise {A} (e : exn) : M A := fun s => (Raise e, s, []).

(** [try: body / except Exception as e: handler e]. *)
Definition try_except {A} (body : M A) (handler : exn -> M A) : M A := fun s =>
  match body s with
  | (Ok a, s1, ev1) => (Ok a, s1, ev1)
  | (Raise e, s1, ev1) => let '(r, s2, ev2) := handler e s1 in (r, s2, ev1 ++ ev2)
  end.

Definition emit (e : event) : M unit := fun s => (Ok tt, s, [e]).

#[local] Notation "x <- m ;; k" := (bind m (fun x => k))
  (at level 100, m at next level, right associativity).
#[local] Notation "m ;;; k" := (bind m (fun _ => k))
  (at level 100, right associativity).

Definition print (text : string) : M unit := emit (EPrint text).

(** What [console.print] does before it writes: the text is parsed as
    markup. *)
Definition render (text : string) : M unit :=
  match markup_error text with
  | Some msg => raise (MarkupError msg)
  | None => ret tt
  end.

(** [console.print(Panel.fit(text, title=title))].  The titles of the
    script are constants without a bracket. *)
Definition console_print_panel (title : option string) (text : string) : M unit :=
  render text ;;;
  emit (EPanel title text).

(** [progress.console.print(text)]. *)
Definition progress_console_print (text : string) : M unit :=
  render text ;;;
  emit (EProgress text).

(** An optional result, [None] raising [e]. *)
Definition or_raise {A} (o : option A) (e : exn) : M A :=
  match o with Some a => ret a | None => raise e end.

(** *** Objects *)

(** The objects of a decoded response enter the store one after the
    other; the references to them are returned in the same order. *)
Definition alloc_all (rs : list record) : M (list ref) := fun s =>
  (Ok (seq (length (heap s)) (length rs)),
   State (dash s) (heap s ++ rs), []).

Definition load (r : ref) : M record := fun s => (Ok (heap_get (heap s) r), s, []).

(** [obj[key]]. *)
Definition getitem (r : ref) (key : string) : M value :=
  obj <- load r ;;
  or_raise (obj !! key) (KeyError key).

(** [obj[key] = v]. *)
Definition setitem (r : ref) (key : string) (v : value) : M unit := fun s =>
  (Ok tt, State (dash s) (heap_set (heap s) r (<[key := v]> (heap_get (heap s) r))), []).

(** [obj.pop(key)]. *)
Definition pop (r : ref) (key : string) : M value :=
  v <- getitem r key ;;
  fun s => (Ok v, State (dash s) (heap_set (heap s) r (delete key (heap_get (heap s) r))), []).

(** [d[key]] on a dictionary of the script. *)
Definition dict_getitem {V} (d : PyDict.dict V) (key : string) : M V :=
  or_raise (PyDict.get d key) (KeyError key).

(** *** Calls to the dashboard *)

Definition of_res {A} (r : res A) : M A :=
  match r with Ok a => ret a | Raise e => raise e end.

Definition organizations_getOrganizationNetworks (org_id : string) : M (list network) :=
  emit (EGetOrganizationNetworks org_id) ;;;
  fun s => of_res (getOrganizationNetworks dashboard (dash s) org_id) s.

Definition organizations_getOrganizationDevices (org_id net tag : string)
  : M (list device) :=
  emit (EGetOrganizationDevices org_id net tag) ;;;
  fun s => of_res (getOrganizationDevices dashboard (dash s) org_id net tag) s.

Definition wireless_getNetworkWirelessSsids (net : string) : M (list ref) :=
  emit (EGetNetworkWirelessSsids net) ;;;
  ssids <- (fun s => of_res (getNetworkWirelessSsids dashboard (dash s) net) s) ;;
  alloc_all ssids.

Definition wireless_updateNetworkWirelessSsid (net : string) (number : value)
    (kwargs : record) : M record :=
  emit (EUpdateNetworkWirelessSsid net number kwargs) ;;;
  fun s =>
    let '(r, d') := updateNetworkWirelessSsid dashboard (dash s) net number kwargs in
    of_res r (State d' (heap s)).

(** *** [get_network_id] *)

(** The loop of [get_network_id]: the id of the first network whose name
    is [net_name]. *)
Fixpoint find_network (networks : list network) (net_name' : string) : option string :=
  match networks with
  | [] => None
  | network :: rest =>
      if String.eqb (net_name network) net_name' then Some (net_id network)
      else find_network rest net_name'
  end.

Definition get_network_id (org_id net_name' : string) : M (option string) :=
  networks <- organizations_getOrganizationNetworks org_id ;;
  ret (find_network networks net_name').

(** *** [get_wireless_networks] *)

Definition get_wireless_networks (org_id : string) : M (list network) :=
  networks <- organizations_getOrganizationNetworks org_id ;;
  ret (List.filter (fun network => bool_decide ("wireless" ∈ productTypes network))
         networks).

(** *** [get_all_ssids] *)

(** [name.startswith(p)] for a field of an object: only a string has the
    method. *)
Definition value_startswith (name : value) (p : string) : M bool :=
  match name with
  | VStr s => ret (startswith s p)
  | _ => raise AttributeError
  end.

(** The inner loop: the SSIDs of one network that are not placeholders
    are appended to [all_ssids]. *)
Fixpoint keep_configured (ssids : list ref) (all_ssids : list ref) : M (list ref) :=
  match ssids with
  | [] => ret all_ssids
  | ssid :: rest =>
      name <- getitem ssid "name" ;;
      unconfigured <- value_startswith name "Unconfigured" ;;
      keep_configured rest (if unconfigured then all_ssids else all_ssids ++ [ssid])
  end.

Fixpoint get_all_ssids_from (wireless_networks : list network) (all_ssids : list ref)
  : M (list ref) :=
  match wireless_networks with
  | [] => ret all_ssids
  | net :: rest =>
      progress_console_print
        ("Retrieving SSIDs for the " +:+ net_name net +:+ " network") ;;;
      ssids <- wireless_getNetworkWirelessSsids (net_id net) ;;
      all_ssids' <- keep_configured ssids all_ssids ;;
      get_all_ssids_from rest all_ssids'
  end.

Definition get_all_ssids (wireless_networks : list network) : M (list ref) :=
  get_all_ssids_from wireless_networks [].

(** *** [make_ssid_dict] *)

(** The name is used as a dictionary key; every value the model has is
    hashable.  Keys of the catalogue are strings because [get_all_ssids]
    only lets string names through; another key is rendered. *)
Fixpoint make_ssid_dict_from (ssids : list ref) (ssid_dict : PyDict.dict ref)
  : M (PyDict.dict ref) :=
  match ssids with
  | [] => ret ssid_dict
  | ssid :: rest =>
      name <- getitem ssid "name" ;;
      make_ssid_dict_from rest (PyDict.set ssid_dict (py_str name) ssid)
  end.

Definition make_ssid_dict (ssids : list ref) : M (PyDict.dict ref) :=
  make_ssid_dict_from ssids [].

(** *** [get_ap_ssids] *)

Fixpoint get_ap_ssids_from (org_id net : string) (ssids : list ref)
    (network_ssids : gset string) : M (gset string) :=
  match ssids with
  | [] => ret network_ssids
  | ssid :: rest =>
      tag <- getitem ssid "name" ;;
      progress_console_print ("Retrieving all APs with the tag " +:+ py_str tag) ;;;
      aps <- organizations_getOrganizationDevices org_id net (py_str tag) ;;
      get_ap_ssids_from org_id net rest
        (fold_left (fun acc _ => {[py_str tag]} ∪ acc) aps network_ssids)
  end.

Definition get_ap_ssids (org_id net : string) (ssids : list ref) : M (gset string) :=
  get_ap_ssids_from org_id net ssids ∅.

(** *** [configure_net_ssids] *)

Definition configure_net_ssids (net : string) (ssid_config : ref) : M bool :=
  setitem ssid_config "number" (VInt 3) ;;;
  ssid_num <- pop ssid_config "number" ;;
  try_except
    (kwargs <- load ssid_config ;;
     wireless_updateNetworkWirelessSsid net ssid_num kwargs ;;;
     ret true)
    (fun e =>
       name <- getitem ssid_config "name" ;;
       print ("There was an issue configuring the SSID " +:+ py_str name
              +:+ " for the following reason:") ;;;
       print (exn_text e) ;;;
       ret false).

(** *** [get_psk_net_ssids] *)

(** The dictionary [{"name": .., "number": .., "net_id": ..}] built for an
    SSID with a pre-shared key. *)
Record psk_ssid : Type := PskSsid {
  psk_name : value;
  psk_number : value;
  psk_net_id : string;
}.

(** [==] on two such dictionaries. *)
Definition psk_ssid_eqb (a b : psk_ssid) : bool :=
  py_eqb (psk_name a) (psk_name b) && py_eqb (psk_number a) (psk_number b)
  && String.eqb (psk_net_id a) (psk_net_id b).

Fixpoint keep_psk (net : string) (ssids : list ref) (psk_ssids : list psk_ssid)
  : M (list psk_ssid) :=
  match ssids with
  | [] => ret psk_ssids
  | ssid :: rest =>
      authMode <- getitem ssid "authMode" ;;
      if py_eqb authMode (VStr "psk") then
        name <- getitem ssid "name" ;;
        number <- getitem ssid "number" ;;
        keep_psk net rest (psk_ssids ++ [PskSsid name number net])
      else keep_psk net rest psk_ssids
  end.

Definition get_psk_net_ssids (net : string) : M (list psk_ssid) :=
  ssids <- wireless_getNetworkWirelessSsids net ;;
  keep_psk net ssids [].

(** *** [change_ssid_psk] *)

Definition psk_kwargs (psk : string) : record :=
  <["authMode" := VStr "psk"]> (<["psk" := VStr psk]> ∅).

Definition change_ssid_psk (net : string) (ssid_num : value) (psk : string) : M bool :=
  try_except
    (wireless_updateNetworkWirelessSsid net ssid_num (psk_kwargs psk) ;;;
     ret true)
    (fun e =>
       print "There was an issue assigning a new password to the SSID for the following reason:" ;;;
       print (exn_text e) ;;;
       ret false).

(** *** [main] *)

(** Step 2: the loop over [NET_NAMES].  [None] is the early [return] of
    [main] after an unresolved name. *)
Fixpoint resolve_networks (org_id : string) (names : list string)
    (net_id_to_name : PyDict.dict string) : M (option (PyDict.dict string)) :=
  match names with
  | [] => ret (Some net_id_to_name)
  | network :: rest =>
      console_print_panel (Some "Step 2") ("Get network ID for network " +:+ network) ;;;
      found <- get_network_id org_id network ;;
      match found with
      | None =>
          print ("There was an error trying to find the network with name " +:+ network) ;;;
          print "Aborting program..." ;;;
          ret None
      | Some id => resolve_networks org_id rest (PyDict.set net_id_to_name id network)
      end
  end.

(** Step 5: the loop over the keys of [net_id_to_name]. *)
Fixpoint match_networks (org_id : string) (all_ssids : list ref) (net_ids : list string)
    (network_to_ssids : PyDict.dict (gset string)) : M (PyDict.dict (gset string)) :=
  match net_ids with
  | [] => ret network_to_ssids
  | net :: rest =>
      matched <- get_ap_ssids org_id net all_ssids ;;
      match_networks org_id all_ssids rest (PyDict.set network_to_ssids net matched)
  end.

(** Step 6, inner loop: the matched SSID names of one network.  The names
    come in the order the set yields them. *)
Fixpoint configure_ssids (net_id_to_name : PyDict.dict string)
    (ssid_dict : PyDict.dict ref) (net : string) (ssid_names : list string) : M unit :=
  match ssid_names with
  | [] => ret tt
  | ssid_name :: rest =>
      ssid <- dict_getitem ssid_dict ssid_name ;;
      configured <- configure_net_ssids net ssid ;;
      name <- dict_getitem net_id_to_name net ;;
      print (if configured : bool
             then name +:+ " configured with ssid " +:+ ssid_name
             else "There was an issue configuring ssid " +:+ ssid_name +:+ " on " +:+ name) ;;;
      configure_ssids net_id_to_name ssid_dict net rest
  end.

(** Step 6, outer loop: the keys of [network_to_ssids]. *)
Fixpoint configure_networks (net_id_to_name : PyDict.dict string)
    (ssid_dict : PyDict.dict ref) (network_to_ssids : PyDict.dict (gset string))
    (net_ids : list string) : M unit :=
  match net_ids with
  | [] => ret tt
  | net :: rest =>
      name <- dict_getitem net_id_to_name net ;;
      progress_console_print ("Configuring the SSIDs of the " +:+ name +:+ " network") ;;;
      ssid_names <- dict_getitem network_to_ssids net ;;
      configure_ssids net_id_to_name ssid_dict net (elements ssid_names) ;;;
      configure_networks net_id_to_name ssid_dict network_to_ssids rest
  end.

(** Step 7: [psk_ssids += get_psk_net_ssids(dashboard, net_id)] for the
    keys of [network_to_ssids]. *)
Fixpoint collect_psk_ssids (net_ids : list string) (psk_ssids : list psk_ssid)
  : M (list psk_ssid) :=
  match net_ids with
  | [] => ret psk_ssids
  | net :: rest =>
      found <- get_psk_net_ssids net ;;
      collect_psk_ssids rest (psk_ssids ++ found)
  end.

(** [l.index(x)]: the position of the first element equal to [x]. *)
Fixpoint list_index (l : list psk_ssid) (x : psk_ssid) : option nat :=
  match l with
  | [] => None
  | y :: l' => if psk_ssid_eqb y x then Some O else S <$> list_index l' x
  end.

Definition psk_line (index : nat) (name : value) (net_name' : string) : string :=
  pretty index +:+ " - " +:+ py_str name +:+ " of " +:+ net_name'.

(** Step 7: the listing, [todo] running over [psk_ssids]. *)
Fixpoint print_psk_ssids (net_id_to_name : PyDict.dict string)
    (psk_ssids todo : list psk_ssid) : M unit :=
  match todo with
  | [] => ret tt
  | ssid :: rest =>
      index <- or_raise (list_index psk_ssids ssid) ValueError ;;
      name <- dict_getitem net_id_to_name (psk_net_id ssid) ;;
      print (psk_line index (psk_name ssid) name) ;;;
      print_psk_ssids net_id_to_name psk_ssids rest
  end.

Definition index_prompt : string :=
  "Enter the number corresponding to the SSID whose password you'd like to change or enter N for none: ".
Definition psk_prompt : string :=
  "Enter the new password you'd like to assign to the SSID: ".

(** [int(s)]. *)
Definition py_int (s : string) : M Z := or_raise (int_of_str s) ValueError.

(** [l[i]]. *)
Definition py_getitem {A} (l : list A) (i : Z) : M A :=
  or_raise (list_getitem l i) IndexError.

(** The prompt loop.  [stdin] holds the lines still to be read; [input]
    raises [EOFError] when none is left.  One turn of the function is the
    [input] that precedes a test of the [while] condition, the test, and
    the body up to the next [input].  The lines not read are returned. *)
Fixpoint prompt_loop (net_id_to_name : PyDict.dict string)
    (psk_ssids : list psk_ssid) (stdin : list string) : M (list string) :=
  emit (EPrompt index_prompt) ;;;
  match stdin with
  | [] => raise EOFError
  | ssid_index :: stdin1 =>
      emit (ERead ssid_index) ;;;
      if String.eqb (lower ssid_index) "n" then ret stdin1 else
      index <- py_int ssid_index ;;
      ssid <- py_getitem psk_ssids index ;;
      name <- dict_getitem net_id_to_name (psk_net_id ssid) ;;
      emit (EPrompt psk_prompt) ;;;
      match stdin1 with
      | [] => raise EOFError
      | new_psk :: stdin2 =>
          emit (ERead new_psk) ;;;
          configured <- change_ssid_psk (psk_net_id ssid) (psk_number ssid) new_psk ;;
          print (if configured : bool
                 then py_str (psk_name ssid) +:+ " of network " +:+ name
                      +:+ " configured with a new psk"
                 else "There was an issue configuring a new psk for "
                      +:+ py_str (psk_name ssid) +:+ " of network " +:+ name) ;;;
          prompt_loop net_id_to_name psk_ssids stdin2
      end
  end.

(** [main] from its first line to the listing of step 7, for the
    configuration already read from the environment.  The progress bar of
    steps 4 to 6 only decorates the console and is left out.  [None] is
    the early [return]; otherwise the two values the prompt loop uses. *)
Definition main_batch (ORG_ID : string) (NET_NAMES : list string)
  : M (option (PyDict.dict string * list psk_ssid)) :=
  console_print_panel None "Meraki AP SSID Configuration" ;;;
  console_print_panel (Some "Step 1") "Connect to Meraki dashboard" ;;;
  resolved <- resolve_networks ORG_ID NET_NAMES [] ;;
  match resolved with
  | None => ret None
  | Some net_id_to_name =>
      console_print_panel (Some "Step 3") "Get all wireless networks from the Meraki organization" ;;;
      wireless_networks <- get_wireless_networks ORG_ID ;;
      console_print_panel (Some "Step 4") "Retrieve all the SSIDs from the Meraki organization" ;;;
      all_ssids <- get_all_ssids wireless_networks ;;
      ssid_dict <- make_ssid_dict all_ssids ;;
      console_print_panel (Some "Step 5") "Find which SSIDs need to be configured by AP tags" ;;;
      network_to_ssids <- match_networks ORG_ID all_ssids (PyDict.keys net_id_to_name) [] ;;
      console_print_panel (Some "Step 6") "Configure networks with the necessary SSIDs" ;;;
      configure_networks net_id_to_name ssid_dict network_to_ssids
        (PyDict.keys network_to_ssids) ;;;
      console_print_panel (Some "Step 7") "Configure new passwords on SSIDs" ;;;
      psk_ssids <- collect_psk_ssids (PyDict.keys network_to_ssids) [] ;;
      print_psk_ssids net_id_to_name psk_ssids psk_ssids ;;;
      ret (Some (net_id_to_name, psk_ssids))
  end.

Definition main (ORG_ID : string) (NET_NAMES : list string) (stdin : list string)
  : M unit :=
  batch <- main_batch ORG_ID NET_NAMES ;;
  match batch with
  | None => ret tt
  | Some (net_id_to_name, psk_ssids) =>
      prompt_loop net_id_to_name psk_ssids stdin ;;;
      ret tt
  end.

End Script.

Arguments State {D} dash heap.
Arguments dash {D} s.
Arguments heap {D} s.

(** ** A small organization *)

(** A concrete dashboard the statements below are exercised on: two
    wireless networks and one appliance network; the state holds the number
    of updates the dashboard still accepts and the access points with their
    network and tag. *)
Module Demo.

Record org : Type := Org { accepted : nat; aps : list (string * string) }.

Definition ssid (name : string) (number : Z) (authMode : string) : record :=
  <["name" := VStr name]> (<["number" := VInt number]> (<["authMode" := VStr authMode]> ∅)).

Definition networks : list network :=
  [ Network "N1" "Branch-A" ["wireless"];
    Network "N2" "Branch-B" ["appliance"; "wireless"];
    Network "N3" "HQ" ["appliance"] ].

Definition ssids_of (net : string) : list record :=
  if String.eqb net "N1" then
    [ssid "Guest" 0 "psk"; ssid "Staff" 1 "psk"; ssid "Unconfigured SSID 3" 2 "open"]
  else if String.eqb net "N2" then
    [<["enabled" := VBool false]> (ssid "Guest" 0 "open"); ssid "Lab" 1 "psk"]
  else [].

Definition ap_of (net tag : string) (ap : string * string) : bool :=
  (String.eqb (fst ap) net && String.eqb (snd ap) tag)%bool.

Definition dashboard : Dashboard org := {|
  getOrganizationNetworks := fun _ _ => Ok networks;
  getOrganizationDevices := fun d _ net tag =>
    Ok (map (fun ap => {["tags" := VOther (snd ap)]}) (List.filter (ap_of net tag) (aps d)));
  getNetworkWirelessSsids := fun _ net => Ok (ssids_of net);
  updateNetworkWirelessSsid := fun d net number kwargs =>
    match accepted d with
    | O => (Raise (APIError "400 Bad Request"), d)
    | S n => (Ok kwargs, Org n (aps d))
    end;
|}.

(** One access point in Branch-A, tagged Guest. *)
Definition one_ap : list (string * string) := [("N1", "Guest")].

Definition start (accepted' : nat) (aps' : list (string * string)) : state :=
  State (Org accepted' aps') [].

(** The store after the SSIDs of Branch-A were fetched. *)
Definition fetched : list record := ssids_of "N1".

(** A console that refuses every text with a closing tag in it. *)
Fixpoint has_closing_tag (text : string) : bool :=
  match text with
  | EmptyString => false
  | String c rest =>
      match rest with
      | String c' _ => (Ascii.eqb c "[" && Ascii.eqb c' "/") || has_closing_tag rest
      | EmptyString => false
      end
  end%bool.

Definition refuse_closing_tag (text : string) : option string :=
  if has_closing_tag text then Some "closing tag doesn't match any open tag" else None.

Lemma refuse_closing_tag_plain text :
  has_bracket text = false -> refuse_closing_tag text = None.
Proof.
  unfold refuse_closing_tag.
  induction text as [|c rest IH]; [done|]. cbn [has_bracket has_closing_tag].
  intros [Hc Hrest]%orb_false_iff. destruct rest as [|c' rest']; [done|].
  rewrite Hc. exact (IH Hrest).
Qed.

Definition console : Console := {|
  markup_error := refuse_closing_tag;
  markup_error_plain := refuse_closing_tag_plain;
|}.

(** The lines typed in the examples are ASCII: this interpreter is asked
    nothing, and reads no other numeral. *)
Definition interpreter : Interpreter := {| int_non_ascii := fun _ => None |}.

End Demo.

(** * Vocabulary of the properties *)

(** Unfolds the plumbing of the monad and of the calls, leaving the
    script's loops and the dashboard's answers in place. *)
Ltac munfold :=
  cbv beta iota zeta delta
    [bind ret raise try_except emit print or_raise load getitem setitem pop
     dict_getitem of_res alloc_all py_int py_getitem
     render console_print_panel progress_console_print
     organizations_getOrganizationNetworks organizations_getOrganizationDevices
     wireless_getNetworkWirelessSsids wireless_updateNetworkWirelessSsid
     dash heap].

(** [d[k] = v] for each pair of a list, in order. *)
Definition set_all {V} (d : PyDict.dict V) (kvs : list (string * V)) : PyDict.dict V :=
  fold_left (fun d kv => PyDict.set d kv.1 kv.2) kvs d.

Definition no_ssid_request (ev : list event) : bool :=
  forallb (fun e => negb (is_ssid_request e)) ev.

Definition abort_lines (network : string) : list event :=
  [EPrint ("There was an error trying to find the network with name " +:+ network);
   EPrint "Aborting program..."].

(** Every name resolves to an identifier of the listing. *)
Definition resolved_to (networks : list network) (NET_NAMES ids : list string) : Prop :=
  Forall2 (fun name id => find_network networks name = Some id) NET_NAMES ids.

Definition psk_failure_line : string :=
  "There was an issue assigning a new password to the SSID for the following reason:".

(** The events of a turn that reaches the update. *)
Definition turn_events (ssid_index new_psk : string) (ssid : psk_ssid)
    (name : string) (answer : res record) : list event :=
  [EPrompt index_prompt; ERead ssid_index; EPrompt psk_prompt; ERead new_psk;
   EUpdateNetworkWirelessSsid (psk_net_id ssid) (psk_number ssid) (psk_kwargs new_psk)]
  ++ match answer with
     | Ok _ =>
         [EPrint (py_str (psk_name ssid) +:+ " of network " +:+ name
                  +:+ " configured with a new psk")]
     | Raise e =>
         [EPrint psk_failure_line; EPrint (exn_text e);
          EPrint ("There was an issue configuring a new psk for "
                  +:+ py_str (psk_name ssid) +:+ " of network " +:+ name)]
     end.

(** The lines typed in turns that reach the update: an index line and a
    password line for each. *)
Definition turn_lines (turns : list (string * string)) : list string :=
  flat_map (fun turn => [turn.1; turn.2]) turns.

(** An index line that selects an entry of the listing, the name of whose
    network is known. *)
Definition selects {interpreter : Interpreter} (net_id_to_name : PyDict.dict string)
    (psk_ssids : list psk_ssid) (ssid_index : string) : Prop :=
  lower ssid_index <> "n"
  /\ exists index ssid,
       int_of_str ssid_index = Some index
       /\ list_getitem psk_ssids index = Some ssid
       /\ is_Some (PyDict.get net_id_to_name (psk_net_id ssid)).

(** Every name of [ssid_names] is in the catalogue and refers to an object
    of the store that has a [name]. *)
Definition catalogue_covers (ssid_dict : PyDict.dict ref) (h : list record)
    (ssid_names : list string) : Prop :=
  Forall (fun ssid_name => exists r rec,
            PyDict.get ssid_dict ssid_name = Some r
            /\ h !! r = Some rec /\ is_Some (rec !! "name")) ssid_names.

(** The records of a response that enter the catalogue, each with its name
    and the reference it gets when the response is stored from [base] on. *)
Fixpoint catalogue_entries (base : nat) (fetched : list record) : list (string * ref) :=
  match fetched with
  | [] => []
  | rec :: rest =>
      match rec !! "name" with
      | Some (VStr name) =>
          if startswith name "Unconfigured" then catalogue_entries (S base) rest
          else (name, base) :: catalogue_entries (S base) rest
      | _ => catalogue_entries (S base) rest
      end
  end.

Definition has_string_name (rec : record) : Prop :=
  exists name, rec !! "name" = Some (VStr name).

Definition named_in (h : list record) (entry : string * ref) : Prop :=
  exists rec, h !! entry.2 = Some rec /\ rec !! "name" = Some (VStr entry.1).

Definition fetch_events (wireless_networks : list network) : list event :=
  flat_map (fun net =>
              [EProgress ("Retrieving SSIDs for the " +:+ net_name net +:+ " network");
               EGetNetworkWirelessSsids (net_id net)]) wireless_networks.

Definition is_psk (rec : record) : bool :=
  match rec !! "authMode" with
  | Some authMode => py_eqb authMode (VStr "psk")
  | None => false
  end.

Definition number_of (rec : record) : value := default VNone (rec !! "number").

(** The entry of the listing made from a record of a network. *)
Definition to_psk_ssid (net : string) (rec : record) : psk_ssid :=
  PskSsid (default VNone (rec !! "name")) (number_of rec) net.

(** The entries of one network: its records with [authMode == "psk"], in the
    order of the response. *)
Definition psk_entries (net : string) (fetched : list record) : list psk_ssid :=
  to_psk_ssid net <$> List.filter is_psk fetched.

(** A record the loop of [get_psk_net_ssids] reads without a [KeyError]. *)
Definition psk_ready (rec : record) : Prop :=
  is_Some (rec !! "authMode")
  /\ (is_psk rec = true -> is_Some (rec !! "name") /\ is_Some (rec !! "number")).

(** No two records of the list have slot numbers that compare equal. *)
Fixpoint distinct_numbers (l : list record) : bool :=
  match l with
  | [] => true
  | rec :: rest =>
      forallb (fun other => negb (py_eqb (number_of rec) (number_of other))) rest
      && distinct_numbers rest
  end.

(** No entry compares equal to a later one. *)
Fixpoint all_distinct (l : list psk_ssid) : bool :=
  match l with
  | [] => true
  | x :: rest => forallb (fun y => negb (psk_ssid_eqb x y)) rest && all_distinct rest
  end.

(** The line of the listing for the entry at position [index]. *)
Definition listing_line (net_id_to_name : PyDict.dict string) (index : nat)
    (ssid : psk_ssid) : event :=
  EPrint (psk_line index (psk_name ssid)
            (default "" (PyDict.get net_id_to_name (psk_net_id ssid)))).

(** Every event a computation produces satisfies [P], however it ends. *)
Definition emits {D A} (P : event -> Prop) (m : @M D A) : Prop :=
  forall s r s' ev, m s = (r, s', ev) -> Forall P ev.

(** A computation that leaves the state as it found it, however it ends. *)
Definition reads_only {D A} (m : @M D A) : Prop :=
  forall s r s' ev, m s = (r, s', ev) -> s' = s.

Definition not_update (e : event) : Prop := is_update e = false.

(** The updates a run sent, in order. *)
Definition updates_of (ev : list event) : list event := List.filter is_update ev.

(** An update is for slot 3, carries no [number], and is sent to one of
    [targets]; any other event passes. *)
Definition slot_3_on (targets : list string) (e : event) : Prop :=
  match e with
  | EUpdateNetworkWirelessSsid net number payload =>
      number = VInt 3 /\ payload !! "number" = None /\ net ∈ targets
  | _ => True
  end.

(** Every update of a trace comes right after the reading of an index line
    and of a password line, and it sets the key of the entry the index line
    selects: it goes to the slot number and the network of that entry, with
    the password line as the key. *)
Definition rotation_trace {interpreter : Interpreter} (psk_ssids : list psk_ssid)
    (ev : list event) : Prop :=
  forall before net number payload after,
    ev = before ++ EUpdateNetworkWirelessSsid net number payload :: after ->
    exists earlier ssid_index index ssid new_psk,
      before = earlier ++ [EPrompt index_prompt; ERead ssid_index;
                           EPrompt psk_prompt; ERead new_psk]
      /\ int_of_str ssid_index = Some index
      /\ list_getitem psk_ssids index = Some ssid
      /\ net = psk_net_id ssid /\ number = psk_number ssid
      /\ payload = psk_kwargs new_psk.

(** The lines a trace has read, in order. *)
Definition lines_read (ev : list event) : list string :=
  omap (fun e => match e with ERead line => Some line | _ => None end) ev.

(** The name a stored object answers to as a tag, if it has one. *)
Definition tag_of (h : list record) (r : ref) : option string :=
  py_str <$> (heap_get h r !! "name").

(** The requests of [get_ap_ssids] for a list of catalogue objects. *)
Definition tag_requests (h : list record) (org_id net : string) (ssids : list ref)
  : list event :=
  flat_map (fun r => match tag_of h r with
                     | Some tag =>
                         [EProgress ("Retrieving all APs with the tag " +:+ tag);
                          EGetOrganizationDevices org_id net tag]
                     | None => []
                     end) ssids.

(** An object of the catalogue that [get_ap_ssids] gets past: it has a
    name, the console renders the line that announces the name as a tag,
    and the dashboard serves the device query for it. *)
Definition tag_served {D} (dashboard : Dashboard D) {console : Console} (d : D)
    (h : list record) (org_id net : string) (r : ref) : Prop :=
  exists tag,
    tag_of h r = Some tag
    /\ markup_error ("Retrieving all APs with the tag " +:+ tag) = None
    /\ exists aps, getOrganizationDevices dashboard d org_id net tag = Ok aps.

(** What reading the name of a fetched record for the placeholder test
    raises, if anything. *)
Definition name_error (rec : record) : option exn :=
  match rec !! "name" with
  | None => Some (KeyError "name")
  | Some (VStr _) => None
  | Some _ => Some AttributeError
  end.

(** The first key [get_psk_net_ssids] asks a record for and does not find. *)
Definition missing_key (rec : record) : option string :=
  match rec !! "authMode" with
  | None => Some "authMode"
  | Some authMode =>
      if py_eqb authMode (VStr "psk") then
        match rec !! "name", rec !! "number" with
        | None, _ => Some "name"
        | Some _, None => Some "number"
        | Some _, Some _ => None
        end
      else None
  end.

(** The small organization with the SSID listing answered by [answer]. *)
Module Faulty.

Definition dashboard (answer : string -> res (list record)) : Dashboard Demo.org := {|
  getOrganizationNetworks := getOrganizationNetworks Demo.dashboard;
  getOrganizationDevices := getOrganizationDevices Demo.dashboard;
  getNetworkWirelessSsids := fun _ net => answer net;
  updateNetworkWirelessSsid := updateNetworkWirelessSsid Demo.dashboard;
|}.

(** Branch-A answers, Branch-B is unreachable. *)
Definition outage (net : string) : res (list record) :=
  if String.eqb net "N1" then Ok (Demo.ssids_of "N1") else Raise (APIError "502 Bad Gateway").

(** Branch-A has a record without [name] and then one without [authMode]. *)
Definition broken (net : string) : res (list record) :=
  if String.eqb net "N1"
  then Ok [Demo.ssid "Guest" 0 "psk"; {["number" := VInt 1]}; {["name" := VStr "Staff"]}]
  else Ok [Demo.ssid "Lab" 0 "open"; {["name" := VStr "Staff"]}].

(** The listing of the organization is refused. *)
Definition unauthorized : Dashboard Demo.org := {|
  getOrganizationNetworks := fun _ _ => Raise (APIError "401 Unauthorized");
  getOrganizationDevices := getOrganizationDevices Demo.dashboard;
  getNetworkWirelessSsids := getNetworkWirelessSsids Demo.dashboard;
  updateNetworkWirelessSsid := updateNetworkWirelessSsid Demo.dashboard;
|}.

End Faulty.

(** The events of step 2 when every name resolves: a banner and a listing
    request for each configured name. *)
Definition resolution_requests (org_id : string) (names : list string) : list event :=
  flat_map (fun name =>
              [EPanel (Some "Step 2") ("Get network ID for network " +:+ name);
               EGetOrganizationNetworks org_id]) names.

(** The texts the script hands to the console with a name in them. *)
Definition step_2_banner (network : string) : string :=
  "Get network ID for network " +:+ network.
Definition fetch_line (net : network) : string :=
  "Retrieving SSIDs for the " +:+ net_name net +:+ " network".
Definition tag_line (tag : string) : string :=
  "Retrieving all APs with the tag " +:+ tag.
Definition configure_line (name : string) : string :=
  "Configuring the SSIDs of the " +:+ name +:+ " network".

(** What step 6 needs of a target network: its name is known and the line
    that announces it renders, it has a set of matched names, and the
    catalogue covers that set. *)
Definition step_6_ready {console : Console} (net_id_to_name : PyDict.dict string)
    (ssid_dict : PyDict.dict ref) (network_to_ssids : PyDict.dict (gset string))
    (h : list record) (net : string) : Prop :=
  (exists name, PyDict.get net_id_to_name net = Some name
                /\ markup_error (configure_line name) = None)
  /\ exists matched, PyDict.get network_to_ssids net = Some matched
                     /\ catalogue_covers ssid_dict h (elements matched).

(** The number of names matched over the given networks. *)
Definition matched_total (network_to_ssids : PyDict.dict (gset string))
    (net_ids : list string) : nat :=
  sum_list ((fun net => size (default ∅ (PyDict.get network_to_ssids net))) <$> net_ids).

(** The device query for a tag returns at least one access point. *)
Definition has_ap {D} (dashboard : Dashboard D) (d : D) (org_id net tag : string) : bool :=
  match getOrganizationDevices dashboard d org_id net tag with
  | Ok (_ :: _) => true
  | _ => false
  end.

Section Outcomes.
Context {D : Type} (dashboard : Dashboard D).
Context {console : Console} {interpreter : Interpreter}.

(** What one call does, in one equation: the record loses its [number],
    the update is sent for slot 3 with the fields that remain, and the
    outcome follows the dashboard's answer. *)
Definition configure_outcome (s : state) (net : string) (r : ref) (rec : record)
  : res bool * state * list event :=
  let kwargs := delete "number" rec in
  let h := heap_set (heap s) r kwargs in
  let request := EUpdateNetworkWirelessSsid net (VInt 3) kwargs in
  match updateNetworkWirelessSsid dashboard (dash s) net (VInt 3) kwargs with
  | (Ok _, d) => (Ok true, State d h, [request])
  | (Raise e, d) =>
      match rec !! "name" with
      | Some name =>
          (Ok false, State d h,
           [request;
            EPrint ("There was an issue configuring the SSID " +:+ py_str name
                    +:+ " for the following reason:");
            EPrint (exn_text e)])
      | None => (Raise (KeyError "name"), State d h, [request])
      end
  end.

(** The run stops at the first name that does not resolve: it prints the
    name, returns, and has sent no request that reads or writes SSIDs. *)
Definition aborts_before_ssids (s : state) ORG_ID NET_NAMES stdin networks : Prop :=
  exists before name after ev0,
    NET_NAMES = before ++ name :: after
    /\ Forall (fun n => is_Some (find_network networks n)) before
    /\ find_network networks name = None
    /\ main dashboard ORG_ID NET_NAMES stdin s = (Ok tt, s, ev0 ++ abort_lines name)
    /\ no_ssid_request (ev0 ++ abort_lines name) = true.

(** The run stops at the first banner of step 2 the console cannot render:
    [MarkupError] leaves [main], which has sent no request that reads or
    writes SSIDs. *)
Definition stops_at_banner (s : state) ORG_ID NET_NAMES stdin networks : Prop :=
  exists before name after msg ev0,
    NET_NAMES = before ++ name :: after
    /\ Forall (fun n => is_Some (find_network networks n)) before
    /\ markup_error (step_2_banner name) = Some msg
    /\ main dashboard ORG_ID NET_NAMES stdin s = (Raise (MarkupError msg), s, ev0)
    /\ no_ssid_request ev0 = true.

(** The dichotomy with the identifiers required to be pairwise distinct. *)
Definition distinct_ids_or_abort (s : state) ORG_ID NET_NAMES stdin networks : Prop :=
  (exists ids, resolved_to networks NET_NAMES ids /\ NoDup ids)
  \/ aborts_before_ssids s ORG_ID NET_NAMES stdin networks.

(** Malformed input with the bounds of the listing read as its positions,
    [0] to its length less one: a line that [int] reads as a number outside
    them ends the loop with an exception. *)
Definition outside_positions_raises (net_id_to_name : PyDict.dict string)
    (psk_ssids : list psk_ssid) : Prop :=
  forall (s : state) ssid_index index stdin,
    lower ssid_index <> "n" ->
    int_of_str ssid_index = Some index ->
    index < 0 \/ Z.of_nat (length psk_ssids) <= index ->
    exists e s' ev,
      prompt_loop dashboard net_id_to_name psk_ssids (ssid_index :: stdin) s
      = (Raise e, s', ev).

End Outcomes.

(** * Properties *)

(** ** The store *)

Lemma heap_get_lookup (h : list record) r rec :
  h !! r = Some rec -> heap_get h r = rec.
Proof. unfold heap_get. by intros ->. Qed.

Lemma heap_get_set_eq (h : list record) r v rec :
  h !! r = Some rec -> heap_get (heap_set h r v) r = v.
Proof.
  intros Hr. unfold heap_get, heap_set.
  rewrite list_lookup_insert_eq; [done | by eapply lookup_lt_Some].
Qed.

Lemma heap_set_set (h : list record) r v w :
  heap_set (heap_set h r v) r w = heap_set h r w.
Proof. apply list_insert_insert_eq. Qed.

(** ** Runs of two computations in sequence *)

Section Binds.
Context {D : Type}.

Lemma bind_Ok_inv {A B} (m : M A) (f : A -> M B) (s s2 : @state D) b ev :
  bind m f s = (Ok b, s2, ev) ->
  exists a s1 ev1 ev2,
    m s = (Ok a, s1, ev1) /\ f a s1 = (Ok b, s2, ev2) /\ ev = ev1 ++ ev2.
Proof.
  unfold bind. destruct (m s) as [[[a|e] s1] ev1]; [|done].
  destruct (f a s1) as [[r s2'] ev2] eqn:Hf. intros [= -> -> <-].
  by exists a, s1, ev1, ev2.
Qed.

Lemma bind_run_inv {A B} (m : M A) (f : A -> M B) (s s' : @state D) r ev :
  bind m f s = (r, s', ev) ->
  (exists e, m s = (Raise e, s', ev) /\ r = Raise e)
  \/ (exists a s1 ev1 ev2,
        m s = (Ok a, s1, ev1) /\ f a s1 = (r, s', ev2) /\ ev = ev1 ++ ev2).
Proof.
  unfold bind. destruct (m s) as [[[a|e] s1] ev1].
  - destruct (f a s1) as [[r' s2] ev2] eqn:Hf. intros [= <- <- <-].
    right. by exists a, s1, ev1, ev2.
  - intros [= <- <- <-]. left. by exists e.
Qed.

End Binds.

(** ** The console *)

Section ConsoleRuns.
Context {D : Type} {console : Console}.

Lemma console_print_panel_run title text (s : @state D) :
  markup_error text = None ->
  console_print_panel title text s = (Ok tt, s, [EPanel title text]).
Proof. intros Hrender. unfold console_print_panel. munfold. by rewrite Hrender. Qed.

Lemma console_print_panel_plain title text (s : @state D) :
  has_bracket text = false ->
  console_print_panel title text s = (Ok tt, s, [EPanel title text]).
Proof. intros Hplain. by apply console_print_panel_run, markup_error_plain. Qed.

Lemma console_print_panel_fails title text msg (s : @state D) :
  markup_error text = Some msg ->
  console_print_panel title text s = (Raise (MarkupError msg), s, []).
Proof. intros Hrender. unfold console_print_panel. munfold. by rewrite Hrender. Qed.

Lemma progress_console_print_run text (s : @state D) :
  markup_error text = None ->
  progress_console_print text s = (Ok tt, s, [EProgress text]).
Proof. intros Hrender. unfold progress_console_print. munfold. by rewrite Hrender. Qed.

Lemma progress_console_print_fails text msg (s : @state D) :
  markup_error text = Some msg ->
  progress_console_print text s = (Raise (MarkupError msg), s, []).
Proof. intros Hrender. unfold progress_console_print. munfold. by rewrite Hrender. Qed.

(** A print that returned has rendered its text. *)
Lemma progress_console_print_Ok text (s s' : @state D) u ev :
  progress_console_print text s = (Ok u, s', ev) -> markup_error text = None.
Proof.
  destruct (markup_error text) as [msg|] eqn:Hrender; [|done].
  by rewrite (progress_console_print_fails _ msg).
Qed.

End ConsoleRuns.

(** ** [configure_net_ssids] *)

Section Configure.
Context {D : Type} (dashboard : Dashboard D).
Context {console : Console} {interpreter : Interpreter}.

Lemma configure_net_ssids_run (s : state) net r rec :
  heap s !! r = Some rec ->
  configure_net_ssids dashboard net r s = configure_outcome dashboard s net r rec.
Proof.
  intros Hr. destruct s as [d h]; simpl in Hr.
  unfold configure_net_ssids, configure_outcome. munfold.
  rewrite (heap_get_lookup _ _ _ Hr).
  rewrite ?heap_set_set, ?(heap_get_set_eq _ _ _ _ Hr), lookup_insert_eq. munfold.
  rewrite ?heap_set_set, ?(heap_get_set_eq _ _ _ _ Hr), ?delete_insert_eq.
  destruct (updateNetworkWirelessSsid dashboard d net (VInt 3) (delete "number" rec))
    as [[resp|e] d']; munfold; [done|].
  rewrite ?(heap_get_set_eq _ _ _ _ Hr), lookup_delete_ne by done.
  destruct (rec !! "name"); done.
Qed.

(** The outcome reads the record only through what is left of it once
    [number] is gone. *)
Lemma configure_outcome_ext (s1 s2 : state) net r rec1 rec2 :
  dash s1 = dash s2 ->
  delete "number" rec1 = delete "number" rec2 ->
  heap_set (heap s1) r (delete "number" rec1)
    = heap_set (heap s2) r (delete "number" rec2) ->
  configure_outcome dashboard s1 net r rec1 = configure_outcome dashboard s2 net r rec2.
Proof.
  intros Hd Hrec Hh. unfold configure_outcome.
  assert (Hname : rec1 !! "name" = rec2 !! "name").
  { rewrite <- (lookup_delete_ne rec1 "number" "name") by done.
    rewrite <- (lookup_delete_ne rec2 "number" "name") by done.
    by rewrite Hrec. }
  by rewrite Hd, Hh, Hrec, Hname.
Qed.

(** C2. For every SSID record applied by the configurator, the update call
    targets slot number 3 of the target network, whatever slot number the
    record carries, and the payload holds every field of the record except
    [number]: it has no [number], it agrees with the record on every other
    field, and it is the only update the call sends. *)
Theorem configure_net_ssids_targets_slot_3 (s : state) net r rec :
  heap s !! r = Some rec ->
  exists res s' payload rest,
    configure_net_ssids dashboard net r s
      = (res, s', EUpdateNetworkWirelessSsid net (VInt 3) payload :: rest)
    /\ payload !! "number" = None
    /\ (forall key, key <> "number" -> payload !! key = rec !! key)
    /\ Forall (fun e => is_update e = false) rest.
Proof.
  intros Hr. rewrite (configure_net_ssids_run s net r rec Hr).
  unfold configure_outcome.
  destruct (updateNetworkWirelessSsid dashboard (dash s) net (VInt 3)
              (delete "number" rec)) as [[resp|e] d].
  - eexists _, _, _, _. split; [reflexivity|].
    split; [apply lookup_delete_eq|].
    split; [intros key Hk; by apply lookup_delete_ne|constructor].
  - destruct (rec !! "name") as [name|].
    + eexists _, _, _, _. split; [reflexivity|].
      split; [apply lookup_delete_eq|].
      split; [intros key Hk; by apply lookup_delete_ne|].
      repeat constructor.
    + eexists _, _, _, _. split; [reflexivity|].
      split; [apply lookup_delete_eq|].
      split; [intros key Hk; by apply lookup_delete_ne|constructor].
Qed.

(** C8. Whatever a call of the configurator returns, the record it was
    given has lost its [number] key, keeps every other field, and no other
    object of the store has changed.  The record is the object the
    catalogue refers to, so a later call for the same reference, on any
    network, finds it without [number], sends the same payload and leaves it
    as it is.  A call started with the record carrying any [number] and a
    call started with the record carrying none do the same. *)
Theorem configure_net_ssids_drops_number (s : state) net r rec :
  heap s !! r = Some rec ->
  exists res s' ev rec',
    configure_net_ssids dashboard net r s = (res, s', ev)
    /\ heap s' !! r = Some rec'
    /\ rec' !! "number" = None
    /\ (forall key, key <> "number" -> rec' !! key = rec !! key)
    /\ (forall r', r' <> r -> heap s' !! r' = heap s !! r')
    /\ (forall net2, exists res2 s2 rest2,
          configure_net_ssids dashboard net2 r s'
            = (res2, s2, EUpdateNetworkWirelessSsid net2 (VInt 3) rec' :: rest2)
          /\ heap s2 !! r = Some rec')
    /\ (forall number : value,
          configure_net_ssids dashboard net r
            (State (dash s) (heap_set (heap s) r (<["number" := number]> rec)))
          = configure_net_ssids dashboard net r
              (State (dash s) (heap_set (heap s) r (delete "number" rec)))).
Proof.
  intros Hr.
  assert (Hlt : (r < length (heap s))%nat) by by eapply lookup_lt_Some.
  assert (Hafter : forall (s0 : state) net0 rec0,
    heap s0 !! r = Some rec0 ->
    exists res0 s1 rest0,
      configure_net_ssids dashboard net0 r s0
        = (res0, s1,
           EUpdateNetworkWirelessSsid net0 (VInt 3) (delete "number" rec0) :: rest0)
      /\ heap s1 = heap_set (heap s0) r (delete "number" rec0)).
  { intros s0 net0 rec0 H0. rewrite (configure_net_ssids_run s0 net0 r rec0 H0).
    unfold configure_outcome.
    destruct (updateNetworkWirelessSsid dashboard (dash s0) net0 (VInt 3)
                (delete "number" rec0)) as [[resp|e] d]; [by eexists _, _, _|].
    destruct (rec0 !! "name"); by eexists _, _, _. }
  destruct (Hafter s net rec Hr) as (res & s' & rest & Hrun & Hheap).
  assert (Hr' : heap s' !! r = Some (delete "number" rec)).
  { rewrite Hheap. unfold heap_set. by apply list_lookup_insert_eq. }
  exists res, s', (EUpdateNetworkWirelessSsid net (VInt 3) (delete "number" rec) :: rest),
    (delete "number" rec).
  split; [done|]. split; [done|].
  split; [apply lookup_delete_eq|].
  split; [intros key Hk; by apply lookup_delete_ne|].
  split.
  { intros r' Hne. rewrite Hheap. unfold heap_set. by apply list_lookup_insert_ne. }
  split.
  - intros net2. destruct (Hafter s' net2 _ Hr') as (res2 & s2 & rest2 & Hrun2 & Hheap2).
    exists res2, s2, rest2. rewrite delete_delete_eq in Hrun2, Hheap2.
    split; [done|]. rewrite Hheap2. unfold heap_set.
    apply list_lookup_insert_eq. rewrite Hheap. unfold heap_set.
    by rewrite length_insert.
  - intros number.
    rewrite (configure_net_ssids_run _ net r (<["number" := number]> rec))
      by (simpl; unfold heap_set; by apply list_lookup_insert_eq).
    rewrite (configure_net_ssids_run _ net r (delete "number" rec))
      by (simpl; unfold heap_set; by apply list_lookup_insert_eq).
    apply configure_outcome_ext; simpl; [done| |].
    + by rewrite delete_insert_eq, delete_delete_eq.
    + by rewrite !heap_set_set, delete_insert_eq, delete_delete_eq.
Qed.

End Configure.

(** ** [change_ssid_psk] and the loops of [main] around the two updates *)

Section Updates.
Context {D : Type} (dashboard : Dashboard D).
Context {console : Console} {interpreter : Interpreter}.

Lemma change_ssid_psk_run (s : state) net number psk :
  change_ssid_psk dashboard net number psk s =
  match updateNetworkWirelessSsid dashboard (dash s) net number (psk_kwargs psk) with
  | (Ok _, d) =>
      (Ok true, State d (heap s),
       [EUpdateNetworkWirelessSsid net number (psk_kwargs psk)])
  | (Raise e, d) =>
      (Ok false, State d (heap s),
       [EUpdateNetworkWirelessSsid net number (psk_kwargs psk);
        EPrint psk_failure_line; EPrint (exn_text e)])
  end.
Proof.
  destruct s as [d h]. unfold change_ssid_psk. munfold.
  destruct (updateNetworkWirelessSsid dashboard d net number (psk_kwargs psk))
    as [[resp|e] d']; done.
Qed.

(** One turn of the inner loop of step 6. *)
Lemma configure_ssids_step (net_id_to_name : PyDict.dict string)
    (ssid_dict : PyDict.dict ref) net ssid_name rest (s : state) r rec name :
  PyDict.get ssid_dict ssid_name = Some r ->
  heap s !! r = Some rec ->
  PyDict.get net_id_to_name net = Some name ->
  configure_ssids dashboard net_id_to_name ssid_dict net (ssid_name :: rest) s =
  match configure_outcome dashboard s net r rec with
  | (Ok configured, s1, ev1) =>
      let '(res, s2, ev2) :=
        configure_ssids dashboard net_id_to_name ssid_dict net rest s1 in
      (res, s2,
       ev1 ++ EPrint (if configured
                      then name +:+ " configured with ssid " +:+ ssid_name
                      else "There was an issue configuring ssid " +:+ ssid_name
                           +:+ " on " +:+ name) :: ev2)
  | (Raise e, s1, ev1) => (Raise e, s1, ev1)
  end.
Proof.
  intros Hd Hr Hn. simpl. unfold bind at 1. unfold dict_getitem at 1.
  rewrite Hd. unfold or_raise at 1, ret at 1.
  unfold bind at 1. rewrite (configure_net_ssids_run dashboard s net r rec Hr).
  destruct (configure_outcome dashboard s net r rec) as [[[b|e] s1] ev1]; [|done].
  unfold bind at 1. unfold dict_getitem at 1. rewrite Hn.
  unfold or_raise at 1, ret at 1. unfold bind at 1, print at 1, emit at 1.
  destruct (configure_ssids dashboard net_id_to_name ssid_dict net rest s1)
    as [[res s2] ev2]. simpl. done.
Qed.

Section Rotation.
Variables (net_id_to_name : PyDict.dict string) (psk_ssids : list psk_ssid).

Lemma prompt_loop_eof (s : state) :
  prompt_loop dashboard net_id_to_name psk_ssids [] s
  = (Raise EOFError, s, [EPrompt index_prompt]).
Proof. done. Qed.

Lemma prompt_loop_done (s : state) ssid_index stdin :
  lower ssid_index = "n" ->
  prompt_loop dashboard net_id_to_name psk_ssids (ssid_index :: stdin) s
  = (Ok stdin, s, [EPrompt index_prompt; ERead ssid_index]).
Proof. intros Hn. simpl. munfold. rewrite Hn. done. Qed.

Lemma prompt_loop_not_int (s : state) ssid_index stdin :
  lower ssid_index <> "n" ->
  int_of_str ssid_index = None ->
  prompt_loop dashboard net_id_to_name psk_ssids (ssid_index :: stdin) s
  = (Raise ValueError, s, [EPrompt index_prompt; ERead ssid_index]).
Proof.
  intros Hn Hp. apply String.eqb_neq in Hn. simpl. munfold. rewrite Hn, Hp. done.
Qed.

Lemma prompt_loop_out_of_range (s : state) ssid_index stdin index :
  lower ssid_index <> "n" ->
  int_of_str ssid_index = Some index ->
  list_getitem psk_ssids index = None ->
  prompt_loop dashboard net_id_to_name psk_ssids (ssid_index :: stdin) s
  = (Raise IndexError, s, [EPrompt index_prompt; ERead ssid_index]).
Proof.
  intros Hn Hp Hi. apply String.eqb_neq in Hn. simpl. munfold.
  rewrite Hn, Hp, Hi. done.
Qed.

Lemma prompt_loop_turn (s : state) ssid_index new_psk stdin index ssid name :
  lower ssid_index <> "n" ->
  int_of_str ssid_index = Some index ->
  list_getitem psk_ssids index = Some ssid ->
  PyDict.get net_id_to_name (psk_net_id ssid) = Some name ->
  prompt_loop dashboard net_id_to_name psk_ssids (ssid_index :: new_psk :: stdin) s =
  let '(answer, d) :=
    updateNetworkWirelessSsid dashboard (dash s) (psk_net_id ssid) (psk_number ssid)
      (psk_kwargs new_psk) in
  let '(res, s', ev) :=
    prompt_loop dashboard net_id_to_name psk_ssids stdin (State d (heap s)) in
  (res, s', turn_events ssid_index new_psk ssid name answer ++ ev).
Proof.
  intros Hn Hp Hi Hname. apply String.eqb_neq in Hn.
  cbn [prompt_loop]. unfold bind at 1, emit at 1. unfold bind at 1, emit at 1.
  rewrite Hn. unfold bind at 1, py_int at 1. rewrite Hp.
  unfold or_raise at 1, ret at 1. unfold bind at 1, py_getitem at 1. rewrite Hi.
  unfold or_raise at 1, ret at 1. unfold bind at 1, dict_getitem at 1. rewrite Hname.
  unfold or_raise at 1, ret at 1. unfold bind at 1, emit at 1.
  unfold bind at 1, emit at 1. unfold bind at 1.
  rewrite change_ssid_psk_run.
  destruct s as [d h]; cbn [dash heap].
  destruct (updateNetworkWirelessSsid dashboard d (psk_net_id ssid) (psk_number ssid)
              (psk_kwargs new_psk)) as [[resp|e] d'];
    unfold bind at 1, print at 1, emit at 1;
    destruct (prompt_loop dashboard net_id_to_name psk_ssids stdin (State d' h))
      as [[res s'] ev]; done.
Qed.

End Rotation.
End Updates.

(** ** The prompt loop and [main] *)

Section Prompt.
Context {D : Type} (dashboard : Dashboard D).
Context {console : Console} {interpreter : Interpreter}.

Lemma list_getitem_None {A} (l : list A) (i : Z) :
  list_getitem l i = None <-> (i < - Z.of_nat (length l) \/ Z.of_nat (length l) <= i).
Proof.
  unfold list_getitem.
  destruct (Z.leb_spec 0 i).
  - rewrite lookup_ge_None. lia.
  - destruct (Z.leb_spec (- Z.of_nat (length l)) i).
    + rewrite lookup_ge_None. lia.
    + split; [lia | done].
Qed.

(** A prompt loop that returns has just read a line that is [n] or [N];
    the lines it returns are the ones after it. *)
Lemma prompt_loop_returns (net_id_to_name : PyDict.dict string) psk_ssids :
  forall stdin (s : state) rest s' ev,
    prompt_loop dashboard net_id_to_name psk_ssids stdin s = (Ok rest, s', ev) ->
    exists ev0 ssid_index read,
      ev = ev0 ++ [EPrompt index_prompt; ERead ssid_index]
      /\ lower ssid_index = "n"
      /\ stdin = read ++ ssid_index :: rest.
Proof.
  intros stdin. remember (length stdin) as n eqn:Hlen.
  revert stdin Hlen. induction (lt_wf n) as [n _ IH].
  intros [|ssid_index [|new_psk stdin]] Hlen s rest s' ev Hrun.
  - discriminate Hrun.
  - revert Hrun. cbn [prompt_loop]. munfold.
    destruct (String.eqb_spec (lower ssid_index) "n") as [Hn|Hn].
    + intros [= <- <- <-]. by exists [], ssid_index, [].
    + destruct (int_of_str ssid_index) as [index|]; [|done].
      destruct (list_getitem psk_ssids index) as [ssid|]; [|done].
      destruct (PyDict.get net_id_to_name (psk_net_id ssid)); done.
  - destruct (String.eqb_spec (lower ssid_index) "n") as [Hn|Hn].
    + rewrite prompt_loop_done in Hrun by done.
      injection Hrun as <- <- <-. by exists [], ssid_index, [].
    + destruct (int_of_str ssid_index) as [index|] eqn:Hp;
        [|by rewrite prompt_loop_not_int in Hrun].
      destruct (list_getitem psk_ssids index) as [ssid|] eqn:Hi;
        [|by erewrite prompt_loop_out_of_range in Hrun].
      destruct (PyDict.get net_id_to_name (psk_net_id ssid)) as [name|] eqn:Hname.
      * rewrite (prompt_loop_turn dashboard _ _ s _ _ _ _ _ _ Hn Hp Hi Hname) in Hrun.
        destruct (updateNetworkWirelessSsid dashboard (dash s) (psk_net_id ssid)
                    (psk_number ssid) (psk_kwargs new_psk)) as [answer d].
        destruct (prompt_loop dashboard net_id_to_name psk_ssids stdin
                    (State d (heap s))) as [[res s1] ev1] eqn:Hrest.
        injection Hrun as -> <- <-.
        assert (Hlt : (length stdin < n)%nat) by (subst n; simpl; lia).
        destruct (IH (length stdin) Hlt stdin eq_refl _ _ _ _ Hrest)
          as (ev0 & last & read & -> & Hlast & ->).
        exists (turn_events ssid_index new_psk ssid name answer ++ ev0), last,
          (ssid_index :: new_psk :: read).
        by rewrite <- app_assoc.
      * apply String.eqb_neq in Hn. revert Hrun. cbn [prompt_loop]. munfold.
        by rewrite Hn, Hp, Hi, Hname.
Qed.

(** [main] is its batch part followed by the prompt loop. *)
Lemma main_run ORG_ID NET_NAMES stdin (s : state) net_id_to_name psk_ssids s1 ev1 :
  main_batch dashboard ORG_ID NET_NAMES s = (Ok (Some (net_id_to_name, psk_ssids)), s1, ev1) ->
  main dashboard ORG_ID NET_NAMES stdin s =
  let '(res, s2, ev2) := prompt_loop dashboard net_id_to_name psk_ssids stdin s1 in
  (match res with Ok _ => Ok tt | Raise e => Raise e end, s2, ev1 ++ ev2).
Proof.
  intros Hb. unfold main. unfold bind at 1. rewrite Hb. unfold bind at 1.
  destruct (prompt_loop dashboard net_id_to_name psk_ssids stdin s1)
    as [[[rest|e] s2] ev2]; [|done].
  unfold ret. by rewrite app_nil_r.
Qed.

(** C6. The prompt loop ends, with nothing else done, when the line read at
    the index prompt is [n] in either case, and it ends normally in no other
    way: a loop that returns has read such a line last.  For any other line
    that [int] accepts and that indexes an entry of the listing, the loop
    asks for the new password, sends one update with [authMode = "psk"] and
    [psk] set to the line entered, for the slot number and the network of
    that entry, prints the success or the failure, and goes on from the
    prompt with the lines that remain. *)
Theorem prompt_loop_protocol (net_id_to_name : PyDict.dict string) psk_ssids (s : state) :
  (forall ssid_index stdin,
      lower ssid_index = "n" ->
      prompt_loop dashboard net_id_to_name psk_ssids (ssid_index :: stdin) s
      = (Ok stdin, s, [EPrompt index_prompt; ERead ssid_index]))
  /\ (forall stdin rest s' ev,
      prompt_loop dashboard net_id_to_name psk_ssids stdin s = (Ok rest, s', ev) ->
      exists ev0 ssid_index,
        ev = ev0 ++ [EPrompt index_prompt; ERead ssid_index] /\ lower ssid_index = "n")
  /\ (forall ssid_index new_psk stdin index ssid name,
      lower ssid_index <> "n" ->
      int_of_str ssid_index = Some index ->
      list_getitem psk_ssids index = Some ssid ->
      PyDict.get net_id_to_name (psk_net_id ssid) = Some name ->
      prompt_loop dashboard net_id_to_name psk_ssids (ssid_index :: new_psk :: stdin) s =
      let '(answer, d) :=
        updateNetworkWirelessSsid dashboard (dash s) (psk_net_id ssid) (psk_number ssid)
          (<["authMode" := VStr "psk"]> (<["psk" := VStr new_psk]> ∅)) in
      let '(res, s', ev) :=
        prompt_loop dashboard net_id_to_name psk_ssids stdin (State d (heap s)) in
      (res, s',
       [EPrompt index_prompt; ERead ssid_index; EPrompt psk_prompt; ERead new_psk;
        EUpdateNetworkWirelessSsid (psk_net_id ssid) (psk_number ssid)
          (<["authMode" := VStr "psk"]> (<["psk" := VStr new_psk]> ∅))]
       ++ match answer with
          | Ok _ =>
              [EPrint (py_str (psk_name ssid) +:+ " of network " +:+ name
                       +:+ " configured with a new psk")]
          | Raise e =>
              [EPrint psk_failure_line; EPrint (exn_text e);
               EPrint ("There was an issue configuring a new psk for "
                       +:+ py_str (psk_name ssid) +:+ " of network " +:+ name)]
          end
       ++ ev)).
Proof.
  split; [intros; by apply prompt_loop_done|].
  split.
  - intros stdin rest s' ev Hrun.
    destruct (prompt_loop_returns _ _ _ _ _ _ _ Hrun) as (ev0 & i & _ & ? & ? & _).
    by exists ev0, i.
  - intros ssid_index new_psk stdin index ssid name Hn Hp Hi Hname.
    rewrite (prompt_loop_turn dashboard _ _ s _ _ _ _ _ _ Hn Hp Hi Hname).
    unfold turn_events, psk_kwargs.
    destruct (updateNetworkWirelessSsid _ _ _ _ _) as [answer d].
    destruct (prompt_loop _ _ _ _ _) as [[res s'] ev].
    by rewrite <- app_assoc.
Qed.

Lemma prompt_loop_turns (net_id_to_name : PyDict.dict string) psk_ssids turns :
  Forall (fun turn => selects net_id_to_name psk_ssids turn.1) turns ->
  forall stdin (s : state),
    exists s1 ev0,
      heap s1 = heap s
      /\ length (updates_of ev0) = length turns
      /\ prompt_loop dashboard net_id_to_name psk_ssids (turn_lines turns ++ stdin) s
         = (let '(res, s', ev) :=
              prompt_loop dashboard net_id_to_name psk_ssids stdin s1 in
            (res, s', ev0 ++ ev)).
Proof.
  induction 1 as [|[ssid_index new_psk] turns (Hn & index & ssid & Hp & Hi & [name Hname]) _ IH];
    intros stdin s.
  - exists s, []. split; [done|]. split; [done|]. simpl.
    by destruct (prompt_loop _ _ _ _ _) as [[res s'] ev].
  - cbn [turn_lines flat_map app fst snd]. fold (turn_lines turns).
    rewrite (prompt_loop_turn dashboard _ _ s _ _ _ _ _ _ Hn Hp Hi Hname).
    destruct (updateNetworkWirelessSsid dashboard (dash s) (psk_net_id ssid)
                (psk_number ssid) (psk_kwargs new_psk)) as [answer d].
    destruct (IH stdin (State d (heap s))) as (s1 & ev0 & Hheap & Hcount & ->).
    exists s1, (turn_events ssid_index new_psk ssid name answer ++ ev0).
    split; [done|]. split.
    + unfold updates_of in *. rewrite List.filter_app, length_app, Hcount.
      by destruct answer.
    + destruct (prompt_loop _ _ _ _ _) as [[res s'] ev]. by rewrite <- app_assoc.
Qed.

(** C10, as the code has it. A line at the index prompt that is not [n] in
    either case and that [int] rejects, or that [int] reads as an index the
    list refuses (at or past its length, or below minus its length), is not
    handled by the loop.  At the first prompt or after any number of turns
    that changed a key, in any state, the loop raises [ValueError],
    respectively [IndexError], right after reading the line, and [main] ends
    with that exception. *)
Theorem malformed_input_propagates (net_id_to_name : PyDict.dict string) psk_ssids
    (s : state) turns ssid_index stdin :
  Forall (fun turn => selects net_id_to_name psk_ssids turn.1) turns ->
  lower ssid_index <> "n" ->
  (int_of_str ssid_index = None
   \/ exists index, int_of_str ssid_index = Some index
        /\ (index < - Z.of_nat (length psk_ssids) \/ Z.of_nat (length psk_ssids) <= index)) ->
  exists e s' ev0,
    e = (if int_of_str ssid_index is Some _ then IndexError else ValueError)
    /\ prompt_loop dashboard net_id_to_name psk_ssids
         (turn_lines turns ++ ssid_index :: stdin) s
       = (Raise e, s', ev0 ++ [EPrompt index_prompt; ERead ssid_index])
    /\ length (updates_of ev0) = length turns
    /\ (forall ORG_ID NET_NAMES s0 ev1,
          main_batch dashboard ORG_ID NET_NAMES s0
            = (Ok (Some (net_id_to_name, psk_ssids)), s, ev1) ->
          main dashboard ORG_ID NET_NAMES (turn_lines turns ++ ssid_index :: stdin) s0
          = (Raise e, s', ev1 ++ ev0 ++ [EPrompt index_prompt; ERead ssid_index])).
Proof.
  intros Hturns Hn Hbad.
  destruct (prompt_loop_turns net_id_to_name psk_ssids turns Hturns (ssid_index :: stdin) s)
    as (s1 & ev0 & _ & Hcount & Hrun).
  assert (Hlast : prompt_loop dashboard net_id_to_name psk_ssids (ssid_index :: stdin) s1
                  = (Raise (if int_of_str ssid_index is Some _ then IndexError else ValueError),
                     s1, [EPrompt index_prompt; ERead ssid_index])).
  { destruct Hbad as [Hp|(index & Hp & Hrange)]; rewrite Hp.
    - by apply prompt_loop_not_int.
    - apply list_getitem_None in Hrange. by eapply prompt_loop_out_of_range. }
  rewrite Hlast in Hrun.
  eexists _, s1, ev0. split; [reflexivity|]. split; [exact Hrun|]. split; [exact Hcount|].
  intros ORG_ID NET_NAMES s0 ev1 Hbatch.
  by rewrite (main_run _ _ _ _ _ _ _ _ Hbatch), Hrun.
Qed.

End Prompt.

(** ** Failures of the update call *)

Section Failures.
Context {D : Type} (dashboard : Dashboard D).
Context {console : Console} {interpreter : Interpreter}.

Lemma catalogue_covers_set ssid_dict (h : list record) ssid_names r rec :
  h !! r = Some rec ->
  catalogue_covers ssid_dict h ssid_names ->
  catalogue_covers ssid_dict (heap_set h r (delete "number" rec)) ssid_names.
Proof.
  intros Hr Hc. unfold catalogue_covers. eapply Forall_impl; [exact Hc|].
  intros ssid_name (r' & rec' & Hd & Hr' & Hname).
  destruct (decide (r' = r)) as [->|Hne].
  - exists r, (delete "number" rec). split; [done|]. split.
    + unfold heap_set. apply list_lookup_insert_eq. by eapply lookup_lt_Some.
    + rewrite lookup_delete_ne by done. congruence.
  - exists r', rec'. split; [done|]. split; [|done].
    unfold heap_set. by rewrite list_lookup_insert_ne.
Qed.



End Failures.

(** ** Resolution of the configured network names *)

Module PyDictFacts.
Section Facts.
Context {V : Type}.
Implicit Types (d : PyDict.dict V) (k : string) (v : V).

Lemma get_None d k : PyDict.get d k = None <-> k ∉ PyDict.keys d.
Proof.
  induction d as [|[k' v'] d IH]; simpl.
  - split; [intros _; apply not_elem_of_nil | done].
  - destruct (String.eqb_spec k' k) as [->|Hne].
    + split; [done | intros []; apply elem_of_cons; by left].
    + rewrite IH, not_elem_of_cons. naive_solver.
Qed.

Lemma get_Some_elem d k v : PyDict.get d k = Some v -> (k, v) ∈ d.
Proof.
  induction d as [|[k' v'] d IH]; simpl; [done|].
  destruct (String.eqb_spec k' k) as [->|Hne].
  - intros [= ->]. apply elem_of_cons; by left.
  - intros H. apply elem_of_cons; right; auto.
Qed.

Lemma set_fresh d k v : k ∉ PyDict.keys d -> PyDict.set d k v = d ++ [(k, v)].
Proof.
  induction d as [|[k' v'] d IH]; simpl; [done|].
  rewrite not_elem_of_cons. intros [Hne Hd].
  destruct (String.eqb_spec k' k) as [->|_]; [done|]. by rewrite IH.
Qed.

Lemma keys_set d k v :
  PyDict.keys (PyDict.set d k v)
  = if bool_decide (k ∈ PyDict.keys d) then PyDict.keys d else PyDict.keys d ++ [k].
Proof.
  induction d as [|[k' v'] d IH]; simpl; [done|].
  destruct (String.eqb_spec k' k) as [->|Hne]; simpl.
  - rewrite bool_decide_true; [done | apply elem_of_cons; by left].
  - rewrite IH. unfold PyDict.keys.
    destruct (bool_decide_reflect (k ∈ map fst d)) as [Hin|Hnin].
    + rewrite bool_decide_true; [done | apply elem_of_cons; by right].
    + rewrite bool_decide_false; [done|].
      rewrite elem_of_cons. naive_solver.
Qed.

Lemma elem_of_keys_set d k v k' :
  k' ∈ PyDict.keys (PyDict.set d k v) <-> k' = k \/ k' ∈ PyDict.keys d.
Proof.
  rewrite keys_set. case_bool_decide as Hin.
  - naive_solver.
  - rewrite elem_of_app, list_elem_of_singleton. naive_solver.
Qed.

(** The keys of a dictionary built with [d[k] = v] never repeat. *)
Lemma NoDup_keys_set d k v :
  NoDup (PyDict.keys d) -> NoDup (PyDict.keys (PyDict.set d k v)).
Proof.
  intros Hd. rewrite keys_set. case_bool_decide as Hin; [done|].
  apply NoDup_app. split; [done|]. split; [|apply NoDup_singleton].
  intros x Hx ->%list_elem_of_singleton. done.
Qed.

Lemma get_set d k v k' :
  PyDict.get (PyDict.set d k v) k' = if String.eqb k k' then Some v else PyDict.get d k'.
Proof.
  induction d as [|[k0 v0] d IH]; simpl; [done|].
  destruct (String.eqb_spec k0 k) as [->|Hne]; simpl.
  - by destruct (String.eqb_spec k k').
  - rewrite IH. destruct (String.eqb_spec k0 k') as [->|]; [|done].
    by destruct (String.eqb_spec k k') as [->|].
Qed.

End Facts.
End PyDictFacts.

Section Resolution.
Context {D : Type} (dashboard : Dashboard D).
Context {console : Console} {interpreter : Interpreter}.

Lemma find_network_Some networks name id :
  find_network networks name = Some id <->
  exists before network after,
    networks = before ++ network :: after
    /\ net_name network = name /\ net_id network = id
    /\ Forall (fun other => net_name other <> name) before.
Proof.
  induction networks as [|network networks IH]; simpl.
  - split; [done|]. intros (before & ? & ? & Heq & _). by destruct before.
  - destruct (String.eqb_spec (net_name network) name) as [Hname|Hname].
    + split.
      * intros [= <-]. by exists [], network, networks.
      * intros ([|first before] & found & after & Heq & Hn & Hid & Hbefore).
        -- injection Heq as -> _. by rewrite Hid.
        -- injection Heq as -> _. by inversion Hbefore.
    + rewrite IH. split.
      * intros (before & found & after & -> & Hn & Hid & Hbefore).
        exists (network :: before), found, after.
        split; [done|]. split; [done|]. split; [done|]. by constructor.
      * intros ([|first before] & found & after & Heq & Hn & Hid & Hbefore).
        -- injection Heq as -> _. done.
        -- injection Heq as -> ->. inversion Hbefore; subst.
           by exists before, found, after.
Qed.

Lemma find_network_None networks name :
  find_network networks name = None <->
  Forall (fun network => net_name network <> name) networks.
Proof.
  induction networks as [|network networks IH]; simpl.
  - split; [constructor | done].
  - destruct (String.eqb_spec (net_name network) name) as [Hname|Hname].
    + split; [done|]. by inversion 1.
    + rewrite IH. split; [by constructor | by inversion 1].
Qed.

Lemma get_network_id_run (s : state) org_id name networks :
  getOrganizationNetworks dashboard (dash s) org_id = Ok networks ->
  get_network_id dashboard org_id name s
  = (Ok (find_network networks name), s, [EGetOrganizationNetworks org_id]).
Proof.
  destruct s as [d h]. simpl. intros H. unfold get_network_id. munfold.
  rewrite H. done.
Qed.

(** C7. A configured name resolves by exact comparison over the whole
    listing of the organization: the call returns the identifier of the
    first network whose name is the configured name, character for
    character, and returns [None] exactly when no network has that name,
    as is the case when the names of the listing differ from it, be it
    only by the case of a letter. *)
Theorem get_network_id_exact_match (s : state) org_id name networks :
  getOrganizationNetworks dashboard (dash s) org_id = Ok networks ->
  exists found,
    get_network_id dashboard org_id name s
      = (Ok found, s, [EGetOrganizationNetworks org_id])
    /\ (forall id, found = Some id <->
          exists before network after,
            networks = before ++ network :: after
            /\ net_name network = name /\ net_id network = id
            /\ Forall (fun other => net_name other <> name) before)
    /\ (found = None <-> Forall (fun network => net_name network <> name) networks)
    /\ ((forall network, network ∈ networks ->
           lower (net_name network) = lower name -> net_name network <> name) ->
        found = None).
Proof.
  intros H. exists (find_network networks name).
  split; [by apply get_network_id_run|].
  split; [intros id; apply find_network_Some|].
  split; [apply find_network_None|].
  intros Hcase. apply find_network_None, Forall_forall. intros network Hin Hname.
  apply (Hcase network Hin); [by rewrite Hname | done].
Qed.

(** Two names that resolve to one identifier are one name, when no two
    networks of the listing share an identifier. *)
Lemma find_network_inj networks name1 name2 id :
  NoDup (map net_id networks) ->
  find_network networks name1 = Some id ->
  find_network networks name2 = Some id ->
  name1 = name2.
Proof.
  induction networks as [|network networks IH]; simpl; [done|].
  intros Hnd H1 H2. apply NoDup_cons in Hnd as [Hfresh Hnd].
  assert (Hin : forall name, find_network networks name = Some (net_id network) -> False).
  { intros name (before & found & after & -> & _ & Hid & _)%find_network_Some.
    apply Hfresh. rewrite <- Hid, map_app. simpl.
    apply elem_of_app. right. apply elem_of_cons. by left. }
  destruct (String.eqb_spec (net_name network) name1) as [Hn1|Hn1];
    destruct (String.eqb_spec (net_name network) name2) as [Hn2|Hn2].
  - congruence.
  - injection H1 as <-. by destruct (Hin name2).
  - injection H2 as <-. by destruct (Hin name1).
  - by apply IH.
Qed.

Lemma resolved_ids_NoDup networks names ids :
  NoDup (map net_id networks) ->
  NoDup names ->
  Forall2 (fun name id => find_network networks name = Some id) names ids ->
  NoDup ids.
Proof.
  intros Hnets Hnames Hres. induction Hres as [|name id names ids Hfind Hres IH].
  - constructor.
  - apply NoDup_cons in Hnames as [Hfresh Hnames].
    apply NoDup_cons. split; [|by apply IH].
    intros Hin. apply Hfresh.
    destruct (proj1 (list_elem_of_lookup _ _) Hin) as [i Hi].
    destruct (Forall2_lookup_r _ _ _ _ _ Hres Hi) as (name' & Hname' & Hfind').
    rewrite (find_network_inj _ _ _ _ Hnets Hfind Hfind').
    by eapply list_elem_of_lookup_2.
Qed.

Lemma no_ssid_request_app ev1 ev2 :
  no_ssid_request (ev1 ++ ev2) = (no_ssid_request ev1 && no_ssid_request ev2)%bool.
Proof. apply forallb_app. Qed.

Lemma no_ssid_request_resolution org_id names :
  no_ssid_request (resolution_requests org_id names) = true.
Proof. induction names as [|name names IH]; [done | exact IH]. Qed.

Lemma resolution_requests_app org_id names1 names2 :
  resolution_requests org_id (names1 ++ names2)
  = resolution_requests org_id names1 ++ resolution_requests org_id names2.
Proof. unfold resolution_requests. by rewrite flat_map_app. Qed.

(** One turn of the loop of step 2. *)
Lemma resolve_networks_step (s : state) org_id networks name rest net_id_to_name :
  getOrganizationNetworks dashboard (dash s) org_id = Ok networks ->
  resolve_networks dashboard org_id (name :: rest) net_id_to_name s =
  match markup_error (step_2_banner name) with
  | Some msg => (Raise (MarkupError msg), s, [])
  | None =>
      match find_network networks name with
      | Some id =>
          let '(r, s', ev) :=
            resolve_networks dashboard org_id rest (PyDict.set net_id_to_name id name) s in
          (r, s', resolution_requests org_id [name] ++ ev)
      | None => (Ok None, s, resolution_requests org_id [name] ++ abort_lines name)
      end
  end.
Proof.
  intros Hlist. cbn [resolve_networks]. unfold bind at 1. fold (step_2_banner name).
  destruct (markup_error (step_2_banner name)) as [msg|] eqn:Hrender.
  - by rewrite (console_print_panel_fails _ _ msg).
  - rewrite console_print_panel_run by done.
    unfold bind at 1. rewrite (get_network_id_run s org_id name networks Hlist).
    destruct (find_network networks name) as [id|]; [|done].
    by destruct (resolve_networks _ _ _ _ _) as [[r s'] ev].
Qed.

(** The three ways step 2 ends when the listing is served: every name
    resolves; or a first name does not resolve; or the banner of a first
    name does not render. *)
Lemma resolve_networks_cases (s : state) org_id networks :
  getOrganizationNetworks dashboard (dash s) org_id = Ok networks ->
  forall names net_id_to_name,
    (exists ids,
        Forall2 (fun name id => find_network networks name = Some id) names ids
        /\ resolve_networks dashboard org_id names net_id_to_name s
           = (Ok (Some (set_all net_id_to_name (zip ids names))), s,
              resolution_requests org_id names))
    \/ (exists before name after,
          names = before ++ name :: after
          /\ Forall (fun n => is_Some (find_network networks n)) before
          /\ find_network networks name = None
          /\ resolve_networks dashboard org_id names net_id_to_name s
             = (Ok None, s,
                resolution_requests org_id (before ++ [name]) ++ abort_lines name))
    \/ (exists before name after msg,
          names = before ++ name :: after
          /\ Forall (fun n => is_Some (find_network networks n)) before
          /\ markup_error (step_2_banner name) = Some msg
          /\ resolve_networks dashboard org_id names net_id_to_name s
             = (Raise (MarkupError msg), s, resolution_requests org_id before)).
Proof.
  intros Hlist. induction names as [|name names IH]; intros acc.
  - left. exists []. by split; [constructor|].
  - rewrite (resolve_networks_step s org_id networks name names acc Hlist).
    destruct (markup_error (step_2_banner name)) as [msg|] eqn:Hrender.
    { right. right. exists [], name, names, msg. by repeat split. }
    destruct (find_network networks name) as [id|] eqn:Hfind.
    2: { right. left. exists [], name, names. by repeat split. }
    assert (Hid : is_Some (find_network networks name)) by (by rewrite Hfind).
    destruct (IH (PyDict.set acc id name))
      as [(ids & Hids & ->)
         |[(before & bad & after & -> & Hbefore & Hbad & ->)
          |(before & bad & after & msg & -> & Hbefore & Hbad & ->)]].
    + left. exists (id :: ids). split; [by constructor | done].
    + right. left. exists (name :: before), bad, after.
      split; [done|]. split; [by constructor|]. split; [done|].
      by rewrite app_assoc.
    + right. right. exists (name :: before), bad, after, msg.
      split; [done|]. split; [by constructor|]. by split.
Qed.

End Resolution.

Section ResolutionOrAbort.
Context {D : Type} (dashboard : Dashboard D).
Context {console : Console} {interpreter : Interpreter}.

Lemma elem_of_keys_set_all {V} (acc : PyDict.dict V) kvs id :
  id ∈ PyDict.keys (set_all acc kvs) <-> id ∈ PyDict.keys acc \/ id ∈ kvs.*1.
Proof.
  unfold set_all. revert acc. induction kvs as [|[k v] kvs IH]; intros acc; simpl.
  - rewrite elem_of_nil. tauto.
  - rewrite IH, PyDictFacts.elem_of_keys_set, elem_of_cons. tauto.
Qed.

Lemma set_all_fresh {V} (acc : PyDict.dict V) kvs :
  NoDup (PyDict.keys acc ++ kvs.*1) -> set_all acc kvs = acc ++ kvs.
Proof.
  unfold set_all. revert acc.
  induction kvs as [|[k v] kvs IH]; intros acc Hnd; simpl.
  - by rewrite app_nil_r.
  - simpl in Hnd.
    rewrite PyDictFacts.set_fresh.
    + rewrite IH; [by rewrite <- app_assoc|].
      unfold PyDict.keys in *. rewrite map_app, <- app_assoc. exact Hnd.
    + apply NoDup_app in Hnd as (_ & Hdisj & _). intros Hin.
      apply (Hdisj k Hin). apply elem_of_cons. by left.
Qed.

(** [main] when step 2 does not give the dictionary: an unresolved name or
    an exception ends the run there. *)
Lemma main_ends_in_step_2 (s s1 : state) ORG_ID NET_NAMES stdin r ev :
  resolve_networks dashboard ORG_ID NET_NAMES [] s = (r, s1, ev) ->
  (forall net_id_to_name, r <> Ok (Some net_id_to_name)) ->
  main dashboard ORG_ID NET_NAMES stdin s
  = (match r with Ok _ => Ok tt | Raise e => Raise e end, s1,
     [EPanel None "Meraki AP SSID Configuration";
      EPanel (Some "Step 1") "Connect to Meraki dashboard"] ++ ev).
Proof.
  intros Hres Hnot. unfold main, main_batch. unfold bind at 1. unfold bind at 1.
  rewrite console_print_panel_plain by done.
  unfold bind at 1. rewrite console_print_panel_plain by done.
  unfold bind at 1. rewrite Hres.
  destruct r as [[net_id_to_name|]|e]; [by destruct (Hnot net_id_to_name)| |done].
  unfold ret. simpl. by rewrite !app_nil_r.
Qed.

(** C1, as the code has it. For every list of configured names, the
    listing of the organization being served, the run takes one of three
    ways.  Every name resolves, each to the identifier of the first network
    of that name, and those identifiers are the keys of [net_id_to_name]
    (pairwise distinct, one entry per name in the order of the names, when
    the configured names are pairwise distinct and no two networks share an
    identifier).  Or the run prints the first name that does not resolve and
    returns.  Or the console cannot render the banner of a name, and the
    run ends there with [MarkupError].  In the last two, the run has sent no
    request that reads or writes SSIDs. *)
Theorem resolution_or_abort (s : state) ORG_ID NET_NAMES stdin networks :
  getOrganizationNetworks dashboard (dash s) ORG_ID = Ok networks ->
  (exists ids net_id_to_name ev,
      resolved_to networks NET_NAMES ids
      /\ resolve_networks dashboard ORG_ID NET_NAMES [] s = (Ok (Some net_id_to_name), s, ev)
      /\ (forall id, id ∈ PyDict.keys net_id_to_name <-> id ∈ ids)
      /\ (NoDup NET_NAMES -> NoDup (map net_id networks) ->
          NoDup ids /\ net_id_to_name = zip ids NET_NAMES))
  \/ aborts_before_ssids dashboard s ORG_ID NET_NAMES stdin networks
  \/ stops_at_banner dashboard s ORG_ID NET_NAMES stdin networks.
Proof.
  intros Hlist.
  destruct (resolve_networks_cases dashboard s ORG_ID networks Hlist NET_NAMES [])
    as [(ids & Hids & Hrun)
       |[(before & name & after & -> & Hbefore & Hbad & Hrun)
        |(before & name & after & msg & -> & Hbefore & Hbad & Hrun)]].
  - left.
    assert (Hfst : (zip ids NET_NAMES).*1 = ids).
    { apply fst_zip. by rewrite (Forall2_length _ _ _ Hids). }
    exists ids, (set_all [] (zip ids NET_NAMES)), (resolution_requests ORG_ID NET_NAMES).
    split; [done|]. split; [done|]. split.
    + intros id. rewrite elem_of_keys_set_all, Hfst. simpl. rewrite elem_of_nil. tauto.
    + intros Hnames Hnets.
      assert (Hnd : NoDup ids)
        by exact (resolved_ids_NoDup networks NET_NAMES ids Hnets Hnames Hids).
      split; [done|]. rewrite set_all_fresh; [done|]. simpl. by rewrite Hfst.
  - right. left.
    exists before, name, after,
      ([EPanel None "Meraki AP SSID Configuration";
        EPanel (Some "Step 1") "Connect to Meraki dashboard"]
       ++ resolution_requests ORG_ID (before ++ [name])).
    split; [done|]. split; [done|]. split; [done|].
    rewrite <- app_assoc.
    split; [by rewrite (main_ends_in_step_2 _ _ _ _ _ _ _ Hrun)|].
    by rewrite !no_ssid_request_app, no_ssid_request_resolution.
  - right. right.
    exists before, name, after, msg,
      ([EPanel None "Meraki AP SSID Configuration";
        EPanel (Some "Step 1") "Connect to Meraki dashboard"]
       ++ resolution_requests ORG_ID before).
    split; [done|]. split; [done|]. split; [done|].
    split; [by rewrite (main_ends_in_step_2 _ _ _ _ _ _ _ Hrun)|].
    by rewrite no_ssid_request_app, no_ssid_request_resolution.
Qed.

End ResolutionOrAbort.

(** ** Tag matching *)

Section TagMatching.
Context {D : Type} (dashboard : Dashboard D).
Context {console : Console} {interpreter : Interpreter}.

Lemma fold_add_tag (tag : string) (aps : list device) (matched : gset string) :
  fold_left (fun acc _ => {[tag]} ∪ acc) aps matched
  = match aps with [] => matched | _ => {[tag]} ∪ matched end.
Proof.
  revert matched. induction aps as [|ap aps IH]; intros matched; [done|].
  simpl. rewrite IH. destruct aps; [done | set_solver].
Qed.

Lemma get_ap_ssids_from_step org_id net r rest matched (d : D) h name :
  heap_get h r !! "name" = Some name ->
  markup_error (tag_line (py_str name)) = None ->
  get_ap_ssids_from dashboard org_id net (r :: rest) matched (State d h) =
  let tag := py_str name in
  let asked :=
    [EProgress ("Retrieving all APs with the tag " +:+ tag);
     EGetOrganizationDevices org_id net tag] in
  match getOrganizationDevices dashboard d org_id net tag with
  | Ok aps =>
      let '(res, s', ev) :=
        get_ap_ssids_from dashboard org_id net rest
          (match aps with [] => matched | _ => {[tag]} ∪ matched end) (State d h) in
      (res, s', asked ++ ev)
  | Raise e => (Raise e, State d h, asked)
  end.
Proof.
  intros Hname Hrender. cbn [get_ap_ssids_from]. unfold bind at 1, getitem at 1.
  unfold bind at 1, load at 1. cbn [heap]. rewrite Hname.
  unfold or_raise at 1, ret at 1. unfold bind at 1.
  rewrite progress_console_print_run by exact Hrender. unfold bind at 1.
  unfold organizations_getOrganizationDevices. munfold.
  destruct (getOrganizationDevices dashboard d org_id net (py_str name)) as [aps|e];
    [|done].
  rewrite fold_add_tag.
  by destruct (get_ap_ssids_from _ _ _ _ _ _) as [[res s'] ev].
Qed.

Lemma get_ap_ssids_from_unrendered org_id net r rest matched (d : D) h name msg :
  heap_get h r !! "name" = Some name ->
  markup_error (tag_line (py_str name)) = Some msg ->
  get_ap_ssids_from dashboard org_id net (r :: rest) matched (State d h)
  = (Raise (MarkupError msg), State d h, []).
Proof.
  intros Hname Hrender. cbn [get_ap_ssids_from]. unfold bind at 1, getitem at 1.
  unfold bind at 1, load at 1. cbn [heap]. rewrite Hname.
  unfold or_raise at 1, ret at 1. unfold bind at 1.
  by rewrite (progress_console_print_fails _ msg) by exact Hrender.
Qed.

Lemma get_ap_ssids_from_no_name org_id net r rest matched (d : D) h :
  heap_get h r !! "name" = None ->
  get_ap_ssids_from dashboard org_id net (r :: rest) matched (State d h)
  = (Raise (KeyError "name"), State d h, []).
Proof.
  intros Hname. cbn [get_ap_ssids_from]. unfold bind at 1, getitem at 1.
  unfold bind at 1, load at 1. cbn [heap]. by rewrite Hname.
Qed.

Lemma get_ap_ssids_from_mono (d1 d2 : D) h org_id net X aps extra :
  getOrganizationDevices dashboard d1 org_id net X = Ok aps ->
  getOrganizationDevices dashboard d2 org_id net X = Ok (aps ++ extra) ->
  (forall tag, tag <> X ->
     getOrganizationDevices dashboard d2 org_id net tag
     = getOrganizationDevices dashboard d1 org_id net tag) ->
  forall ssids matched1 matched2 matched s1 ev,
    matched1 ⊆ matched2 ->
    matched2 ⊆ matched1 ∪ {[X]} ->
    get_ap_ssids_from dashboard org_id net ssids matched1 (State d1 h) = (Ok matched, s1, ev) ->
    exists matched',
      get_ap_ssids_from dashboard org_id net ssids matched2 (State d2 h)
        = (Ok matched', State d2 h, ev)
      /\ matched ⊆ matched' /\ matched' ⊆ matched ∪ {[X]}.
Proof.
  intros H1 H2 Hother. induction ssids as [|r rest IH];
    intros matched1 matched2 matched s1 ev Hsub Hsup Hrun.
  - injection Hrun as <- _ <-. by exists matched2.
  - destruct (heap_get h r !! "name") as [name|] eqn:Hname;
      [|by rewrite get_ap_ssids_from_no_name in Hrun].
    destruct (markup_error (tag_line (py_str name))) as [msg|] eqn:Hrender;
      [by rewrite (get_ap_ssids_from_unrendered _ _ _ _ _ _ _ _ _ Hname Hrender) in Hrun|].
    rewrite (get_ap_ssids_from_step _ _ _ _ _ _ _ _ Hname Hrender) in Hrun.
    rewrite (get_ap_ssids_from_step _ _ _ _ _ _ _ _ Hname Hrender).
    cbv zeta in Hrun |- *.
    destruct (decide (py_str name = X)) as [Heq|Hne].
    + rewrite Heq in Hrun |- *. rewrite H1 in Hrun. rewrite H2.
      destruct (get_ap_ssids_from dashboard org_id net rest _ (State d1 h))
        as [[res s'] ev'] eqn:Hrest in Hrun.
      injection Hrun as -> <- <-.
      edestruct IH as (matched' & Hrun' & Hle & Hge); [| |exact Hrest|].
      3: { rewrite Hrun'. by exists matched'. }
      * destruct aps, extra; simpl; set_solver.
      * destruct aps, extra; simpl; set_solver.
    + rewrite (Hother _ Hne).
      destruct (getOrganizationDevices dashboard d1 org_id net (py_str name))
        as [found|e]; [|done].
      destruct (get_ap_ssids_from dashboard org_id net rest _ (State d1 h))
        as [[res s'] ev'] eqn:Hrest in Hrun.
      injection Hrun as -> <- <-.
      edestruct IH as (matched' & Hrun' & Hle & Hge); [| |exact Hrest|].
      3: { rewrite Hrun'. by exists matched'. }
      * destruct found; set_solver.
      * destruct found; set_solver.
Qed.

(** C9. Tag matching is monotonic.  Let the device query for the tag [X] in
    a network return more access points than before (the former ones and
    some added), every other query answering as before.  Then the matched
    set of the network keeps every name it had, and the only name it may
    gain is [X]. *)
Theorem tag_matching_monotone (d1 d2 : D) h org_id net ssids X aps extra matched s1 ev :
  getOrganizationDevices dashboard d1 org_id net X = Ok aps ->
  getOrganizationDevices dashboard d2 org_id net X = Ok (aps ++ extra) ->
  (forall tag, tag <> X ->
     getOrganizationDevices dashboard d2 org_id net tag
     = getOrganizationDevices dashboard d1 org_id net tag) ->
  get_ap_ssids dashboard org_id net ssids (State d1 h) = (Ok matched, s1, ev) ->
  exists matched',
    get_ap_ssids dashboard org_id net ssids (State d2 h) = (Ok matched', State d2 h, ev)
    /\ matched ⊆ matched'
    /\ matched' ⊆ matched ∪ {[X]}.
Proof.
  intros H1 H2 Hother Hrun.
  by apply (get_ap_ssids_from_mono d1 d2 h org_id net X aps extra H1 H2 Hother
              ssids ∅ ∅ matched s1 ev).
Qed.

End TagMatching.

(** ** The catalogue *)

Section Catalogue.
Context {D : Type} (dashboard : Dashboard D).
Context {console : Console} {interpreter : Interpreter}.

Lemma catalogue_entries_app base fetched1 fetched2 :
  catalogue_entries base (fetched1 ++ fetched2)
  = catalogue_entries base fetched1
    ++ catalogue_entries (base + length fetched1) fetched2.
Proof.
  revert base. induction fetched1 as [|rec rest IH]; intros base; simpl.
  - by rewrite Nat.add_0_r.
  - rewrite IH, Nat.add_succ_r.
    destruct (rec !! "name") as [[| | |name|]|]; try done.
    by destruct (startswith name "Unconfigured").
Qed.

Lemma keep_configured_run (s : @state D) fetched :
  forall before after all_ssids,
    heap s = before ++ fetched ++ after ->
    Forall has_string_name fetched ->
    keep_configured (seq (length before) (length fetched)) all_ssids s
    = (Ok (all_ssids ++ (catalogue_entries (length before) fetched).*2), s, []).
Proof.
  induction fetched as [|rec rest IH]; intros before after acc Hheap Hnames.
  - simpl. by rewrite app_nil_r.
  - apply Forall_cons in Hnames as [[name Hname] Hnames].
    assert (Hrec : heap s !! length before = Some rec).
    { rewrite Hheap. by apply list_lookup_middle. }
    cbn [length seq keep_configured catalogue_entries].
    unfold bind at 1, getitem at 1. unfold bind at 1, load at 1.
    rewrite (heap_get_lookup _ _ _ Hrec), Hname.
    unfold or_raise at 1, ret at 1. unfold bind at 1, value_startswith at 1, ret at 1.
    specialize (IH (before ++ [rec]) after).
    rewrite length_app, Nat.add_1_r in IH.
    rewrite IH; [|by rewrite <- app_assoc|done].
    destruct (startswith name "Unconfigured"); simpl; [done|].
    by rewrite <- app_assoc.
Qed.

Lemma wireless_getNetworkWirelessSsids_run (s : state) net fetched :
  getNetworkWirelessSsids dashboard (dash s) net = Ok fetched ->
  wireless_getNetworkWirelessSsids dashboard net s
  = (Ok (seq (length (heap s)) (length fetched)),
     State (dash s) (heap s ++ fetched), [EGetNetworkWirelessSsids net]).
Proof.
  destruct s as [d h]. simpl. intros Hget.
  unfold wireless_getNetworkWirelessSsids. munfold. rewrite Hget. done.
Qed.

Lemma get_all_ssids_from_run wireless_networks responses :
  forall (s : state) all_ssids,
    Forall (fun net => markup_error (fetch_line net) = None) wireless_networks ->
    Forall2 (fun net fetched =>
               getNetworkWirelessSsids dashboard (dash s) (net_id net) = Ok fetched)
      wireless_networks responses ->
    Forall has_string_name (concat responses) ->
    get_all_ssids_from dashboard wireless_networks all_ssids s
    = (Ok (all_ssids ++ (catalogue_entries (length (heap s)) (concat responses)).*2),
       State (dash s) (heap s ++ concat responses), fetch_events wireless_networks).
Proof.
  revert responses.
  induction wireless_networks as [|net nets IH]; intros responses s acc Hrender Hget Hnames.
  - inversion Hget; subst. simpl. destruct s. by rewrite !app_nil_r.
  - inversion Hget as [|? fetched ? rest Hnet Hrest]; subst.
    apply Forall_cons in Hrender as [Hline Hrender].
    simpl in Hnames. apply Forall_app in Hnames as [Hfetched Hnames].
    cbn [get_all_ssids_from]. unfold bind at 1.
    rewrite progress_console_print_run by exact Hline. unfold bind at 1.
    rewrite (wireless_getNetworkWirelessSsids_run s _ _ Hnet).
    unfold bind at 1.
    rewrite (keep_configured_run (State (dash s) (heap s ++ fetched)) fetched
               (heap s) [] acc); [|by rewrite app_nil_r|done].
    rewrite (IH rest (State (dash s) (heap s ++ fetched))); [|done|done|done].
    cbn [dash heap concat]. rewrite catalogue_entries_app, length_app.
    by rewrite fmap_app, !app_assoc.
Qed.

(** A run of the loop that returned has rendered the line of every
    network. *)
Lemma get_all_ssids_from_rendered wireless_networks :
  forall (s s' : state) all_ssids result ev,
    get_all_ssids_from dashboard wireless_networks all_ssids s = (Ok result, s', ev) ->
    Forall (fun net => markup_error (fetch_line net) = None) wireless_networks.
Proof.
  induction wireless_networks as [|net nets IH]; intros s s' acc result ev Hrun;
    [constructor|].
  cbn [get_all_ssids_from] in Hrun.
  apply bind_Ok_inv in Hrun as (? & s1 & ev1 & ev2 & Hline & Hrun & _).
  apply bind_Ok_inv in Hrun as (ssids & s2 & ev3 & ev4 & _ & Hrun & _).
  apply bind_Ok_inv in Hrun as (acc' & s3 & ev5 & ev6 & _ & Hrun & _).
  constructor; [by eapply progress_console_print_Ok | by eapply IH].
Qed.

Lemma make_ssid_dict_from_run (s : @state D) entries :
  forall ssid_dict,
    Forall (named_in (heap s)) entries ->
    make_ssid_dict_from entries.*2 ssid_dict s
    = (Ok (set_all ssid_dict entries), s, []).
Proof.
  induction entries as [|[name r] entries IH]; intros acc Hnamed; [done|].
  apply Forall_cons in Hnamed as [(rec & Hrec & Hname) Hnamed]. simpl in Hrec, Hname.
  cbn [fmap list_fmap snd make_ssid_dict_from].
  unfold bind at 1, getitem at 1. unfold bind at 1, load at 1.
  rewrite (heap_get_lookup _ _ _ Hrec), Hname.
  unfold or_raise at 1, ret at 1. by rewrite IH.
Qed.

Lemma catalogue_entries_named before fetched after :
  Forall (named_in (before ++ fetched ++ after)) (catalogue_entries (length before) fetched).
Proof.
  revert before. induction fetched as [|rec rest IH]; intros before; [constructor|].
  specialize (IH (before ++ [rec])).
  rewrite length_app, Nat.add_1_r, <- app_assoc in IH. simpl in IH |- *.
  destruct (rec !! "name") as [[| | |name|]|] eqn:Hname; try done.
  destruct (startswith name "Unconfigured"); [done|].
  constructor; [|done]. exists rec. split; [|done]. by apply list_lookup_middle.
Qed.

End Catalogue.

Section CatalogueFacts.
Context {D : Type} (dashboard : Dashboard D).
Context {console : Console} {interpreter : Interpreter}.

Lemma NoDup_keys_set_all {V} (acc : PyDict.dict V) kvs :
  NoDup (PyDict.keys acc) -> NoDup (PyDict.keys (set_all acc kvs)).
Proof.
  unfold set_all. revert acc. induction kvs as [|[k v] kvs IH]; intros acc Hacc; [done|].
  simpl. by apply IH, PyDictFacts.NoDup_keys_set.
Qed.

Lemma elem_of_catalogue_names base fetched name :
  name ∈ (catalogue_entries base fetched).*1 <->
  exists rec, rec ∈ fetched /\ rec !! "name" = Some (VStr name)
              /\ startswith name "Unconfigured" = false.
Proof.
  revert base. induction fetched as [|rec rest IH]; intros base; simpl.
  - rewrite elem_of_nil. split; [done|]. intros (? & []%elem_of_nil & _).
  - assert (Hskip : rec !! "name" <> Some (VStr name)
                    \/ startswith name "Unconfigured" = true ->
             (name ∈ (catalogue_entries (S base) rest).*1 <->
              exists rec', rec' ∈ rec :: rest /\ rec' !! "name" = Some (VStr name)
                           /\ startswith name "Unconfigured" = false)).
    { intros Hnot. rewrite IH. split.
      - intros (rec' & Hin & Hname & Hconf). exists rec'.
        split; [apply elem_of_cons; by right | done].
      - intros (rec' & Hin & Hname & Hconf).
        apply elem_of_cons in Hin as [->|Hin]; [|by exists rec'].
        destruct Hnot; congruence. }
    destruct (rec !! "name") as [[| | |nm|]|] eqn:Hname;
      try (apply Hskip; by left).
    destruct (startswith nm "Unconfigured") eqn:Hconf.
    + apply Hskip. destruct (decide (nm = name)) as [->|]; [by right | left; congruence].
    + simpl. rewrite elem_of_cons, IH. split.
      * intros [->|(rec' & Hin & Hname' & Hconf')].
        -- exists rec. split; [apply elem_of_cons; by left | done].
        -- exists rec'. split; [apply elem_of_cons; by right | done].
      * intros (rec' & Hin & Hname' & Hconf').
        apply elem_of_cons in Hin as [->|Hin]; [left; congruence | right; by exists rec'].
Qed.

(** The reference the catalogue holds for a name is the one of the last
    fetched record of that name. *)
Lemma catalogue_last_wins base fetched name r :
  PyDict.get (set_all [] (catalogue_entries base fetched)) name = Some r ->
  exists before rec after,
    fetched = before ++ rec :: after
    /\ r = (base + length before)%nat
    /\ rec !! "name" = Some (VStr name)
    /\ startswith name "Unconfigured" = false
    /\ Forall (fun later => later !! "name" <> Some (VStr name)) after.
Proof.
  induction fetched as [|rec fetched IH] using rev_ind; [done|].
  rewrite catalogue_entries_app.
  assert (Hskip : (rec !! "name" = Some (VStr name) ->
                   startswith name "Unconfigured" = true) ->
          PyDict.get (set_all [] (catalogue_entries base fetched)) name = Some r ->
          exists before rec0 after,
            fetched ++ [rec] = before ++ rec0 :: after
            /\ r = (base + length before)%nat
            /\ rec0 !! "name" = Some (VStr name)
            /\ startswith name "Unconfigured" = false
            /\ Forall (fun later => later !! "name" <> Some (VStr name)) after).
  { intros Hnot (before & rec0 & after & -> & Hr & Hname & Hconf & Hafter)%IH.
    exists before, rec0, (after ++ [rec]). rewrite <- app_assoc.
    split; [done|]. split; [done|]. split; [done|]. split; [done|].
    apply Forall_app. split; [done|]. constructor; [|constructor].
    intros Hrec. specialize (Hnot Hrec). congruence. }
  simpl.
  destruct (rec !! "name") as [[| | |nm|]|] eqn:Hname;
    rewrite ?app_nil_r; try (apply Hskip; by intros [=]).
  destruct (startswith nm "Unconfigured") eqn:Hconf.
  - rewrite app_nil_r. apply Hskip. by intros [= <-].
  - unfold set_all. rewrite fold_left_app. simpl.
    rewrite PyDictFacts.get_set.
    destruct (String.eqb_spec nm name) as [->|Hne].
    + intros [= <-]. exists fetched, rec, []. by repeat split.
    + apply Hskip. intros [= ?]. done.
Qed.

(** C4. For every list of wireless networks whose SSIDs are fetched (the
    console renders the line that announces each network, the dashboard
    serves its SSIDs, and each SSID has a string for a name), the
    catalogue built from them has each of its keys once; a name is a key
    exactly when a fetched SSID has that name and the name does not start
    with the placeholder prefix, so that no placeholder is in it; and the
    record a key refers to is the last one of that name among the fetched
    records, taken network after network in the order of the iteration. *)
Theorem catalogue_excludes_placeholders_last_wins (s : state) wireless_networks responses :
  Forall (fun net => markup_error (fetch_line net) = None) wireless_networks ->
  Forall2 (fun net fetched =>
             getNetworkWirelessSsids dashboard (dash s) (net_id net) = Ok fetched)
    wireless_networks responses ->
  Forall has_string_name (concat responses) ->
  exists all_ssids ssid_dict s',
    get_all_ssids dashboard wireless_networks s
      = (Ok all_ssids, s', fetch_events wireless_networks)
    /\ make_ssid_dict all_ssids s' = (Ok ssid_dict, s', [])
    /\ heap s' = heap s ++ concat responses
    /\ NoDup (PyDict.keys ssid_dict)
    /\ (forall name, name ∈ PyDict.keys ssid_dict -> startswith name "Unconfigured" = false)
    /\ (forall name,
          name ∈ PyDict.keys ssid_dict <->
          exists rec, rec ∈ concat responses /\ rec !! "name" = Some (VStr name)
                      /\ startswith name "Unconfigured" = false)
    /\ (forall name r,
          PyDict.get ssid_dict name = Some r ->
          exists before rec after,
            concat responses = before ++ rec :: after
            /\ heap s' !! r = Some rec
            /\ rec !! "name" = Some (VStr name)
            /\ Forall (fun later => later !! "name" <> Some (VStr name)) after).
Proof.
  intros Hrender Hget Hnames.
  set (entries := catalogue_entries (length (heap s)) (concat responses)).
  exists entries.*2, (set_all [] entries), (State (dash s) (heap s ++ concat responses)).
  assert (Hkeys : forall name,
            name ∈ PyDict.keys (set_all [] entries) <->
            exists rec, rec ∈ concat responses /\ rec !! "name" = Some (VStr name)
                        /\ startswith name "Unconfigured" = false).
  { intros name. rewrite elem_of_keys_set_all, <- elem_of_catalogue_names.
    split; [intros [[]%elem_of_nil|Hin]; exact Hin | intros Hin; by right]. }
  split.
  { unfold get_all_ssids.
    by rewrite (get_all_ssids_from_run dashboard _ _ s [] Hrender Hget Hnames). }
  split.
  { unfold make_ssid_dict. apply make_ssid_dict_from_run. simpl.
    rewrite <- (app_nil_r (concat responses)) at 1.
    apply catalogue_entries_named. }
  split; [done|].
  split; [apply NoDup_keys_set_all; constructor|].
  split; [intros name (rec & _ & _ & Hconf)%Hkeys; exact Hconf|].
  split; [exact Hkeys|].
  intros name r (before & rec & after & Heq & -> & Hname & _ & Hafter)%catalogue_last_wins.
  exists before, rec, after. split; [done|]. split; [|done]. simpl.
  rewrite Heq, lookup_app_r, Nat.add_comm, Nat.add_sub by lia.
  by apply list_lookup_middle.
Qed.

End CatalogueFacts.

(** ** The listing of step 7 *)

Section Listing.
Context {D : Type} (dashboard : Dashboard D).
Context {console : Console} {interpreter : Interpreter}.

Lemma py_eqb_refl v : py_eqb v v = true.
Proof. destruct v; simpl; try done; by apply bool_decide_eq_true. Qed.

Lemma psk_ssid_eqb_refl x : psk_ssid_eqb x x = true.
Proof. unfold psk_ssid_eqb. by rewrite !py_eqb_refl, String.eqb_refl. Qed.

Lemma keep_psk_run (s : @state D) net fetched :
  forall before after psk_ssids,
    heap s = before ++ fetched ++ after ->
    Forall psk_ready fetched ->
    keep_psk net (seq (length before) (length fetched)) psk_ssids s
    = (Ok (psk_ssids ++ psk_entries net fetched), s, []).
Proof.
  induction fetched as [|rec rest IH]; intros before after acc Hheap Hready.
  - simpl. by rewrite app_nil_r.
  - apply Forall_cons in Hready as [[[authMode Hauth] Hfields] Hready].
    assert (Hrec : heap s !! length before = Some rec).
    { rewrite Hheap. by apply list_lookup_middle. }
    specialize (IH (before ++ [rec]) after).
    rewrite length_app, Nat.add_1_r, <- app_assoc in IH.
    cbn [length seq keep_psk]. unfold psk_entries, is_psk in *. cbn [List.filter].
    unfold bind at 1, getitem at 1. unfold bind at 1, load at 1.
    rewrite (heap_get_lookup _ _ _ Hrec), Hauth in *.
    unfold or_raise at 1, ret at 1.
    destruct (py_eqb authMode (VStr "psk")).
    + destruct Hfields as [[name Hname] [number Hnumber]]; [done|].
      unfold bind at 1, getitem at 1. unfold bind at 1, load at 1.
      rewrite (heap_get_lookup _ _ _ Hrec), Hname.
      unfold or_raise at 1, ret at 1.
      unfold bind at 1, getitem at 1. unfold bind at 1, load at 1.
      rewrite (heap_get_lookup _ _ _ Hrec), Hnumber.
      unfold or_raise at 1, ret at 1.
      rewrite IH by done. simpl.
      unfold to_psk_ssid at 2, number_of. rewrite Hname, Hnumber. simpl.
      by rewrite <- app_assoc.
    + by rewrite IH.
Qed.

Lemma get_psk_net_ssids_run (s : state) net fetched :
  getNetworkWirelessSsids dashboard (dash s) net = Ok fetched ->
  Forall psk_ready fetched ->
  get_psk_net_ssids dashboard net s
  = (Ok (psk_entries net fetched), State (dash s) (heap s ++ fetched),
     [EGetNetworkWirelessSsids net]).
Proof.
  intros Hget Hready. unfold get_psk_net_ssids. unfold bind at 1.
  rewrite (wireless_getNetworkWirelessSsids_run dashboard s _ _ Hget).
  rewrite (keep_psk_run (State (dash s) (heap s ++ fetched)) net fetched (heap s) [] []);
    [done | by rewrite app_nil_r | done].
Qed.

Lemma collect_psk_ssids_run net_ids responses :
  forall (s : state) psk_ssids,
    Forall2 (fun net fetched => getNetworkWirelessSsids dashboard (dash s) net = Ok fetched)
      net_ids responses ->
    Forall psk_ready (concat responses) ->
    collect_psk_ssids dashboard net_ids psk_ssids s
    = (Ok (psk_ssids ++ concat (zip_with psk_entries net_ids responses)),
       State (dash s) (heap s ++ concat responses),
       EGetNetworkWirelessSsids <$> net_ids).
Proof.
  revert responses.
  induction net_ids as [|net nets IH]; intros responses s acc Hget Hready.
  - inversion Hget; subst. simpl. destruct s. by rewrite !app_nil_r.
  - inversion Hget as [|? fetched ? rest Hnet Hrest]; subst.
    simpl in Hready. apply Forall_app in Hready as [Hfetched Hready].
    cbn [collect_psk_ssids]. unfold bind at 1.
    rewrite (get_psk_net_ssids_run s _ _ Hnet Hfetched).
    rewrite (IH rest (State (dash s) (heap s ++ fetched))); [|done|done].
    cbn [dash heap concat zip_with fmap list_fmap]. by rewrite <- !app_assoc.
Qed.

End Listing.

Section ListingLines.
Context {D : Type} (dashboard : Dashboard D).
Context {console : Console} {interpreter : Interpreter}.

Lemma all_distinct_app l1 l2 :
  all_distinct (l1 ++ l2) = true <->
  all_distinct l1 = true /\ all_distinct l2 = true
  /\ Forall (fun x => Forall (fun y => psk_ssid_eqb x y = false) l2) l1.
Proof.
  induction l1 as [|x l1 IH]; simpl.
  - split; [intros H; by repeat split | by intros (_ & H & _)].
  - rewrite !andb_true_iff, IH, forallb_app, andb_true_iff, Forall_cons.
    assert (Hcross : forallb (fun y => negb (psk_ssid_eqb x y)) l2 = true
                     <-> Forall (fun y => psk_ssid_eqb x y = false) l2).
    { rewrite forallb_forall, Forall_forall.
      split; intros H y Hy.
      - apply negb_true_iff, H. by apply list_elem_of_In.
      - apply negb_true_iff, H. by apply list_elem_of_In. }
    rewrite Hcross. tauto.
Qed.

Lemma all_distinct_entries net fetched :
  distinct_numbers (List.filter is_psk fetched) = true ->
  all_distinct (psk_entries net fetched) = true.
Proof.
  unfold psk_entries. induction (List.filter is_psk fetched) as [|rec l IH]; [done|].
  simpl. rewrite !andb_true_iff. intros [Hrec Hl]. split; [|by apply IH].
  clear IH Hl. induction l as [|other l IH]; [done|].
  simpl in Hrec |- *. apply andb_true_iff in Hrec as [Hne Hrec].
  rewrite IH by done. apply negb_true_iff in Hne.
  unfold psk_ssid_eqb. simpl. by rewrite Hne, andb_false_r.
Qed.

Lemma psk_entries_net net fetched x :
  x ∈ psk_entries net fetched -> psk_net_id x = net.
Proof. unfold psk_entries. by intros (rec & -> & _)%list_elem_of_fmap. Qed.

Lemma concat_entries_net net_ids responses y :
  y ∈ concat (zip_with psk_entries net_ids responses) -> psk_net_id y ∈ net_ids.
Proof.
  revert responses. induction net_ids as [|net nets IH]; intros [|fetched rest]; simpl;
    try by intros []%elem_of_nil.
  rewrite elem_of_app, elem_of_cons.
  intros [Hy|Hy]; [left; by eapply psk_entries_net | right; by eapply IH].
Qed.

(** Entries are pairwise different when the networks are, and the slot
    numbers of one network are. *)
Lemma all_distinct_listing net_ids responses :
  NoDup net_ids ->
  Forall (fun fetched => distinct_numbers (List.filter is_psk fetched) = true) responses ->
  all_distinct (concat (zip_with psk_entries net_ids responses)) = true.
Proof.
  intros Hnets. revert responses.
  induction Hnets as [|net nets Hfresh Hnets IH]; intros [|fetched rest] Hnum; try done.
  apply Forall_cons in Hnum as [Hfetched Hrest]. simpl.
  apply all_distinct_app. split; [by apply all_distinct_entries|].
  split; [by apply IH|].
  apply Forall_forall. intros x Hx. apply Forall_forall. intros y Hy.
  apply psk_entries_net in Hx. apply concat_entries_net in Hy.
  unfold psk_ssid_eqb. destruct (String.eqb_spec (psk_net_id x) (psk_net_id y)) as [Heq|];
    [|by rewrite andb_false_r].
  destruct Hfresh. by rewrite <- Hx, Heq.
Qed.

Lemma list_index_first before x after :
  Forall (fun y => psk_ssid_eqb y x = false) before ->
  list_index (before ++ x :: after) x = Some (length before).
Proof.
  induction 1 as [|y before Hy _ IH]; simpl.
  - by rewrite psk_ssid_eqb_refl.
  - by rewrite Hy, IH.
Qed.

Lemma print_psk_ssids_run (net_id_to_name : PyDict.dict string) (s : @state D) todo :
  forall printed,
    all_distinct (printed ++ todo) = true ->
    Forall (fun ssid => is_Some (PyDict.get net_id_to_name (psk_net_id ssid))) todo ->
    print_psk_ssids net_id_to_name (printed ++ todo) todo s
    = (Ok tt, s,
       imap (fun i ssid => listing_line net_id_to_name (length printed + i) ssid) todo).
Proof.
  induction todo as [|ssid todo IH]; intros printed Hdistinct Hknown; [done|].
  apply Forall_cons in Hknown as [[name Hname] Hknown].
  cbn [print_psk_ssids]. unfold bind at 1.
  rewrite list_index_first.
  2: { apply all_distinct_app in Hdistinct as (_ & _ & Hcross).
       eapply Forall_impl; [exact Hcross|]. intros y Hy. by apply Forall_cons in Hy as [? _]. }
  unfold or_raise at 1, ret at 1. unfold bind at 1, dict_getitem at 1. rewrite Hname.
  unfold or_raise at 1, ret at 1. unfold bind at 1, print at 1, emit at 1.
  specialize (IH (printed ++ [ssid])). rewrite <- app_assoc in IH. simpl in IH.
  rewrite IH by done. rewrite imap_cons. unfold listing_line at 2.
  rewrite Hname, Nat.add_0_r. cbn [app default from_option].
  f_equal. f_equal. apply imap_ext. intros i x _. cbn [compose].
  by rewrite length_app, Nat.add_1_r, Nat.add_succ_r.
Qed.

(** C5. The listing of step 7 holds exactly the SSIDs of the target networks
    whose [authMode] equals ["psk"]: the entries of the first network in the
    order of its response, then those of the second, and so on; the line
    printed for an entry begins with the position of the entry in that list,
    counted from 0.  It is stated for target networks taken once each, as
    the keys of a dictionary are, and responses in which the slot numbers of
    the SSIDs of one network differ. *)
Theorem psk_listing_in_order (net_id_to_name : PyDict.dict string) (s : state)
    net_ids responses :
  NoDup net_ids ->
  Forall (fun net => is_Some (PyDict.get net_id_to_name net)) net_ids ->
  Forall2 (fun net fetched => getNetworkWirelessSsids dashboard (dash s) net = Ok fetched)
    net_ids responses ->
  Forall psk_ready (concat responses) ->
  Forall (fun fetched => distinct_numbers (List.filter is_psk fetched) = true) responses ->
  exists psk_ssids s',
    collect_psk_ssids dashboard net_ids [] s
      = (Ok psk_ssids, s', EGetNetworkWirelessSsids <$> net_ids)
    /\ psk_ssids = concat (zip_with psk_entries net_ids responses)
    /\ print_psk_ssids net_id_to_name psk_ssids psk_ssids s'
       = (Ok tt, s',
          imap (fun index ssid =>
                  EPrint (pretty index +:+ " - " +:+ py_str (psk_name ssid) +:+ " of "
                          +:+ default "" (PyDict.get net_id_to_name (psk_net_id ssid))))
            psk_ssids).
Proof.
  intros Hnets Hknown Hget Hready Hnum.
  eexists _, _. split; [by apply collect_psk_ssids_run|].
  split; [done|]. simpl.
  apply (print_psk_ssids_run net_id_to_name _ _ []).
  - by apply all_distinct_listing.
  - apply Forall_forall. intros ssid Hin%concat_entries_net.
    by apply (proj1 (Forall_forall _ _) Hknown).
Qed.

End ListingLines.

(** ** What a completed batch part of [main] guarantees to the prompt loop *)

Section Batch.
Context {D : Type} (dashboard : Dashboard D).
Context {console : Console} {interpreter : Interpreter}.

(** A listing that was printed found the name of every entry's network. *)
Lemma print_psk_ssids_known (net_id_to_name : PyDict.dict string) psk_ssids todo :
  forall (s s' : @state D) u ev,
    print_psk_ssids net_id_to_name psk_ssids todo s = (Ok u, s', ev) ->
    Forall (fun ssid => is_Some (PyDict.get net_id_to_name (psk_net_id ssid))) todo.
Proof.
  induction todo as [|ssid todo IH]; intros s s' u ev Hrun; [constructor|].
  cbn [print_psk_ssids] in Hrun.
  apply bind_Ok_inv in Hrun as (index & s1 & ev1 & ev2 & _ & Hrun & _).
  apply bind_Ok_inv in Hrun as (name & s2 & ev3 & ev4 & Hname & Hrun & _).
  apply bind_Ok_inv in Hrun as (? & s3 & ev5 & ev6 & _ & Hrun & _).
  constructor; [|by eapply IH].
  unfold dict_getitem, or_raise in Hname.
  destruct (PyDict.get net_id_to_name (psk_net_id ssid)); [by eexists | done].
Qed.

(** The keys of the dictionary step 5 builds never repeat. *)
Lemma match_networks_keys org_id all_ssids net_ids :
  forall network_to_ssids (s s' : state) result ev,
    NoDup (PyDict.keys network_to_ssids) ->
    match_networks dashboard org_id all_ssids net_ids network_to_ssids s
      = (Ok result, s', ev) ->
    NoDup (PyDict.keys result).
Proof.
  induction net_ids as [|net rest IH]; intros acc s s' result ev Hacc Hrun.
  - by injection Hrun as <- _ _.
  - cbn [match_networks] in Hrun.
    apply bind_Ok_inv in Hrun as (matched & s1 & ev1 & ev2 & _ & Hrun & _).
    eapply IH; [|exact Hrun]. by apply PyDictFacts.NoDup_keys_set.
Qed.

(** X17. When the batch part of [main] completes, the listing it hands to the
    prompt loop names only networks of [net_id_to_name]: the lookup the loop
    makes for a selected entry succeeds. *)
Lemma main_batch_names_known ORG_ID NET_NAMES (s s1 : state) net_id_to_name psk_ssids ev1 :
  main_batch dashboard ORG_ID NET_NAMES s = (Ok (Some (net_id_to_name, psk_ssids)), s1, ev1) ->
  Forall (fun ssid => is_Some (PyDict.get net_id_to_name (psk_net_id ssid))) psk_ssids.
Proof.
  unfold main_batch. intros Hrun.
  apply bind_Ok_inv in Hrun as (? & ? & ? & ? & _ & Hrun & _).
  apply bind_Ok_inv in Hrun as (? & ? & ? & ? & _ & Hrun & _).
  apply bind_Ok_inv in Hrun as ([m|] & ? & ? & ? & _ & Hrun & _); [|done].
  apply bind_Ok_inv in Hrun as (? & ? & ? & ? & _ & Hrun & _).
  apply bind_Ok_inv in Hrun as (wireless & ? & ? & ? & _ & Hrun & _).
  apply bind_Ok_inv in Hrun as (? & ? & ? & ? & _ & Hrun & _).
  apply bind_Ok_inv in Hrun as (all_ssids & ? & ? & ? & _ & Hrun & _).
  apply bind_Ok_inv in Hrun as (ssid_dict & ? & ? & ? & _ & Hrun & _).
  apply bind_Ok_inv in Hrun as (? & ? & ? & ? & _ & Hrun & _).
  apply bind_Ok_inv in Hrun as (network_to_ssids & ? & ? & ? & _ & Hrun & _).
  apply bind_Ok_inv in Hrun as (? & ? & ? & ? & _ & Hrun & _).
  apply bind_Ok_inv in Hrun as (? & ? & ? & ? & _ & Hrun & _).
  apply bind_Ok_inv in Hrun as (? & ? & ? & ? & _ & Hrun & _).
  apply bind_Ok_inv in Hrun as (psk & ? & ? & ? & _ & Hrun & _).
  apply bind_Ok_inv in Hrun as (? & ? & ? & ? & Hprint & Hrun & _).
  injection Hrun as <- <- _ _. by eapply print_psk_ssids_known.
Qed.

End Batch.

(** * Further properties of the script *)

(** ** How runs compose *)

Section Runs.
Context {D : Type} (dashboard : Dashboard D).
Context {console : Console} {interpreter : Interpreter}.

Lemma emits_impl {A} (P Q : event -> Prop) (m : @M D A) :
  (forall e, P e -> Q e) -> emits P m -> emits Q m.
Proof. intros HPQ Hm s r s' ev Hrun. eapply Forall_impl; [by eapply Hm | done]. Qed.

Lemma emits_ret {A} P (a : A) : emits P (@ret D A a).
Proof. intros s r s' ev [= <- <- <-]. constructor. Qed.

Lemma emits_raise {A} P e : emits P (@raise D A e).
Proof. intros s r s' ev [= <- <- <-]. constructor. Qed.

Lemma emits_emit P e : P e -> emits P (@emit D e).
Proof. intros He s r s' ev [= <- <- <-]. by repeat constructor. Qed.

Lemma emits_silent {A} P (m : @M D A) :
  (forall s, (m s).2 = []) -> emits P m.
Proof. intros Hm s r s' ev Hrun. specialize (Hm s). rewrite Hrun in Hm. simpl in Hm. by subst. Qed.

Lemma emits_bind {A B} P (m : @M D A) (f : A -> M B) :
  emits P m -> (forall a, emits P (f a)) -> emits P (bind m f).
Proof.
  intros Hm Hf s r s' ev Hrun.
  apply bind_run_inv in Hrun as [(e & Hrun & _)|(a & s1 & ev1 & ev2 & Hrun & Hrest & ->)].
  - by eapply Hm.
  - apply Forall_app. split; [by eapply Hm | by eapply Hf].
Qed.

Lemma emits_try_except {A} P (body : @M D A) handler :
  emits P body -> (forall e, emits P (handler e)) -> emits P (try_except body handler).
Proof.
  intros Hbody Hhandler s r s' ev. unfold try_except.
  destruct (body s) as [[[a|e] s1] ev1] eqn:Hrun.
  - intros [= <- <- <-]. by eapply Hbody.
  - destruct (handler e s1) as [[r' s2] ev2] eqn:Hh. intros [= <- <- <-].
    apply Forall_app. split; [by eapply Hbody | by eapply Hhandler].
Qed.

Lemma emits_or_raise {A} P (o : option A) e : emits P (@or_raise D A o e).
Proof. destruct o; [apply emits_ret | apply emits_raise]. Qed.

Lemma emits_getitem P r key : emits P (@getitem D r key).
Proof.
  apply emits_bind; [by apply emits_silent | intros obj; apply emits_or_raise].
Qed.

Lemma emits_dict_getitem {V} P (d : PyDict.dict V) key : emits P (@dict_getitem D V d key).
Proof. apply emits_or_raise. Qed.

Lemma emits_of_res {A} P (answer : D -> res A) :
  emits P (fun s : @state D => of_res (answer (dash s)) s).
Proof.
  intros s r s' ev. destruct (answer (dash s)); intros [= <- <- <-]; constructor.
Qed.

Lemma emits_render P text : emits P (@render D console text).
Proof. unfold render. destruct (markup_error text); [apply emits_raise | apply emits_ret]. Qed.

Lemma emits_console_print_panel P title text :
  P (EPanel title text) -> emits P (@console_print_panel D console title text).
Proof. intros HP. apply emits_bind; [apply emits_render | intros _; by apply emits_emit]. Qed.

Lemma emits_progress_console_print P text :
  P (EProgress text) -> emits P (@progress_console_print D console text).
Proof. intros HP. apply emits_bind; [apply emits_render | intros _; by apply emits_emit]. Qed.

Lemma emits_getOrganizationNetworks P org_id :
  P (EGetOrganizationNetworks org_id) ->
  emits P (organizations_getOrganizationNetworks dashboard org_id).
Proof.
  intros HP. apply emits_bind; [by apply emits_emit|].
  intros _. apply (emits_of_res P (fun d => getOrganizationNetworks dashboard d org_id)).
Qed.

Lemma emits_getOrganizationDevices P org_id net tag :
  P (EGetOrganizationDevices org_id net tag) ->
  emits P (organizations_getOrganizationDevices dashboard org_id net tag).
Proof.
  intros HP. apply emits_bind; [by apply emits_emit|].
  intros _. apply (emits_of_res P (fun d => getOrganizationDevices dashboard d org_id net tag)).
Qed.

Lemma emits_getNetworkWirelessSsids P net :
  P (EGetNetworkWirelessSsids net) ->
  emits P (wireless_getNetworkWirelessSsids dashboard net).
Proof.
  intros HP. apply emits_bind; [by apply emits_emit|].
  intros _. apply emits_bind.
  - apply (emits_of_res P (fun d => getNetworkWirelessSsids dashboard d net)).
  - intros ssids. by apply emits_silent.
Qed.

Lemma emits_updateNetworkWirelessSsid P net number kwargs :
  P (EUpdateNetworkWirelessSsid net number kwargs) ->
  emits P (wireless_updateNetworkWirelessSsid dashboard net number kwargs).
Proof.
  intros HP. apply emits_bind; [by apply emits_emit|].
  intros _ s r s' ev.
  destruct (updateNetworkWirelessSsid dashboard (dash s) net number kwargs) as [[a|e] d];
    intros [= <- <- <-]; constructor.
Qed.

(** *** Computations that only read *)

Lemma reads_only_ret {A} (a : A) : reads_only (@ret D A a).
Proof. by intros s r s' ev [= _ <- _]. Qed.

Lemma reads_only_raise {A} e : reads_only (@raise D A e).
Proof. by intros s r s' ev [= _ <- _]. Qed.

Lemma reads_only_emit e : reads_only (@emit D e).
Proof. by intros s r s' ev [= _ <- _]. Qed.

Lemma reads_only_bind {A B} (m : @M D A) (f : A -> M B) :
  reads_only m -> (forall a, reads_only (f a)) -> reads_only (bind m f).
Proof.
  intros Hm Hf s r s' ev Hrun.
  apply bind_run_inv in Hrun as [(e & Hrun & _)|(a & s1 & ev1 & ev2 & Hrun & Hrest & _)].
  - by eapply Hm.
  - apply Hm in Hrun as ->. by eapply Hf.
Qed.

Lemma reads_only_or_raise {A} (o : option A) e : reads_only (@or_raise D A o e).
Proof. destruct o; [apply reads_only_ret | apply reads_only_raise]. Qed.

Lemma reads_only_getitem r key : reads_only (@getitem D r key).
Proof.
  apply reads_only_bind; [by intros s ? ? ? [= _ <- _] | intros; apply reads_only_or_raise].
Qed.

Lemma reads_only_of_res {A} (answer : D -> res A) :
  reads_only (fun s : @state D => of_res (answer (dash s)) s).
Proof. intros s r s' ev. by destruct (answer (dash s)); intros [= _ <- _]. Qed.

Lemma reads_only_getOrganizationDevices org_id net tag :
  reads_only (organizations_getOrganizationDevices dashboard org_id net tag).
Proof.
  apply reads_only_bind; [apply reads_only_emit|].
  intros _. apply (reads_only_of_res (fun d => getOrganizationDevices dashboard d org_id net tag)).
Qed.

Lemma reads_only_getOrganizationNetworks org_id :
  reads_only (organizations_getOrganizationNetworks dashboard org_id).
Proof.
  apply reads_only_bind; [apply reads_only_emit|].
  intros _. apply (reads_only_of_res (fun d => getOrganizationNetworks dashboard d org_id)).
Qed.

End Runs.

(** ** [get_wireless_networks] *)

Section Wireless.
Context {D : Type} (dashboard : Dashboard D).
Context {console : Console} {interpreter : Interpreter}.

(** X1. [get_wireless_networks] sends one listing request and leaves the
    state alone.  When the listing is served it returns the networks that
    have ["wireless"] among their product types, all of them and no other,
    in the order of the listing; when the listing fails, the exception
    leaves the function. *)
Theorem get_wireless_networks_keeps_wireless_only (s : state) org_id :
  match getOrganizationNetworks dashboard (dash s) org_id with
  | Ok networks =>
      exists wireless,
        get_wireless_networks dashboard org_id s
          = (Ok wireless, s, [EGetOrganizationNetworks org_id])
        /\ sublist wireless networks
        /\ (forall net, net ∈ wireless <->
              net ∈ networks /\ "wireless" ∈ productTypes net)
  | Raise e =>
      get_wireless_networks dashboard org_id s
        = (Raise e, s, [EGetOrganizationNetworks org_id])
  end.
Proof.
  destruct s as [d h]. simpl. unfold get_wireless_networks. munfold.
  destruct (getOrganizationNetworks dashboard d org_id) as [networks|e]; [|done].
  eexists. split; [reflexivity|]. split.
  - induction networks as [|net networks IH]; simpl; [constructor|].
    case_bool_decide; by constructor.
  - intros net. split.
    + intros [Hin Hw]%list_elem_of_In%filter_In.
      split; [by apply list_elem_of_In | by apply bool_decide_eq_true in Hw].
    + intros [Hin Hw]. apply list_elem_of_In, filter_In.
      split; [by apply list_elem_of_In | by apply bool_decide_eq_true].
Qed.

End Wireless.

(** ** [get_ap_ssids] and step 5 *)

Section Matching.
Context {D : Type} (dashboard : Dashboard D).
Context {console : Console} {interpreter : Interpreter}.

Lemma has_ap_matched (d : D) org_id net tag aps (matched : gset string) :
  getOrganizationDevices dashboard d org_id net tag = Ok aps ->
  forall x, x ∈ match aps with [] => matched | _ => {[tag]} ∪ matched end
            <-> x ∈ matched \/ (x = tag /\ has_ap dashboard d org_id net tag = true).
Proof.
  intros Hget x. unfold has_ap. rewrite Hget. destruct aps; set_solver.
Qed.

Lemma get_ap_ssids_from_exact org_id net (d : D) h ssids :
  forall matched0 matched s' ev,
    get_ap_ssids_from dashboard org_id net ssids matched0 (State d h) = (Ok matched, s', ev) ->
    s' = State d h
    /\ ev = tag_requests h org_id net ssids
    /\ (forall tag, tag ∈ matched <->
          tag ∈ matched0
          \/ exists r, r ∈ ssids /\ tag_of h r = Some tag
                       /\ has_ap dashboard d org_id net tag = true).
Proof.
  induction ssids as [|r rest IH]; intros matched0 matched s' ev Hrun.
  - injection Hrun as <- <- <-. split; [done|]. split; [done|].
    intros tag. split; [by left|]. intros [?|(r & []%elem_of_nil & _)]. done.
  - destruct (heap_get h r !! "name") as [name|] eqn:Hname;
      [|by rewrite get_ap_ssids_from_no_name in Hrun].
    destruct (markup_error (tag_line (py_str name))) as [msg|] eqn:Hrender;
      [by rewrite (get_ap_ssids_from_unrendered _ _ _ _ _ _ _ _ _ _ Hname Hrender) in Hrun|].
    rewrite (get_ap_ssids_from_step _ _ _ _ _ _ _ _ _ Hname Hrender) in Hrun.
    cbv zeta in Hrun.
    destruct (getOrganizationDevices dashboard d org_id net (py_str name))
      as [aps|e] eqn:Hget; [|done].
    destruct (get_ap_ssids_from dashboard org_id net rest _ (State d h))
      as [[res s1] ev1] eqn:Hrest.
    injection Hrun as -> <- <-.
    apply IH in Hrest as (-> & -> & Hmatched).
    assert (Htag : tag_of h r = Some (py_str name)) by (unfold tag_of; by rewrite Hname).
    split; [done|]. split; [simpl; by rewrite Htag|].
    intros tag. rewrite Hmatched, (has_ap_matched _ _ _ _ _ _ Hget). split.
    + intros [[?|[-> Hap]]|(r' & Hin & Hr' & Hap)]; [by left| |].
      * right. exists r. split; [apply elem_of_cons; by left | done].
      * right. exists r'. split; [apply elem_of_cons; by right | done].
    + intros [?|(r' & Hin & Hr' & Hap)]; [by left; left|].
      apply elem_of_cons in Hin as [->|Hin].
      * left. right. rewrite Htag in Hr'. injection Hr' as <-. done.
      * right. by exists r'.
Qed.

(** X2. When [get_ap_ssids] returns, it has changed nothing, it has sent one
    device query per object of the catalogue list, in order, each for the
    object's name as the only tag, and the set it returns holds exactly the
    names for which the query came back with at least one access point. *)
Theorem get_ap_ssids_matches_tagged_names (d : D) h org_id net ssids matched s' ev :
  get_ap_ssids dashboard org_id net ssids (State d h) = (Ok matched, s', ev) ->
  s' = State d h
  /\ ev = tag_requests h org_id net ssids
  /\ (forall tag, tag ∈ matched <->
        exists r, r ∈ ssids /\ tag_of h r = Some tag
                  /\ has_ap dashboard d org_id net tag = true).
Proof.
  intros (-> & -> & Hmatched)%get_ap_ssids_from_exact.
  split; [done|]. split; [done|]. intros tag. rewrite Hmatched. set_solver.
Qed.

Lemma match_networks_exact org_id all_ssids (s : state) net_ids :
  forall network_to_ssids result s' ev,
    match_networks dashboard org_id all_ssids net_ids network_to_ssids s
      = (Ok result, s', ev) ->
    s' = s
    /\ exists sets,
        Forall2 (fun net matched =>
                   exists ev0, get_ap_ssids dashboard org_id net all_ssids s
                               = (Ok matched, s, ev0)) net_ids sets
        /\ result = set_all network_to_ssids (zip net_ids sets).
Proof.
  induction net_ids as [|net rest IH]; intros acc result s' ev Hrun.
  - injection Hrun as <- <- _. split; [done|]. exists []. by split; [constructor|].
  - cbn [match_networks] in Hrun.
    apply bind_Ok_inv in Hrun as (matched & s1 & ev1 & ev2 & Hmatch & Hrun & _).
    assert (s1 = s) as ->.
    { destruct s as [d h]. by apply get_ap_ssids_from_exact in Hmatch as [-> _]. }
    apply IH in Hrun as (-> & sets & Hsets & ->).
    split; [done|]. exists (matched :: sets). split; [|done].
    constructor; [by exists ev1 | done].
Qed.

(** X3. When step 5 completes, it has changed nothing, and the dictionary it
    built from an empty one has the given network identifiers as its keys,
    in their order (they are the keys of [net_id_to_name], so they do not
    repeat), each with the set [get_ap_ssids] returns for that network. *)
Theorem match_networks_one_entry_per_network org_id all_ssids (s : state) net_ids
    result s' ev :
  NoDup net_ids ->
  match_networks dashboard org_id all_ssids net_ids [] s = (Ok result, s', ev) ->
  s' = s
  /\ PyDict.keys result = net_ids
  /\ (forall net matched,
        PyDict.get result net = Some matched ->
        exists ev0, get_ap_ssids dashboard org_id net all_ssids s = (Ok matched, s, ev0)).
Proof.
  intros Hnd (-> & sets & Hsets & ->)%match_networks_exact. split; [done|].
  assert (Hfst : (zip net_ids sets).*1 = net_ids).
  { apply fst_zip. by rewrite (Forall2_length _ _ _ Hsets). }
  rewrite set_all_fresh by (simpl; by rewrite Hfst).
  split; [exact Hfst|]. intros net matched Hget. simpl in Hget.
  apply PyDictFacts.get_Some_elem, list_elem_of_lookup in Hget as [i Hi].
  apply lookup_zip_with_Some in Hi as (net' & matched' & [= <- <-] & Hnet & Hmatched).
  destruct (Forall2_lookup_lr _ _ _ _ _ _ Hsets Hnet Hmatched) as [ev0 Hrun].
  by exists ev0.
Qed.

Lemma get_ap_ssids_from_prefix org_id net (d : D) h before rest :
  Forall (tag_served dashboard d h org_id net) before ->
  forall matched0,
    exists matched1,
      get_ap_ssids_from dashboard org_id net (before ++ rest) matched0 (State d h) =
      let '(r, s', ev) :=
        get_ap_ssids_from dashboard org_id net rest matched1 (State d h) in
      (r, s', tag_requests h org_id net before ++ ev).
Proof.
  induction 1 as [|r before (tag & Htag & Hrender & aps & Haps) _ IH]; intros matched0.
  - exists matched0. simpl. by destruct (get_ap_ssids_from _ _ _ _ _ _) as [[res s'] ev].
  - unfold tag_of in Htag.
    destruct (heap_get h r !! "name") as [name|] eqn:Hname; [|done].
    injection Htag as <-.
    cbn [app]. rewrite (get_ap_ssids_from_step _ _ _ _ _ _ _ _ _ Hname Hrender).
    cbv zeta. rewrite Haps.
    destruct (IH (match aps with [] => matched0 | _ => {[py_str name]} ∪ matched0 end))
      as (matched1 & ->).
    exists matched1. destruct (get_ap_ssids_from _ _ _ _ _ _) as [[res s'] ev].
    cbn [tag_requests flat_map]. unfold tag_of at 1. rewrite Hname. cbn [fmap option_fmap option_map].
    by rewrite <- app_assoc.
Qed.

(** X19. The line that announces a tag goes through the console too: when
    the console cannot render the line for the name of one object of the
    catalogue, after the objects before it were asked about, [MarkupError]
    leaves [get_ap_ssids] before the device query for that name is sent,
    and no later name is asked about. *)
Theorem get_ap_ssids_stops_at_unrendered_tag (d : D) h org_id net before r after tag msg :
  Forall (tag_served dashboard d h org_id net) before ->
  tag_of h r = Some tag ->
  markup_error ("Retrieving all APs with the tag " +:+ tag) = Some msg ->
  get_ap_ssids dashboard org_id net (before ++ r :: after) (State d h)
  = (Raise (MarkupError msg), State d h, tag_requests h org_id net before).
Proof.
  intros Hbefore Htag Hrender. unfold get_ap_ssids.
  destruct (get_ap_ssids_from_prefix org_id net d h before (r :: after) Hbefore ∅)
    as (matched1 & ->).
  unfold tag_of in Htag.
  destruct (heap_get h r !! "name") as [name|] eqn:Hname; [|done].
  injection Htag as <-.
  rewrite (get_ap_ssids_from_unrendered _ _ _ _ _ _ _ _ _ _ Hname Hrender).
  by rewrite app_nil_r.
Qed.

End Matching.

(** ** Failures while the catalogue and the listing are read *)

Section ReadFailures.
Context {D : Type} (dashboard : Dashboard D).
Context {console : Console} {interpreter : Interpreter}.

Lemma fetch_events_app nets1 nets2 :
  fetch_events (nets1 ++ nets2) = fetch_events nets1 ++ fetch_events nets2.
Proof. unfold fetch_events. by rewrite flat_map_app. Qed.

(** The networks fetched without trouble are behind; the loop goes on with
    what is left. *)
Lemma get_all_ssids_from_prefix before responses rest :
  forall (s : state) all_ssids,
    Forall (fun net => markup_error (fetch_line net) = None) before ->
    Forall2 (fun net fetched =>
               getNetworkWirelessSsids dashboard (dash s) (net_id net) = Ok fetched)
      before responses ->
    Forall has_string_name (concat responses) ->
    get_all_ssids_from dashboard (before ++ rest) all_ssids s =
    let '(r, s2, ev) :=
      get_all_ssids_from dashboard rest
        (all_ssids ++ (catalogue_entries (length (heap s)) (concat responses)).*2)
        (State (dash s) (heap s ++ concat responses)) in
    (r, s2, fetch_events before ++ ev).
Proof.
  revert responses.
  induction before as [|net nets IH]; intros responses s acc Hrender Hget Hnames.
  - inversion Hget; subst. simpl. destruct s as [d h]. simpl. rewrite !app_nil_r.
    by destruct (get_all_ssids_from dashboard rest acc _) as [[r s2] ev].
  - inversion Hget as [|? fetched ? others Hnet Hrest]; subst.
    apply Forall_cons in Hrender as [Hline Hrender].
    simpl in Hnames. apply Forall_app in Hnames as [Hfetched Hnames].
    cbn [app get_all_ssids_from]. unfold bind at 1.
    rewrite progress_console_print_run by exact Hline. unfold bind at 1.
    rewrite (wireless_getNetworkWirelessSsids_run dashboard s _ _ Hnet).
    unfold bind at 1.
    rewrite (keep_configured_run (State (dash s) (heap s ++ fetched)) fetched
               (heap s) [] acc); [|by rewrite app_nil_r|done].
    rewrite (IH others (State (dash s) (heap s ++ fetched))); [|done|done|done].
    cbn [dash heap concat]. rewrite catalogue_entries_app, length_app, fmap_app, !app_assoc.
    by destruct (get_all_ssids_from dashboard rest _ _) as [[r s2] ev].
Qed.

Lemma keep_configured_bad (s : @state D) good bad rest err :
  forall before after all_ssids,
    heap s = before ++ (good ++ bad :: rest) ++ after ->
    Forall has_string_name good ->
    name_error bad = Some err ->
    keep_configured (seq (length before) (length (good ++ bad :: rest))) all_ssids s
    = (Raise err, s, []).
Proof.
  induction good as [|rec good IH]; intros before after acc Hheap Hgood Hbad.
  - assert (Hrec : heap s !! length before = Some bad).
    { rewrite Hheap. by apply list_lookup_middle. }
    cbn [app length seq keep_configured].
    unfold bind at 1, getitem at 1. unfold bind at 1, load at 1.
    rewrite (heap_get_lookup _ _ _ Hrec). unfold name_error in Hbad.
    destruct (bad !! "name") as [[| | |name|]|]; try done; by injection Hbad as <-.
  - apply Forall_cons in Hgood as [[name Hname] Hgood].
    assert (Hrec : heap s !! length before = Some rec).
    { rewrite Hheap. by apply list_lookup_middle. }
    cbn [app length seq keep_configured].
    unfold bind at 1, getitem at 1. unfold bind at 1, load at 1.
    rewrite (heap_get_lookup _ _ _ Hrec), Hname.
    unfold or_raise at 1, ret at 1. unfold bind at 1, value_startswith at 1, ret at 1.
    specialize (IH (before ++ [rec]) after).
    rewrite length_app, Nat.add_1_r in IH.
    by rewrite IH; [|rewrite <- app_assoc|done|done].
Qed.

(** X4. [get_all_ssids] has no handler around the SSID listing: when the
    listing of one wireless network fails, after the networks before it were
    fetched (the console rendering the line of each network up to that
    one), the exception leaves the function, the records fetched so far
    stay in the store, and no later network is asked. *)
Theorem get_all_ssids_stops_at_failed_fetch (s : state) before responses net after e :
  Forall (fun net' => markup_error (fetch_line net') = None) (before ++ [net]) ->
  Forall2 (fun net' fetched =>
             getNetworkWirelessSsids dashboard (dash s) (net_id net') = Ok fetched)
    before responses ->
  Forall has_string_name (concat responses) ->
  getNetworkWirelessSsids dashboard (dash s) (net_id net) = Raise e ->
  get_all_ssids dashboard (before ++ net :: after) s
  = (Raise e, State (dash s) (heap s ++ concat responses), fetch_events (before ++ [net])).
Proof.
  intros [Hrender [Hline _]%Forall_cons]%Forall_app Hget Hnames Hfail.
  unfold get_all_ssids.
  rewrite (get_all_ssids_from_prefix _ _ _ s [] Hrender Hget Hnames).
  destruct s as [d h]. cbn [dash heap] in *.
  cbn [get_all_ssids_from]. unfold bind at 1.
  rewrite progress_console_print_run by exact Hline. unfold bind at 1.
  unfold wireless_getNetworkWirelessSsids. munfold. rewrite Hfail. munfold.
  by rewrite fetch_events_app.
Qed.

(** X5. A fetched SSID whose name cannot be tested for the placeholder
    prefix stops [get_all_ssids]: a record without [name] raises
    [KeyError], a [name] that is not a string raises [AttributeError]; the
    records of that network are in the store by then, and no later network
    is asked.  It is stated for a console that renders the line of each
    network up to that one. *)
Theorem get_all_ssids_stops_at_unnamed_ssid (s : state) before responses net after
    good bad rest err :
  Forall (fun net' => markup_error (fetch_line net') = None) (before ++ [net]) ->
  Forall2 (fun net' fetched =>
             getNetworkWirelessSsids dashboard (dash s) (net_id net') = Ok fetched)
    before responses ->
  Forall has_string_name (concat responses) ->
  getNetworkWirelessSsids dashboard (dash s) (net_id net) = Ok (good ++ bad :: rest) ->
  Forall has_string_name good ->
  name_error bad = Some err ->
  get_all_ssids dashboard (before ++ net :: after) s
  = (Raise err,
     State (dash s) ((heap s ++ concat responses) ++ good ++ bad :: rest),
     fetch_events (before ++ [net])).
Proof.
  intros [Hrender [Hline _]%Forall_cons]%Forall_app Hget Hnames Hnet Hgood Hbad.
  unfold get_all_ssids.
  rewrite (get_all_ssids_from_prefix _ _ _ s [] Hrender Hget Hnames).
  cbn [get_all_ssids_from]. unfold bind at 1.
  rewrite progress_console_print_run by exact Hline. unfold bind at 1.
  rewrite (wireless_getNetworkWirelessSsids_run dashboard
             (State (dash s) (heap s ++ concat responses)) _ _ Hnet).
  unfold bind at 1. cbn [dash heap].
  rewrite (keep_configured_bad _ good bad rest err (heap s ++ concat responses) []);
    [|by rewrite app_nil_r|done|done].
  by rewrite fetch_events_app.
Qed.

(** X18. The console parses the line that announces a network as markup:
    when it cannot render the line of one wireless network, after the
    networks before it were fetched, [MarkupError] leaves [get_all_ssids]
    before the SSIDs of that network are asked for, and no later network is
    asked. *)
Theorem get_all_ssids_stops_at_unrendered_line (s : state) before responses net after msg :
  Forall (fun net' => markup_error (fetch_line net') = None) before ->
  Forall2 (fun net' fetched =>
             getNetworkWirelessSsids dashboard (dash s) (net_id net') = Ok fetched)
    before responses ->
  Forall has_string_name (concat responses) ->
  markup_error (fetch_line net) = Some msg ->
  get_all_ssids dashboard (before ++ net :: after) s
  = (Raise (MarkupError msg), State (dash s) (heap s ++ concat responses),
     fetch_events before).
Proof.
  intros Hrender Hget Hnames Hline. unfold get_all_ssids.
  rewrite (get_all_ssids_from_prefix _ _ _ s [] Hrender Hget Hnames).
  cbn [get_all_ssids_from]. unfold bind at 1.
  rewrite (progress_console_print_fails _ msg) by exact Hline.
  by rewrite app_nil_r.
Qed.

Lemma keep_psk_bad (s : @state D) net good bad rest key :
  forall before after psk_ssids,
    heap s = before ++ (good ++ bad :: rest) ++ after ->
    Forall psk_ready good ->
    missing_key bad = Some key ->
    keep_psk net (seq (length before) (length (good ++ bad :: rest))) psk_ssids s
    = (Raise (KeyError key), s, []).
Proof.
  induction good as [|rec good IH]; intros before after acc Hheap Hgood Hbad.
  - assert (Hrec : heap s !! length before = Some bad).
    { rewrite Hheap. by apply list_lookup_middle. }
    cbn [app length seq keep_psk]. unfold missing_key in Hbad.
    unfold bind at 1, getitem at 1. unfold bind at 1, load at 1.
    rewrite (heap_get_lookup _ _ _ Hrec).
    destruct (bad !! "authMode") as [authMode|]; [|by injection Hbad as <-].
    unfold or_raise at 1, ret at 1.
    destruct (py_eqb authMode (VStr "psk")); [|done].
    unfold bind at 1, getitem at 1. unfold bind at 1, load at 1.
    rewrite (heap_get_lookup _ _ _ Hrec).
    destruct (bad !! "name") as [name|]; [|by injection Hbad as <-].
    unfold or_raise at 1, ret at 1.
    unfold bind at 1, getitem at 1. unfold bind at 1, load at 1.
    rewrite (heap_get_lookup _ _ _ Hrec).
    destruct (bad !! "number") as [number|]; [done | by injection Hbad as <-].
  - apply Forall_cons in Hgood as [Hrec_ready Hgood].
    specialize (IH (before ++ [rec]) after).
    rewrite length_app, Nat.add_1_r in IH.
    cbn [app length seq keep_psk].
    destruct Hrec_ready as [[authMode Hauth] Hfields].
    assert (Hrec : heap s !! length before = Some rec).
    { rewrite Hheap. by apply list_lookup_middle. }
    unfold bind at 1, getitem at 1. unfold bind at 1, load at 1.
    rewrite (heap_get_lookup _ _ _ Hrec), Hauth. unfold or_raise at 1, ret at 1.
    unfold is_psk in Hfields. rewrite Hauth in Hfields.
    destruct (py_eqb authMode (VStr "psk")).
    + destruct Hfields as [[name Hname] [number Hnumber]]; [done|].
      unfold bind at 1, getitem at 1. unfold bind at 1, load at 1.
      rewrite (heap_get_lookup _ _ _ Hrec), Hname. unfold or_raise at 1, ret at 1.
      unfold bind at 1, getitem at 1. unfold bind at 1, load at 1.
      rewrite (heap_get_lookup _ _ _ Hrec), Hnumber. unfold or_raise at 1, ret at 1.
      by rewrite IH; [|rewrite <- app_assoc|done|done].
    + by rewrite IH; [|rewrite <- app_assoc|done|done].
Qed.

(** X6. [get_psk_net_ssids] asks every record for [authMode], and a record
    with a pre-shared key for [name] and then [number]; the first of these
    keys that a record lacks raises [KeyError] with that key, which leaves
    the function.  A record with another [authMode] is asked for nothing
    else. *)
Theorem get_psk_net_ssids_stops_at_missing_key (s : state) net good bad rest key :
  getNetworkWirelessSsids dashboard (dash s) net = Ok (good ++ bad :: rest) ->
  Forall psk_ready good ->
  missing_key bad = Some key ->
  get_psk_net_ssids dashboard net s
  = (Raise (KeyError key), State (dash s) (heap s ++ good ++ bad :: rest),
     [EGetNetworkWirelessSsids net]).
Proof.
  intros Hget Hgood Hbad. unfold get_psk_net_ssids. unfold bind at 1.
  rewrite (wireless_getNetworkWirelessSsids_run dashboard s _ _ Hget).
  by rewrite (keep_psk_bad _ net good bad rest key (heap s) [] []);
    [|rewrite app_nil_r|done|done].
Qed.

End ReadFailures.

(** ** Steps 2 and 6 of [main] *)

Section Steps.
Context {D : Type} (dashboard : Dashboard D).
Context {console : Console} {interpreter : Interpreter}.

Lemma get_set_all_elem {V} (acc : PyDict.dict V) kvs k v :
  PyDict.get (set_all acc kvs) k = Some v -> (k, v) ∈ kvs \/ PyDict.get acc k = Some v.
Proof.
  unfold set_all. revert acc. induction kvs as [|[k' v'] kvs IH]; intros acc; simpl.
  - by right.
  - intros [Hin|Hget]%IH; [left; apply elem_of_cons; by right|].
    rewrite PyDictFacts.get_set in Hget.
    destruct (String.eqb_spec k' k) as [->|_]; [|by right].
    injection Hget as <-. left. apply elem_of_cons. by left.
Qed.

(** X7. When step 2 resolves every configured name, it has changed nothing
    and has asked for the listing of the organization once per configured
    name.  The dictionary it returns has no key twice, also when a name is
    configured twice; each key is the identifier a configured name resolves
    to, stored with such a name; and every configured name has its
    identifier among the keys. *)
Theorem resolve_networks_dictionary (s : state) org_id names networks net_id_to_name s' ev :
  getOrganizationNetworks dashboard (dash s) org_id = Ok networks ->
  resolve_networks dashboard org_id names [] s = (Ok (Some net_id_to_name), s', ev) ->
  s' = s
  /\ ev = resolution_requests org_id names
  /\ NoDup (PyDict.keys net_id_to_name)
  /\ (forall id name,
        PyDict.get net_id_to_name id = Some name ->
        name ∈ names /\ find_network networks name = Some id)
  /\ (forall name,
        name ∈ names ->
        exists id, find_network networks name = Some id
                   /\ id ∈ PyDict.keys net_id_to_name).
Proof.
  intros Hlist Hrun.
  destruct (resolve_networks_cases dashboard s org_id networks Hlist names [])
    as [(ids & Hids & Hok)
       |[(before & name & after & _ & _ & _ & Habort)
        |(before & name & after & msg & _ & _ & _ & Hfail)]].
  - rewrite Hok in Hrun.
    injection Hrun as <- <- <-. split; [done|]. split; [done|].
    split; [apply NoDup_keys_set_all; constructor|]. split.
    + intros id name [Hin|Hget]%get_set_all_elem; [|done].
      apply list_elem_of_lookup in Hin as [i Hi].
      apply lookup_zip_with_Some in Hi as (id' & name' & [= <- <-] & Hid & Hname).
      split; [by eapply list_elem_of_lookup_2|].
      by destruct (Forall2_lookup_lr _ _ _ _ _ _ Hids Hname Hid).
    + intros name [i Hname]%list_elem_of_lookup.
      destruct (Forall2_lookup_l _ _ _ _ _ Hids Hname) as (id & Hid & Hfind).
      exists id. split; [done|]. apply elem_of_keys_set_all. right.
      rewrite fst_zip by (by rewrite (Forall2_length _ _ _ Hids)).
      by eapply list_elem_of_lookup_2.
  - rewrite Habort in Hrun. discriminate Hrun.
  - rewrite Hfail in Hrun. discriminate Hrun.
Qed.

Lemma configure_ssids_completes_keeping (net_id_to_name : PyDict.dict string)
    (ssid_dict : PyDict.dict ref) net name :
  PyDict.get net_id_to_name net = Some name ->
  forall ssid_names (s : state),
    catalogue_covers ssid_dict (heap s) ssid_names ->
    exists s' ev,
      configure_ssids dashboard net_id_to_name ssid_dict net ssid_names s = (Ok tt, s', ev)
      /\ length (List.filter is_update ev) = length ssid_names
      /\ (forall other, catalogue_covers ssid_dict (heap s) other ->
                        catalogue_covers ssid_dict (heap s') other).
Proof.
  intros Hn. induction ssid_names as [|ssid_name rest IH]; intros s Hc.
  - by exists s, [].
  - inversion Hc as [|? ? (r & rec & Hd & Hr & [nm Hnm]) Hrest]; subst.
    rewrite (configure_ssids_step dashboard _ _ _ _ _ _ _ _ _ Hd Hr Hn).
    unfold configure_outcome. rewrite Hnm.
    destruct (updateNetworkWirelessSsid dashboard (dash s) net (VInt 3)
                (delete "number" rec)) as [[resp|e] d].
    + edestruct (IH (State d (heap_set (heap s) r (delete "number" rec))))
        as (s' & ev & Hrun & Hlen & Hkeep); [by apply catalogue_covers_set|].
      rewrite Hrun. eexists _, _. split; [done|]. split; [simpl; by rewrite Hlen|].
      intros other Hother. by apply Hkeep, catalogue_covers_set.
    + edestruct (IH (State d (heap_set (heap s) r (delete "number" rec))))
        as (s' & ev & Hrun & Hlen & Hkeep); [by apply catalogue_covers_set|].
      rewrite Hrun. eexists _, _. split; [done|]. split; [simpl; by rewrite Hlen|].
      intros other Hother. by apply Hkeep, catalogue_covers_set.
Qed.

(** X8. Step 6 gets through every target network and every matched name,
    whatever the dashboard answers to the updates: given that every target
    network has a name, which the console renders in the line that
    announces it, and a matched set the catalogue covers, the loop returns
    normally and has sent as many updates as there are matched names over
    the target networks. *)
Theorem configure_networks_completes (net_id_to_name : PyDict.dict string)
    (ssid_dict : PyDict.dict ref) (network_to_ssids : PyDict.dict (gset string))
    net_ids (s : state) :
  Forall (step_6_ready net_id_to_name ssid_dict network_to_ssids (heap s)) net_ids ->
  exists s' ev,
    configure_networks dashboard net_id_to_name ssid_dict network_to_ssids net_ids s
      = (Ok tt, s', ev)
    /\ length (List.filter is_update ev) = matched_total network_to_ssids net_ids.
Proof.
  revert s. induction net_ids as [|net rest IH]; intros s Hready.
  - by exists s, [].
  - apply Forall_cons in Hready
      as [((name & Hname & Hline) & matched & Hmatched & Hcover) Hready].
    destruct (configure_ssids_completes_keeping net_id_to_name ssid_dict net name Hname
                (elements matched) s Hcover) as (s1 & ev1 & Hrun1 & Hlen1 & Hkeep).
    destruct (IH s1) as (s' & ev & Hrun & Hlen).
    { eapply Forall_impl; [exact Hready|].
      intros net' (Hname' & matched' & Hmatched' & Hcover').
      split; [done|]. exists matched'. split; [done|]. by apply Hkeep. }
    cbn [configure_networks]. unfold bind at 1, dict_getitem at 1. rewrite Hname.
    unfold or_raise at 1, ret at 1. unfold bind at 1.
    rewrite progress_console_print_run by exact Hline.
    unfold bind at 1, dict_getitem at 1. rewrite Hmatched.
    unfold or_raise at 1, ret at 1. unfold bind at 1. rewrite Hrun1, Hrun.
    eexists _, _. split; [reflexivity|].
    cbn [app List.filter is_update]. rewrite List.filter_app, length_app, Hlen1, Hlen.
    unfold matched_total. cbn [fmap list_fmap sum_list]. by rewrite Hmatched.
Qed.

End Steps.

(** ** What the batch part of [main] writes *)

Section Writes.
Context {D : Type} (dashboard : Dashboard D).
Context {console : Console} {interpreter : Interpreter}.

Lemma emits_bind_Ok {A B} P (Q : A -> Prop) (m : @M D A) (f : A -> M B) :
  emits P m ->
  (forall s a s1 ev1, m s = (Ok a, s1, ev1) -> Q a) ->
  (forall a, Q a -> emits P (f a)) ->
  emits P (bind m f).
Proof.
  intros Hm HQ Hf s r s' ev Hrun.
  apply bind_run_inv in Hrun as [(e & Hrun & _)|(a & s1 & ev1 & ev2 & Hrun & Hrest & ->)].
  - by eapply Hm.
  - apply Forall_app. split; [by eapply Hm|]. eapply Hf; [by eapply HQ | done].
Qed.

Lemma emits_keep_configured P ssids : forall all_ssids, emits P (@keep_configured D ssids all_ssids).
Proof.
  induction ssids as [|ssid rest IH]; intros acc; [apply emits_ret|].
  cbn [keep_configured]. apply emits_bind; [apply emits_getitem|]. intros name.
  apply emits_bind; [|intros b; apply IH].
  destruct name; first [apply emits_ret | apply emits_raise].
Qed.

Lemma emits_get_all_ssids P wireless_networks :
  (forall e, not_update e -> P e) ->
  emits P (get_all_ssids dashboard wireless_networks).
Proof.
  intros HP. unfold get_all_ssids. generalize (@nil ref).
  induction wireless_networks as [|net rest IH]; intros acc; [apply emits_ret|].
  cbn [get_all_ssids_from].
  apply emits_bind; [by apply emits_progress_console_print, HP|]. intros _.
  apply emits_bind; [by apply emits_getNetworkWirelessSsids, HP|]. intros ssids.
  apply emits_bind; [apply emits_keep_configured | intros acc'; apply IH].
Qed.

Lemma emits_make_ssid_dict P ssids : emits P (@make_ssid_dict D ssids).
Proof.
  unfold make_ssid_dict. generalize (@nil (string * ref)).
  induction ssids as [|ssid rest IH]; intros acc; [apply emits_ret|].
  cbn [make_ssid_dict_from]. apply emits_bind; [apply emits_getitem | intros name; apply IH].
Qed.

Lemma emits_get_ap_ssids P org_id net ssids :
  (forall e, not_update e -> P e) ->
  emits P (get_ap_ssids dashboard org_id net ssids).
Proof.
  intros HP. unfold get_ap_ssids. generalize (∅ : gset string).
  induction ssids as [|ssid rest IH]; intros acc; [apply emits_ret|].
  cbn [get_ap_ssids_from]. apply emits_bind; [apply emits_getitem|]. intros tag.
  apply emits_bind; [by apply emits_progress_console_print, HP|]. intros _.
  apply emits_bind; [by apply emits_getOrganizationDevices, HP | intros aps; apply IH].
Qed.

Lemma emits_match_networks P org_id all_ssids net_ids :
  (forall e, not_update e -> P e) ->
  forall acc, emits P (match_networks dashboard org_id all_ssids net_ids acc).
Proof.
  intros HP. induction net_ids as [|net rest IH]; intros acc; [apply emits_ret|].
  cbn [match_networks]. apply emits_bind; [by apply emits_get_ap_ssids | intros ?; apply IH].
Qed.

Lemma emits_keep_psk P net ssids : forall acc, emits P (@keep_psk D net ssids acc).
Proof.
  induction ssids as [|ssid rest IH]; intros acc; [apply emits_ret|].
  cbn [keep_psk]. apply emits_bind; [apply emits_getitem|]. intros authMode.
  destruct (py_eqb authMode (VStr "psk")); [|apply IH].
  apply emits_bind; [apply emits_getitem|]. intros name.
  apply emits_bind; [apply emits_getitem | intros number; apply IH].
Qed.

Lemma emits_collect_psk_ssids P net_ids :
  (forall e, not_update e -> P e) ->
  forall acc, emits P (collect_psk_ssids dashboard net_ids acc).
Proof.
  intros HP. induction net_ids as [|net rest IH]; intros acc; [apply emits_ret|].
  cbn [collect_psk_ssids]. apply emits_bind; [|intros found; apply IH].
  unfold get_psk_net_ssids.
  apply emits_bind; [by apply emits_getNetworkWirelessSsids, HP | intros; apply emits_keep_psk].
Qed.

Lemma emits_print_psk_ssids P net_id_to_name psk_ssids todo :
  (forall e, not_update e -> P e) ->
  emits P (@print_psk_ssids D net_id_to_name psk_ssids todo).
Proof.
  intros HP. induction todo as [|ssid rest IH]; [apply emits_ret|].
  cbn [print_psk_ssids]. apply emits_bind; [apply emits_or_raise|]. intros index.
  apply emits_bind; [apply emits_dict_getitem|]. intros name.
  apply emits_bind; [by apply emits_emit, HP | intros _; apply IH].
Qed.

(** One call of the configurator sends at most one update: for slot 3 of
    the network it was given, without [number]. *)
Lemma emits_configure_net_ssids net r :
  emits (slot_3_on [net]) (configure_net_ssids dashboard net r).
Proof.
  intros s res s' ev Hrun. destruct (heap s !! r) as [rec|] eqn:Hr.
  - rewrite (configure_net_ssids_run dashboard s net r rec Hr) in Hrun.
    unfold configure_outcome in Hrun.
    assert (Hrequest : slot_3_on [net]
              (EUpdateNetworkWirelessSsid net (VInt 3) (delete "number" rec))).
    { split; [done|]. split; [apply lookup_delete_eq | apply elem_of_cons; by left]. }
    destruct (updateNetworkWirelessSsid dashboard (dash s) net (VInt 3)
                (delete "number" rec)) as [[resp|e] d].
    + injection Hrun as <- <- <-. repeat first [exact Hrequest | exact I | constructor].
    + destruct (rec !! "name"); injection Hrun as <- <- <-;
        repeat first [exact Hrequest | exact I | constructor].
  - revert Hrun. destruct s as [d h]. simpl in Hr.
    unfold configure_net_ssids. munfold. unfold heap_get, heap_set.
    rewrite list_insert_ge by (by apply lookup_ge_None). rewrite Hr. simpl.
    rewrite lookup_empty. intros [= <- <- <-]. constructor.
Qed.

Lemma slot_3_on_mono targets targets' e :
  (forall net, net ∈ targets -> net ∈ targets') -> slot_3_on targets e -> slot_3_on targets' e.
Proof. intros Hsub. destruct e; simpl; try done. intros (? & ? & ?). auto. Qed.

Lemma not_update_slot_3_on targets e : not_update e -> slot_3_on targets e.
Proof. by destruct e. Qed.

Lemma emits_configure_ssids net_id_to_name ssid_dict net ssid_names :
  emits (slot_3_on [net])
    (configure_ssids dashboard net_id_to_name ssid_dict net ssid_names).
Proof.
  induction ssid_names as [|ssid_name rest IH]; [apply emits_ret|].
  cbn [configure_ssids]. apply emits_bind; [apply emits_dict_getitem|]. intros ssid.
  apply emits_bind; [apply emits_configure_net_ssids|]. intros configured.
  apply emits_bind; [apply emits_dict_getitem|]. intros name.
  apply emits_bind; [by apply emits_emit | intros _; apply IH].
Qed.

Lemma emits_configure_networks net_id_to_name ssid_dict network_to_ssids net_ids :
  emits (slot_3_on net_ids)
    (configure_networks dashboard net_id_to_name ssid_dict network_to_ssids net_ids).
Proof.
  induction net_ids as [|net rest IH]; [apply emits_ret|].
  cbn [configure_networks]. apply emits_bind; [apply emits_dict_getitem|]. intros name.
  apply emits_bind; [by apply emits_progress_console_print|]. intros _.
  apply emits_bind; [apply emits_dict_getitem|]. intros ssid_names.
  apply emits_bind.
  - eapply emits_impl; [|apply emits_configure_ssids].
    intros e. apply slot_3_on_mono. intros net' ->%list_elem_of_singleton.
    apply elem_of_cons. by left.
  - intros _. eapply emits_impl; [|apply IH].
    intros e. apply slot_3_on_mono. intros net' Hin. apply elem_of_cons. by right.
Qed.

Lemma no_ssid_request_not_update ev :
  no_ssid_request ev = true -> Forall not_update ev.
Proof.
  unfold no_ssid_request. rewrite forallb_forall, Forall_forall.
  intros Hall e Hin%list_elem_of_In. specialize (Hall e Hin). by destruct e.
Qed.

(** X9. Whatever happens in the batch part of [main], every update it sends
    is for slot 3, carries no [number], and goes to a network whose
    identifier one of the configured names resolves to in the listing of
    the organization: no other slot and no other network is written before
    the prompt. *)
Theorem main_batch_writes_slot_3_of_targets (s : state) ORG_ID NET_NAMES networks r s' ev :
  getOrganizationNetworks dashboard (dash s) ORG_ID = Ok networks ->
  main_batch dashboard ORG_ID NET_NAMES s = (r, s', ev) ->
  Forall (slot_3_on (omap (find_network networks) NET_NAMES)) ev.
Proof.
  intros Hlist Hrun. set (targets := omap (find_network networks) NET_NAMES).
  assert (Hpass : forall e, not_update e -> slot_3_on targets e)
    by (intros e; apply not_update_slot_3_on).
  unfold main_batch in Hrun.
  apply bind_run_inv in Hrun as [(? & Hr & _)|(? & ? & ? & ev2 & Hr & Hrun & ->)];
    rewrite console_print_panel_plain in Hr by done; [done|]. injection Hr as _ <- <-.
  apply Forall_app. split; [by repeat constructor|].
  apply bind_run_inv in Hrun as [(? & Hr & _)|(? & ? & ? & ev3 & Hr & Hrun & ->)];
    rewrite console_print_panel_plain in Hr by done; [done|]. injection Hr as _ <- <-.
  apply Forall_app. split; [by repeat constructor|].
  assert (Hresolve : exists r0 ev0,
            resolve_networks dashboard ORG_ID NET_NAMES [] s = (r0, s, ev0)
            /\ Forall not_update ev0
            /\ (forall net_id_to_name, r0 = Ok (Some net_id_to_name) ->
                forall net, net ∈ PyDict.keys net_id_to_name -> net ∈ targets)).
  { assert (Hquiet : forall names, Forall not_update (resolution_requests ORG_ID names))
      by (intros names; apply no_ssid_request_not_update, no_ssid_request_resolution).
    destruct (resolve_networks_cases dashboard s ORG_ID networks Hlist NET_NAMES [])
      as [(ids & Hids & Hok)
         |[(before & name & after & _ & _ & _ & Habort)
          |(before & name & after & msg & _ & _ & _ & Hfail)]].
    - eexists _, _. split; [exact Hok|]. split; [apply Hquiet|].
      intros net_id_to_name [= <-] net [[]%elem_of_nil|Hin]%elem_of_keys_set_all.
      rewrite fst_zip in Hin by (by rewrite (Forall2_length _ _ _ Hids)).
      apply list_elem_of_lookup in Hin as [i Hi].
      destruct (Forall2_lookup_r _ _ _ _ _ Hids Hi) as (name & Hname & Hfind).
      apply list_elem_of_omap. exists name. split; [by eapply list_elem_of_lookup_2 | done].
    - eexists _, _. split; [exact Habort|]. split; [|done].
      apply Forall_app. split; [apply Hquiet | by repeat constructor].
    - eexists _, _. split; [exact Hfail|]. split; [apply Hquiet | done]. }
  destruct Hresolve as (r0 & ev0 & Hres & Hev0 & Hkeys).
  apply bind_run_inv in Hrun as [(? & Hr & _)|(resolved & ? & ? & ev4 & Hr & Hrun & ->)];
    rewrite Hres in Hr; injection Hr as -> <- <-.
  { eapply Forall_impl; [exact Hev0 | exact Hpass]. }
  apply Forall_app. split; [eapply Forall_impl; [exact Hev0 | exact Hpass]|].
  destruct resolved as [net_id_to_name|];
    [|injection Hrun as _ _ <-; constructor].
  specialize (Hkeys net_id_to_name eq_refl).
  lazymatch type of Hrun with
  | ?m _ = _ => cut (emits (slot_3_on targets) m); [intros Hm; exact (Hm _ _ _ _ Hrun)|]
  end.
  clear Hrun.
  apply emits_bind; [by apply emits_console_print_panel|]. intros _.
  apply emits_bind.
  { unfold get_wireless_networks.
    apply emits_bind; [by apply emits_getOrganizationNetworks | intros; apply emits_ret]. }
  intros wireless_networks.
  apply emits_bind; [by apply emits_console_print_panel|]. intros _.
  apply emits_bind; [by apply emits_get_all_ssids|]. intros all_ssids.
  apply emits_bind; [apply emits_make_ssid_dict|]. intros ssid_dict.
  apply emits_bind; [by apply emits_console_print_panel|]. intros _.
  apply (emits_bind_Ok _ (fun result =>
           forall net, net ∈ PyDict.keys result -> net ∈ targets));
    [by apply emits_match_networks| |].
  { intros s0 result s1 ev1 (_ & sets & Hsets & ->)%match_networks_exact net.
    intros [[]%elem_of_nil|Hin]%elem_of_keys_set_all.
    rewrite fst_zip in Hin by (by rewrite (Forall2_length _ _ _ Hsets)). by apply Hkeys. }
  intros network_to_ssids Hresult.
  apply emits_bind; [by apply emits_console_print_panel|]. intros _.
  apply emits_bind.
  { eapply emits_impl; [|apply emits_configure_networks].
    intros e. by apply slot_3_on_mono. }
  intros _. apply emits_bind; [by apply emits_console_print_panel|]. intros _.
  apply emits_bind; [by apply emits_collect_psk_ssids|]. intros psk_ssids.
  apply emits_bind; [by apply emits_print_psk_ssids | intros; apply emits_ret].
Qed.

End Writes.

(** ** The two updates and the prompt loop *)

Section Contracts.
Context {D : Type} (dashboard : Dashboard D).
Context {console : Console} {interpreter : Interpreter}.

(** X10. The handler of [configure_net_ssids] formats the name of the SSID:
    when the update is rejected for a record that has no [name], the
    handler itself raises [KeyError] and the failure leaves the function,
    after the one update, with nothing printed; the record has lost its
    [number] all the same. *)
Theorem configure_net_ssids_handler_needs_name (s : state) net r rec e d :
  heap s !! r = Some rec ->
  rec !! "name" = None ->
  updateNetworkWirelessSsid dashboard (dash s) net (VInt 3) (delete "number" rec)
    = (Raise e, d) ->
  configure_net_ssids dashboard net r s
  = (Raise (KeyError "name"),
     State d (heap_set (heap s) r (delete "number" rec)),
     [EUpdateNetworkWirelessSsid net (VInt 3) (delete "number" rec)]).
Proof.
  intros Hr Hname Hupd. rewrite (configure_net_ssids_run dashboard s net r rec Hr).
  unfold configure_outcome. by rewrite Hupd, Hname.
Qed.

(** X11. What the two update functions return tells what the dashboard
    answered: for a record that has a [name], [configure_net_ssids] returns
    [True] when the update was accepted and [False] when it raised, and it
    always returns; so does [change_ssid_psk], which moreover leaves the
    store alone and sends a payload of exactly the two fields [authMode]
    and [psk]. *)
Theorem update_functions_report_the_answer (s : state) net r rec number psk :
  heap s !! r = Some rec ->
  is_Some (rec !! "name") ->
  (exists configured s' ev,
      configure_net_ssids dashboard net r s = (Ok configured, s', ev)
      /\ (configured = true <->
          exists answer, (updateNetworkWirelessSsid dashboard (dash s) net (VInt 3)
                            (delete "number" rec)).1 = Ok answer))
  /\ (exists configured s' payload rest,
      change_ssid_psk dashboard net number psk s
        = (Ok configured, s', EUpdateNetworkWirelessSsid net number payload :: rest)
      /\ heap s' = heap s
      /\ dom payload = {["authMode"; "psk"]}
      /\ payload !! "authMode" = Some (VStr "psk")
      /\ payload !! "psk" = Some (VStr psk)
      /\ (configured = true <->
          exists answer, (updateNetworkWirelessSsid dashboard (dash s) net number payload).1
                         = Ok answer)).
Proof.
  intros Hr [name Hname]. split.
  - rewrite (configure_net_ssids_run dashboard s net r rec Hr). unfold configure_outcome.
    rewrite Hname.
    destruct (updateNetworkWirelessSsid dashboard (dash s) net (VInt 3)
                (delete "number" rec)) as [[answer|e] d]; eexists _, _, _;
      (split; [reflexivity|]); simpl.
    + split; [by exists answer | done].
    + split; [done | by intros [? ?]].
  - rewrite change_ssid_psk_run.
    assert (Hdom : dom (psk_kwargs psk) = ({["authMode"; "psk"]} : gset string)).
    { unfold psk_kwargs. rewrite !dom_insert_L, dom_empty_L. set_solver. }
    destruct (updateNetworkWirelessSsid dashboard (dash s) net number (psk_kwargs psk))
      as [[answer|e] d] eqn:Hupd; eexists _, _, _, _;
      (split; [reflexivity|]); (split; [done|]); (split; [exact Hdom|]);
      (split; [done|]); (split; [done|]); rewrite Hupd; simpl.
    + split; [by exists answer | done].
    + split; [done | by intros [? ?]].
Qed.

Section Loop.
Variables (net_id_to_name : PyDict.dict string) (psk_ssids : list psk_ssid).

(** X12. When the input ends, [input] raises [EOFError] and the loop does
    not catch it.  In particular, after an entry of the listing was chosen
    and the input ends at the password prompt, the loop ends with
    [EOFError] and has sent no update. *)
Theorem prompt_loop_end_of_input (s : state) ssid_index index ssid name :
  lower ssid_index <> "n" ->
  int_of_str ssid_index = Some index ->
  list_getitem psk_ssids index = Some ssid ->
  PyDict.get net_id_to_name (psk_net_id ssid) = Some name ->
  prompt_loop dashboard net_id_to_name psk_ssids [] s
    = (Raise EOFError, s, [EPrompt index_prompt])
  /\ prompt_loop dashboard net_id_to_name psk_ssids [ssid_index] s
     = (Raise EOFError, s, [EPrompt index_prompt; ERead ssid_index; EPrompt psk_prompt]).
Proof.
  intros Hn Hp Hi Hname. split; [done|].
  apply String.eqb_neq in Hn. cbn [prompt_loop]. munfold. by rewrite Hn, Hp, Hi, Hname.
Qed.

Lemma list_getitem_elem {A} (l : list A) i x : list_getitem l i = Some x -> x ∈ l.
Proof.
  unfold list_getitem. destruct (0 <=? i); [by apply list_elem_of_lookup_2|].
  destruct (- Z.of_nat (length l) <=? i); [by apply list_elem_of_lookup_2 | done].
Qed.

(** An update found in a trace that begins with events that are no update
    and then an update is that update, or comes after it. *)
Lemma update_split quiet first rest before upd after :
  Forall not_update quiet ->
  is_update upd = true ->
  quiet ++ first :: rest = before ++ upd :: after ->
  (before = quiet /\ upd = first /\ after = rest)
  \/ (exists mid, before = quiet ++ first :: mid /\ rest = mid ++ upd :: after).
Proof.
  intros Hquiet Hupd. revert before.
  induction Hquiet as [|q quiet Hq _ IH]; intros [|b before] Heq; simpl in Heq.
  - injection Heq as <- <-. by left.
  - injection Heq as <- ->. right. by exists before.
  - injection Heq as -> _. unfold not_update in Hq. congruence.
  - injection Heq as <- Heq. destruct (IH before Heq) as [(-> & -> & ->)|(mid & -> & ->)].
    + by left.
    + right. by exists mid.
Qed.

Lemma quiet_split quiet ev mid upd after :
  Forall not_update quiet ->
  is_update upd = true ->
  quiet ++ ev = mid ++ upd :: after ->
  exists later, mid = quiet ++ later /\ ev = later ++ upd :: after.
Proof.
  intros Hquiet Hupd. revert mid.
  induction Hquiet as [|q quiet Hq _ IH]; intros mid Heq; simpl in Heq.
  - by exists mid.
  - destruct mid as [|m mid]; simpl in Heq.
    + injection Heq as -> _. unfold not_update in Hq. congruence.
    + injection Heq as <- Heq. destruct (IH mid Heq) as (later & -> & ->). by exists later.
Qed.

Lemma rotation_trace_quiet ev : Forall not_update ev -> rotation_trace psk_ssids ev.
Proof.
  intros Hquiet before net number payload after ->.
  apply Forall_app in Hquiet as [_ [Hupd _]%Forall_cons]. discriminate Hupd.
Qed.

Lemma rotation_trace_turn ssid_index new_psk index ssid name answer ev :
  int_of_str ssid_index = Some index ->
  list_getitem psk_ssids index = Some ssid ->
  rotation_trace psk_ssids ev ->
  rotation_trace psk_ssids (turn_events ssid_index new_psk ssid name answer ++ ev).
Proof.
  intros Hp Hi Hev before net number payload after Heq.
  set (asked := [EPrompt index_prompt; ERead ssid_index; EPrompt psk_prompt; ERead new_psk]).
  set (printed := match answer with
                  | Ok _ =>
                      [EPrint (py_str (psk_name ssid) +:+ " of network " +:+ name
                               +:+ " configured with a new psk")]
                  | Raise e =>
                      [EPrint psk_failure_line; EPrint (exn_text e);
                       EPrint ("There was an issue configuring a new psk for "
                               +:+ py_str (psk_name ssid) +:+ " of network " +:+ name)]
                  end).
  assert (Hprinted : Forall not_update printed)
    by (subst printed; destruct answer; by repeat constructor).
  change (asked
            ++ EUpdateNetworkWirelessSsid (psk_net_id ssid) (psk_number ssid)
                 (psk_kwargs new_psk) :: (printed ++ ev)
          = before ++ EUpdateNetworkWirelessSsid net number payload :: after) in Heq.
  apply update_split in Heq as [(-> & [= -> -> ->] & _)|(mid & -> & Heq)];
    [| |by repeat constructor|done].
  - by exists [], ssid_index, index, ssid, new_psk.
  - apply quiet_split in Heq as (later & -> & Heq); [|done|done].
    destruct (Hev _ _ _ _ _ Heq)
      as (earlier & ssid_index' & index' & ssid' & new_psk' & -> & Hrest).
    exists (asked
              ++ EUpdateNetworkWirelessSsid (psk_net_id ssid) (psk_number ssid)
                   (psk_kwargs new_psk) :: printed ++ earlier),
      ssid_index', index', ssid', new_psk'.
    split; [|exact Hrest]. rewrite <- !app_assoc. simpl. by rewrite <- !app_assoc.
Qed.

Lemma lines_read_turn ssid_index new_psk ssid name answer ev :
  lines_read (turn_events ssid_index new_psk ssid name answer ++ ev)
  = ssid_index :: new_psk :: lines_read ev.
Proof. unfold lines_read. rewrite omap_app. by destruct answer. Qed.

Lemma prompt_loop_rotation_trace :
  forall stdin (s : state) r s' ev,
    prompt_loop dashboard net_id_to_name psk_ssids stdin s = (r, s', ev) ->
    rotation_trace psk_ssids ev
    /\ lines_read ev `prefix_of` stdin
    /\ heap s' = heap s.
Proof.
  assert (Hend : forall (s : @state D) (r : res (list string)) (s' : @state D) ev stdin
                        ssid_index rest,
            stdin = ssid_index :: rest ->
            (ev = [EPrompt index_prompt; ERead ssid_index]
             \/ ev = [EPrompt index_prompt; ERead ssid_index; EPrompt psk_prompt]) ->
            s' = s ->
            rotation_trace psk_ssids ev
            /\ lines_read ev `prefix_of` stdin
            /\ heap s' = heap s).
  { intros s r s' ev stdin ssid_index rest -> Hev ->.
    split; [|split; [|done]].
    - apply rotation_trace_quiet. destruct Hev as [->| ->]; by repeat constructor.
    - destruct Hev as [->| ->]; by exists rest. }
  intros stdin. remember (length stdin) as n eqn:Hlen.
  revert stdin Hlen. induction (lt_wf n) as [n _ IH].
  intros [|ssid_index [|new_psk stdin]] Hlen s r s' ev Hrun.
  - injection Hrun as <- <- <-.
    split; [apply rotation_trace_quiet; by repeat constructor|].
    split; [by exists [] | done].
  - revert Hrun. cbn [prompt_loop]. munfold.
    destruct (String.eqb (lower ssid_index) "n").
    + intros [= <- <- <-]. eapply (Hend s (Ok [])); eauto.
    + destruct (int_of_str ssid_index) as [index|];
        [|intros [= <- <- <-]; eapply (Hend s (Ok [])); eauto].
      destruct (list_getitem psk_ssids index) as [ssid|];
        [|intros [= <- <- <-]; eapply (Hend s (Ok [])); eauto].
      destruct (PyDict.get net_id_to_name (psk_net_id ssid));
        intros [= <- <- <-]; eapply (Hend s (Ok [])); eauto.
  - destruct (String.eqb_spec (lower ssid_index) "n") as [Hn|Hn].
    { rewrite prompt_loop_done in Hrun by done. injection Hrun as <- <- <-.
      eapply (Hend s (Ok [])); eauto. }
    destruct (int_of_str ssid_index) as [index|] eqn:Hp.
    2: { rewrite prompt_loop_not_int in Hrun by done. injection Hrun as <- <- <-.
         eapply (Hend s (Ok [])); eauto. }
    destruct (list_getitem psk_ssids index) as [ssid|] eqn:Hi.
    2: { erewrite prompt_loop_out_of_range in Hrun by done. injection Hrun as <- <- <-.
         eapply (Hend s (Ok [])); eauto. }
    destruct (PyDict.get net_id_to_name (psk_net_id ssid)) as [name|] eqn:Hname.
    2: { apply String.eqb_neq in Hn. revert Hrun. cbn [prompt_loop]. munfold.
         rewrite Hn, Hp, Hi, Hname. intros [= <- <- <-].
         eapply (Hend s (Ok [])); eauto. }
    rewrite (prompt_loop_turn dashboard _ _ s _ _ _ _ _ _ Hn Hp Hi Hname) in Hrun.
    destruct (updateNetworkWirelessSsid dashboard (dash s) (psk_net_id ssid)
                (psk_number ssid) (psk_kwargs new_psk)) as [answer d].
    destruct (prompt_loop dashboard net_id_to_name psk_ssids stdin (State d (heap s)))
      as [[res s1] ev1] eqn:Hrest.
    injection Hrun as <- <- <-.
    assert (Hlt : (length stdin < n)%nat) by (subst n; simpl; lia).
    destruct (IH (length stdin) Hlt stdin eq_refl _ _ _ _ Hrest) as (Hev & Hread & Hheap).
    change (rotation_trace psk_ssids (turn_events ssid_index new_psk ssid name answer ++ ev1)
            /\ lines_read (turn_events ssid_index new_psk ssid name answer ++ ev1)
                 `prefix_of` ssid_index :: new_psk :: stdin
            /\ heap s1 = heap s).
    split; [by eapply rotation_trace_turn|].
    split; [|by rewrite Hheap].
    rewrite lines_read_turn. by do 2 apply prefix_cons.
Qed.

(** X13. However the prompt loop ends, every update it has sent comes right
    after the reading of an index line and of a password line, and sets the
    key of the entry that index line selects: it goes to the slot number
    and the network of that entry, and its payload is [authMode = "psk"]
    with the password line as [psk].  The lines read are the first lines of
    the input, in order, and the loop does not touch the store. *)
Theorem prompt_loop_updates_listed_entries_only stdin (s : state) r s' ev :
  prompt_loop dashboard net_id_to_name psk_ssids stdin s = (r, s', ev) ->
  rotation_trace psk_ssids ev
  /\ lines_read ev `prefix_of` stdin
  /\ heap s' = heap s.
Proof. apply prompt_loop_rotation_trace. Qed.

End Loop.

Lemma list_index_Some l x j :
  list_index l x = Some j ->
  exists first,
    l !! j = Some first /\ psk_ssid_eqb first x = true
    /\ (forall k other, (k < j)%nat -> l !! k = Some other -> psk_ssid_eqb other x = false).
Proof.
  revert j. induction l as [|y l IH]; intros j; simpl; [done|].
  destruct (psk_ssid_eqb y x) eqn:Hy.
  - intros [= <-]. exists y. split; [done|]. split; [done|]. intros k other Hk. lia.
  - destruct (list_index l x) as [i|]; [|done]. intros [= <-].
    destruct (IH i eq_refl) as (first & Hfirst & Heq & Hbefore).
    exists first. split; [done|]. split; [done|].
    intros [|k] other Hk; simpl; [by intros [= <-]|]. apply Hbefore. lia.
Qed.

Lemma list_index_elem l x : x ∈ l -> is_Some (list_index l x).
Proof.
  induction 1 as [x l|x y l _ IH]; simpl.
  - rewrite psk_ssid_eqb_refl. by eexists.
  - destruct (psk_ssid_eqb y x); [by eexists|]. destruct IH as [i ->]. by eexists.
Qed.

Lemma print_psk_ssids_lines (net_id_to_name : PyDict.dict string) psk_ssids (s : @state D) todo :
  Forall (fun ssid => ssid ∈ psk_ssids
                      /\ is_Some (PyDict.get net_id_to_name (psk_net_id ssid))) todo ->
  print_psk_ssids net_id_to_name psk_ssids todo s
  = (Ok tt, s,
     (fun ssid => listing_line net_id_to_name (default O (list_index psk_ssids ssid)) ssid)
       <$> todo).
Proof.
  induction 1 as [|ssid todo [Hin [name Hname]] _ IH]; [done|].
  destruct (list_index_elem _ _ Hin) as [j Hj].
  cbn [print_psk_ssids]. unfold bind at 1. rewrite Hj.
  unfold or_raise at 1, ret at 1. unfold bind at 1, dict_getitem at 1. rewrite Hname.
  unfold or_raise at 1, ret at 1. unfold bind at 1, print at 1, emit at 1.
  rewrite IH. cbn [fmap list_fmap app default from_option].
  unfold listing_line. by rewrite Hj, Hname.
Qed.

(** X14. The index printed for an entry of the listing is what
    [psk_ssids.index] returns: the position of the first entry equal to it
    (same name, number and network).  It is never past the entry's own
    position, and it is that position only when no earlier entry is equal:
    of two equal entries, the second is printed with the index of the
    first. *)
Theorem listing_prints_index_of_first_equal (net_id_to_name : PyDict.dict string)
    psk_ssids (s : @state D) :
  Forall (fun ssid => is_Some (PyDict.get net_id_to_name (psk_net_id ssid))) psk_ssids ->
  exists indices,
    print_psk_ssids net_id_to_name psk_ssids psk_ssids s
      = (Ok tt, s, zip_with (listing_line net_id_to_name) indices psk_ssids)
    /\ length indices = length psk_ssids
    /\ (forall i ssid j,
          psk_ssids !! i = Some ssid -> indices !! i = Some j ->
          (j <= i)%nat
          /\ exists first,
               psk_ssids !! j = Some first /\ psk_ssid_eqb first ssid = true
               /\ (forall k other, (k < j)%nat -> psk_ssids !! k = Some other ->
                                   psk_ssid_eqb other ssid = false)).
Proof.
  intros Hknown.
  exists ((fun ssid => default O (list_index psk_ssids ssid)) <$> psk_ssids).
  split; [|split; [by rewrite length_fmap|]].
  - rewrite print_psk_ssids_lines.
    + f_equal.
      assert (Hzip : forall l : list psk_ssid,
                ((fun ssid => listing_line net_id_to_name
                                (default O (list_index psk_ssids ssid)) ssid) <$> l)
                = zip_with (listing_line net_id_to_name)
                    ((fun ssid => default O (list_index psk_ssids ssid)) <$> l) l).
      { induction l as [|x l IH]; [done|]. simpl. f_equal. exact IH. }
      apply Hzip.
    + apply Forall_forall. intros ssid Hin. split; [done|].
      by apply (proj1 (Forall_forall _ _) Hknown).
  - intros i ssid j Hi Hj. rewrite list_lookup_fmap, Hi in Hj. simpl in Hj.
    destruct (list_index_elem psk_ssids ssid) as [j' Hj']; [by eapply list_elem_of_lookup_2|].
    rewrite Hj' in Hj. injection Hj as <-.
    destruct (list_index_Some _ _ _ Hj') as (first & Hfirst & Heq & Hbefore).
    split; [|by exists first].
    destruct (decide (j' <= i)%nat) as [|Hgt]; [done|].
    assert (Hi' : (i < j')%nat) by lia.
    specialize (Hbefore i ssid Hi' Hi). by rewrite psk_ssid_eqb_refl in Hbefore.
Qed.

End Contracts.

(** ** How the steps of [main] fit together *)

Section Fit.
Context {D : Type} (dashboard : Dashboard D).
Context {console : Console} {interpreter : Interpreter}.

(** X15. Steps 4 to 6 fit: every name [get_ap_ssids] matches, for any
    network, is a key of the catalogue built from the same fetched SSIDs,
    and the object the catalogue holds for it is in the store and has a
    [name].  So the lookups [ssid_dict[ssid_name]] of step 6 and the handler
    of [configure_net_ssids] find what they read. *)
Theorem matched_names_are_in_the_catalogue (s : state) wireless_networks responses
    org_id net all_ssids ssid_dict matched s1 s2 s3 ev1 ev2 ev3 :
  Forall2 (fun net' fetched =>
             getNetworkWirelessSsids dashboard (dash s) (net_id net') = Ok fetched)
    wireless_networks responses ->
  Forall has_string_name (concat responses) ->
  get_all_ssids dashboard wireless_networks s = (Ok all_ssids, s1, ev1) ->
  make_ssid_dict all_ssids s1 = (Ok ssid_dict, s2, ev2) ->
  get_ap_ssids dashboard org_id net all_ssids s2 = (Ok matched, s3, ev3) ->
  catalogue_covers ssid_dict (heap s3) (elements matched).
Proof.
  intros Hget Hnames Hall Hdict Hmatch.
  set (fetched := concat responses) in *.
  set (entries := catalogue_entries (length (heap s)) fetched).
  unfold get_all_ssids in Hall.
  assert (Hrender := get_all_ssids_from_rendered dashboard _ _ _ _ _ _ Hall).
  rewrite (get_all_ssids_from_run dashboard _ _ s [] Hrender Hget Hnames) in Hall.
  injection Hall as <- <- _. fold fetched entries in Hdict, Hmatch.
  assert (Hnamed : Forall (named_in (heap s ++ fetched)) entries).
  { rewrite <- (app_nil_r fetched) at 1. apply catalogue_entries_named. }
  unfold make_ssid_dict in Hdict.
  rewrite (make_ssid_dict_from_run (State (dash s) (heap s ++ fetched)) entries [] Hnamed)
    in Hdict.
  injection Hdict as <- <- _.
  apply get_ap_ssids_from_exact in Hmatch as (-> & _ & Hmatched).
  apply Forall_forall. intros tag Hin%elem_of_elements.
  apply Hmatched in Hin as [[]%elem_of_empty|(r & Hr & Htag & _)].
  apply list_elem_of_fmap in Hr as ([name r'] & -> & Hentry).
  destruct (proj1 (Forall_forall _ _) Hnamed _ Hentry) as (rec & Hrec & Hname).
  simpl in Hrec, Hname, Htag.
  unfold tag_of in Htag. rewrite (heap_get_lookup _ _ _ Hrec), Hname in Htag.
  injection Htag as <-.
  assert (Hkey : name ∈ PyDict.keys (set_all [] entries)).
  { apply elem_of_keys_set_all. right. apply list_elem_of_fmap. by exists (name, r'). }
  destruct (PyDict.get (set_all [] entries) name) as [r|] eqn:Hlookup;
    [|by apply PyDictFacts.get_None in Hlookup].
  destruct (catalogue_last_wins _ _ _ _ Hlookup)
    as (before & rec' & after & Heq & -> & Hname' & _).
  exists (length (heap s) + length before)%nat, rec'. split; [done|]. split; [|by eexists].
  simpl. rewrite Heq, lookup_app_r, Nat.add_comm, Nat.add_sub by lia.
  by apply list_lookup_middle.
Qed.

(** X16. There is no handler around step 2: when the listing of the
    organization fails for the first configured name, whose banner the
    console renders, [main] ends with that exception, having printed the
    two banners and the step banner and sent the one listing request, and
    nothing else. *)
Theorem main_stops_when_the_listing_fails (s : state) ORG_ID network rest stdin e :
  markup_error (step_2_banner network) = None ->
  getOrganizationNetworks dashboard (dash s) ORG_ID = Raise e ->
  main dashboard ORG_ID (network :: rest) stdin s
  = (Raise e, s,
     [EPanel None "Meraki AP SSID Configuration";
      EPanel (Some "Step 1") "Connect to Meraki dashboard";
      EPanel (Some "Step 2") ("Get network ID for network " +:+ network);
      EGetOrganizationNetworks ORG_ID]).
Proof.
  destruct s as [d h]. simpl. intros Hrender Hlist.
  unfold main, main_batch. unfold bind at 1. unfold bind at 1.
  rewrite console_print_panel_plain by done.
  unfold bind at 1. rewrite console_print_panel_plain by done.
  unfold bind at 1. cbn [resolve_networks]. unfold bind at 1.
  rewrite console_print_panel_run by exact Hrender.
  unfold get_network_id. munfold. by rewrite Hlist.
Qed.

End Fit.

(** * The properties on a small organization *)

#[local] Existing Instance Demo.console.
#[local] Existing Instance Demo.interpreter.

Lemma get_network_id_exact_match_witness :
  get_network_id Demo.dashboard "org" "branch-a" (Demo.start 1 Demo.one_ap)
  = (Ok None, Demo.start 1 Demo.one_ap, [EGetOrganizationNetworks "org"]).
Proof.
  destruct (get_network_id_exact_match Demo.dashboard (Demo.start 1 Demo.one_ap)
              "org" "branch-a" Demo.networks eq_refl) as (found & Hrun & _ & Hnone & _).
  rewrite Hrun. replace found with (@None string); [done|].
  symmetry. apply Hnone. by repeat constructor.
Defined.

Lemma configure_net_ssids_targets_slot_3_witness :
  exists res s' rest,
    configure_net_ssids Demo.dashboard "N2" 1%nat (State (Demo.Org 1 Demo.one_ap) Demo.fetched)
    = (res, s',
       EUpdateNetworkWirelessSsid "N2" (VInt 3) (delete "number" (Demo.ssid "Staff" 1 "psk"))
       :: rest).
Proof.
  destruct (configure_net_ssids_targets_slot_3 Demo.dashboard
              (State (Demo.Org 1 Demo.one_ap) Demo.fetched) "N2" 1%nat
              (Demo.ssid "Staff" 1 "psk") eq_refl)
    as (res & s' & payload & rest & Hrun & Hnumber & Hkeep & _).
  exists res, s', rest. rewrite Hrun. do 3 f_equal. apply map_eq. intros key.
  destruct (decide (key = "number")) as [->|Hne].
  - by rewrite Hnumber, lookup_delete_eq.
  - by rewrite Hkeep, lookup_delete_ne.
Defined.

Lemma configure_net_ssids_drops_number_witness :
  exists res s' ev rec',
    configure_net_ssids Demo.dashboard "N2" 1%nat (State (Demo.Org 0 Demo.one_ap) Demo.fetched)
    = (res, s', ev)
    /\ heap s' !! 1%nat = Some rec'
    /\ rec' !! "number" = None
    /\ rec' !! "name" = Some (VStr "Staff").
Proof.
  destruct (configure_net_ssids_drops_number Demo.dashboard
              (State (Demo.Org 0 Demo.one_ap) Demo.fetched) "N2" 1%nat
              (Demo.ssid "Staff" 1 "psk") eq_refl)
    as (res & s' & ev & rec' & Hrun & Hrec & Hnumber & Hkeep & _).
  exists res, s', ev, rec'. split; [done|]. split; [done|]. split; [done|].
  by rewrite Hkeep.
Defined.


Lemma prompt_loop_protocol_witness :
  prompt_loop Demo.dashboard [("N1", "Branch-A")]
    [PskSsid (VStr "Guest") (VInt 0) "N1"; PskSsid (VStr "Staff") (VInt 1) "N1"]
    ["1"; "swordfish"; "N"; "left unread"] (Demo.start 1 Demo.one_ap)
  = (Ok ["left unread"], Demo.start 0 Demo.one_ap,
     [EPrompt index_prompt; ERead "1"; EPrompt psk_prompt; ERead "swordfish";
      EUpdateNetworkWirelessSsid "N1" (VInt 1) (psk_kwargs "swordfish");
      EPrint "Staff of network Branch-A configured with a new psk";
      EPrompt index_prompt; ERead "N"]).
Proof.
  destruct (prompt_loop_protocol Demo.dashboard [("N1", "Branch-A")]
              [PskSsid (VStr "Guest") (VInt 0) "N1"; PskSsid (VStr "Staff") (VInt 1) "N1"]
              (Demo.start 1 Demo.one_ap)) as (_ & _ & Hturn).
  rewrite (Hturn "1" "swordfish" ["N"; "left unread"] 1
             (PskSsid (VStr "Staff") (VInt 1) "N1") "Branch-A"
             ltac:(discriminate) eq_refl eq_refl eq_refl).
  cbn [updateNetworkWirelessSsid Demo.dashboard Demo.accepted Demo.aps dash heap Demo.start].
  destruct (prompt_loop_protocol Demo.dashboard [("N1", "Branch-A")]
              [PskSsid (VStr "Guest") (VInt 0) "N1"; PskSsid (VStr "Staff") (VInt 1) "N1"]
              (Demo.start 0 Demo.one_ap)) as (Hdone & _).
  unfold Demo.start in Hdone |- *.
  rewrite (Hdone "N" ["left unread"] eq_refl). reflexivity.
Defined.

Lemma malformed_input_propagates_witness :
  exists s' ev,
    main Demo.dashboard "org" ["Branch-A"] ["0"; "swordfish"; "2"; "never read"]
      (Demo.start 2 Demo.one_ap)
    = (Raise IndexError, s', ev).
Proof.
  assert (Hbatch : exists s1 ev1,
             main_batch Demo.dashboard "org" ["Branch-A"] (Demo.start 2 Demo.one_ap)
             = (Ok (Some ([("N1", "Branch-A")],
                          [PskSsid (VStr "Guest") (VInt 0) "N1";
                           PskSsid (VStr "Staff") (VInt 1) "N1"])), s1, ev1)).
  { eexists _, _. vm_compute. reflexivity. }
  destruct Hbatch as (s1 & ev1 & Hbatch).
  destruct (malformed_input_propagates Demo.dashboard [("N1", "Branch-A")]
              [PskSsid (VStr "Guest") (VInt 0) "N1"; PskSsid (VStr "Staff") (VInt 1) "N1"]
              s1 [("0", "swordfish")] "2" ["never read"])
    as (e & s' & ev0 & -> & _ & _ & Hmain).
  - constructor; [|constructor]. split; [discriminate|].
    exists 0, (PskSsid (VStr "Guest") (VInt 0) "N1").
    split; [reflexivity|]. split; [reflexivity | by eexists].
  - discriminate.
  - right. exists 2. split; [reflexivity|]. right. simpl. lia.
  - eexists _, _. exact (Hmain "org" ["Branch-A"] (Demo.start 2 Demo.one_ap) ev1 Hbatch).
Defined.

(** C10, with the bounds read as the positions of the listing, fails on an
    index below zero: [-1] is the last entry for a Python list, and the loop
    changes its key and goes on. *)
Lemma outside_positions_raises_fails :
  ~ outside_positions_raises Demo.dashboard [("N1", "Branch-A")]
      [PskSsid (VStr "Guest") (VInt 0) "N1"; PskSsid (VStr "Staff") (VInt 1) "N1"].
Proof.
  intros Hraises.
  destruct (Hraises (Demo.start 1 Demo.one_ap) "-1" (-1) ["swordfish"; "n"])
    as (e & s' & ev & Hrun).
  - discriminate.
  - reflexivity.
  - left. lia.
  - vm_compute in Hrun. discriminate Hrun.
Qed.

Lemma tag_matching_monotone_witness :
  exists matched ev,
    get_ap_ssids Demo.dashboard "org" "N1" [0; 1]%nat (State (Demo.Org 1 Demo.one_ap) Demo.fetched)
    = (Ok matched, State (Demo.Org 1 Demo.one_ap) Demo.fetched, ev)
    /\ matched ⊆ ∅ ∪ {["Guest"]}.
Proof.
  assert (Hbefore : exists s1 ev,
             get_ap_ssids Demo.dashboard "org" "N1" [0; 1]%nat
               (State (Demo.Org 1 []) Demo.fetched) = (Ok ∅, s1, ev)).
  { eexists _, _. vm_compute. reflexivity. }
  destruct Hbefore as (s1 & ev & Hbefore).
  destruct (tag_matching_monotone Demo.dashboard (Demo.Org 1 []) (Demo.Org 1 Demo.one_ap)
              Demo.fetched "org" "N1" [0; 1]%nat "Guest" [] [{["tags" := VOther "Guest"]}]
              ∅ s1 ev)
    as (matched & Hrun & _ & Hle).
  - reflexivity.
  - reflexivity.
  - intros tag Hne. cbn [getOrganizationDevices Demo.dashboard Demo.aps].
    unfold Demo.one_ap, Demo.ap_of. cbn [List.filter fst snd].
    replace (String.eqb "Guest" tag) with false; [done|].
    symmetry. apply String.eqb_neq. congruence.
  - exact Hbefore.
  - by exists matched, ev.
Defined.

Lemma catalogue_excludes_placeholders_last_wins_witness :
  exists all_ssids ssid_dict s',
    get_all_ssids Demo.dashboard
      [Network "N1" "Branch-A" ["wireless"]; Network "N2" "Branch-B" ["appliance"; "wireless"]]
      (Demo.start 1 Demo.one_ap)
    = (Ok all_ssids, s',
       fetch_events
         [Network "N1" "Branch-A" ["wireless"];
          Network "N2" "Branch-B" ["appliance"; "wireless"]])
    /\ make_ssid_dict all_ssids s' = (Ok ssid_dict, s', [])
    /\ NoDup (PyDict.keys ssid_dict)
    /\ "Unconfigured SSID 3" ∉ PyDict.keys ssid_dict.
Proof.
  destruct (catalogue_excludes_placeholders_last_wins Demo.dashboard
              (Demo.start 1 Demo.one_ap)
              [Network "N1" "Branch-A" ["wireless"];
               Network "N2" "Branch-B" ["appliance"; "wireless"]]
              [Demo.ssids_of "N1"; Demo.ssids_of "N2"])
    as (all_ssids & ssid_dict & s' & Hall & Hdict & _ & Hnodup & Hexcluded & _).
  - by repeat constructor.
  - by repeat constructor.
  - repeat constructor; eexists; vm_compute; reflexivity.
  - exists all_ssids, ssid_dict, s'. split; [done|]. split; [done|]. split; [done|].
    intros Hin. specialize (Hexcluded _ Hin). vm_compute in Hexcluded. discriminate.
Defined.

Lemma psk_listing_in_order_witness :
  exists psk_ssids s',
    collect_psk_ssids Demo.dashboard ["N1"; "N2"] [] (Demo.start 1 Demo.one_ap)
    = (Ok psk_ssids, s', [EGetNetworkWirelessSsids "N1"; EGetNetworkWirelessSsids "N2"])
    /\ psk_ssids = [PskSsid (VStr "Guest") (VInt 0) "N1"; PskSsid (VStr "Staff") (VInt 1) "N1";
                    PskSsid (VStr "Lab") (VInt 1) "N2"]
    /\ print_psk_ssids [("N1", "Branch-A"); ("N2", "Branch-B")] psk_ssids psk_ssids s'
       = (Ok tt, s',
          [EPrint "0 - Guest of Branch-A"; EPrint "1 - Staff of Branch-A";
           EPrint "2 - Lab of Branch-B"]).
Proof.
  destruct (psk_listing_in_order Demo.dashboard [("N1", "Branch-A"); ("N2", "Branch-B")]
              (Demo.start 1 Demo.one_ap) ["N1"; "N2"]
              [Demo.ssids_of "N1"; Demo.ssids_of "N2"])
    as (psk_ssids & s' & Hcollect & Hlist & Hprint).
  - apply NoDup_cons. split; [by intros [=]%list_elem_of_singleton|]. apply NoDup_singleton.
  - by repeat constructor.
  - by repeat constructor.
  - repeat constructor; try (eexists; vm_compute; reflexivity).
  - by repeat constructor.
  - exists psk_ssids, s'. split; [done|].
    assert (Hvalue : psk_ssids
              = [PskSsid (VStr "Guest") (VInt 0) "N1"; PskSsid (VStr "Staff") (VInt 1) "N1";
                 PskSsid (VStr "Lab") (VInt 1) "N2"]) by (rewrite Hlist; reflexivity).
    split; [done|]. rewrite Hprint, Hvalue. reflexivity.
Defined.

(** C1, as stated, fails when a name is configured twice: both occurrences
    resolve to the one identifier of the network, and the run goes on to
    read and write SSIDs. *)
Lemma distinct_ids_or_abort_fails :
  ~ distinct_ids_or_abort Demo.dashboard (Demo.start 1 Demo.one_ap)
      "org" ["Branch-A"; "Branch-A"] ["n"] Demo.networks.
Proof.
  intros [(ids & Hids & Hnd)|(before & name & after & ev0 & _ & _ & _ & Hrun & Hno)].
  - inversion Hids as [|? id1 ? ids1 H1 Hrest]; subst.
    inversion Hrest as [|? id2 ? ids2 H2 Hnil]; subst.
    inversion Hnil; subst.
    vm_compute in H1, H2. injection H1 as <-. injection H2 as <-.
    apply NoDup_cons in Hnd as [Hfresh _]. apply Hfresh, elem_of_cons. by left.
  - apply (f_equal snd) in Hrun. cbn [snd] in Hrun.
    rewrite <- Hrun in Hno. vm_compute in Hno. discriminate Hno.
Qed.

Lemma resolution_or_abort_witness :
  exists ev0,
    main Demo.dashboard "org" ["Branch-A"; "branch-a"; "HQ"] ["n"]
      (Demo.start 1 Demo.one_ap)
    = (Ok tt, Demo.start 1 Demo.one_ap, ev0 ++ abort_lines "branch-a").
Proof.
  destruct (resolution_or_abort Demo.dashboard (Demo.start 1 Demo.one_ap) "org"
              ["Branch-A"; "branch-a"; "HQ"] ["n"] Demo.networks eq_refl)
    as [(ids & m & ev & Hids & _)
       |[(before & name & after & ev0 & Heq & Hb & Hbad & Hrun & _)
        |(before & name & after & msg & ev0 & Heq & _ & Hbad & _)]].
  - exfalso. inversion Hids as [|? ? ? ? _ Hrest]; subst.
    inversion Hrest as [|? ? ? ? H2 _]; subst. vm_compute in H2. discriminate H2.
  - assert (name = "branch-a") as ->; [|by exists ev0].
    destruct before as [|b1 [|b2 [|b3 before]]]; simpl in Heq.
    + injection Heq as <- _. vm_compute in Hbad. discriminate Hbad.
    + by injection Heq as _ <- _.
    + injection Heq as _ <- _. exfalso.
      apply Forall_cons in Hb as [_ Hb]. apply Forall_cons in Hb as [[? Hb] _].
      vm_compute in Hb. discriminate Hb.
    + injection Heq as _ _ _ Heq. by destruct before.
  - exfalso. destruct before as [|b1 [|b2 [|b3 before]]]; simpl in Heq.
    + injection Heq as <- _. vm_compute in Hbad. discriminate Hbad.
    + injection Heq as _ <- _. vm_compute in Hbad. discriminate Hbad.
    + injection Heq as _ _ <- _. vm_compute in Hbad. discriminate Hbad.
    + injection Heq as _ _ _ Heq. by destruct before.
Defined.

(** ** The scenarios of the specification on the small organization *)

(** Branch-A has an access point tagged Guest: the Guest record of the
    catalogue (the one of Branch-B, fetched last) goes to slot 3 of Branch-A,
    without its [number], and the run says so. *)
Example scenario_configure_guest :
  let '(res, _, ev) :=
    main Demo.dashboard "org" ["Branch-A"] ["n"] (Demo.start 1 Demo.one_ap) in
  res = Ok tt
  /\ updates_of ev
     = [EUpdateNetworkWirelessSsid "N1" (VInt 3)
          (delete "number" (<["enabled" := VBool false]> (Demo.ssid "Guest" 0 "open")))]
  /\ EPrint "Branch-A configured with ssid Guest" ∈ ev.
Proof.
  vm_compute. split; [done|]. split; [done|].
  apply list_elem_of_In. vm_compute. tauto.
Qed.

(** The same with a dashboard that rejects the update: the failure is
    printed and the run goes on to the listing and the prompt. *)
Example scenario_update_rejected :
  let '(res, _, ev) :=
    main Demo.dashboard "org" ["Branch-A"] ["n"] (Demo.start 0 Demo.one_ap) in
  res = Ok tt
  /\ EPrint "There was an issue configuring the SSID Guest for the following reason:" ∈ ev
  /\ EPrint "There was an issue configuring ssid Guest on Branch-A" ∈ ev
  /\ EPrint "1 - Staff of Branch-A" ∈ ev.
Proof.
  vm_compute. split; [done|].
  repeat split; apply list_elem_of_In; vm_compute; tauto.
Qed.

(** The user picks entry 1, then stops: one update for slot 1 of Branch-A
    with the new key. *)
Example scenario_rotate_staff :
  let '(res, _, ev) :=
    main Demo.dashboard "org" ["Branch-A"] ["1"; "newpass123"; "n"]
      (Demo.start 2 Demo.one_ap) in
  res = Ok tt
  /\ updates_of ev
     = [EUpdateNetworkWirelessSsid "N1" (VInt 3)
          (delete "number" (<["enabled" := VBool false]> (Demo.ssid "Guest" 0 "open")));
        EUpdateNetworkWirelessSsid "N1" (VInt 1) (psk_kwargs "newpass123")].
Proof. vm_compute. split; done. Qed.

(** A configured name with a closing tag that closes nothing: the console
    cannot render the banner of step 2 for it, and the run ends there,
    after the first name was looked up. *)
Example scenario_unrendered_banner :
  let '(res, _, ev) :=
    main Demo.dashboard "org" ["Branch-A"; "HQ[/b]"] ["n"] (Demo.start 1 Demo.one_ap) in
  (exists msg, res = Raise (MarkupError msg))
  /\ ev = [EPanel None "Meraki AP SSID Configuration";
           EPanel (Some "Step 1") "Connect to Meraki dashboard";
           EPanel (Some "Step 2") "Get network ID for network Branch-A";
           EGetOrganizationNetworks "org"].
Proof. vm_compute. split; [by eexists | done]. Qed.

(** An index below zero down to minus the length is in range for a Python
    list: [-1] selects the last entry of the listing. *)
Example negative_index_counts_from_the_end :
  list_getitem [PskSsid (VStr "Guest") (VInt 0) "N1"; PskSsid (VStr "Staff") (VInt 1) "N1"] (-1)
  = Some (PskSsid (VStr "Staff") (VInt 1) "N1")
  /\ int_of_str "-1" = Some (-1).
Proof. split; reflexivity. Qed.

(** ** The further properties on the small organization *)

Lemma get_ap_ssids_matches_tagged_names_witness :
  exists matched ev,
    get_ap_ssids Demo.dashboard "org" "N1" [0; 1]%nat (State (Demo.Org 1 Demo.one_ap) Demo.fetched)
    = (Ok matched, State (Demo.Org 1 Demo.one_ap) Demo.fetched, ev)
    /\ "Guest" ∈ matched /\ "Staff" ∉ matched.
Proof.
  assert (Hrun : exists matched s' ev,
             get_ap_ssids Demo.dashboard "org" "N1" [0; 1]%nat
               (State (Demo.Org 1 Demo.one_ap) Demo.fetched) = (Ok matched, s', ev)).
  { eexists _, _, _. vm_compute. reflexivity. }
  destruct Hrun as (matched & s' & ev & Hrun).
  destruct (get_ap_ssids_matches_tagged_names Demo.dashboard _ _ _ _ _ _ _ _ Hrun)
    as (-> & _ & Hmatched).
  exists matched, ev. split; [done|]. split.
  - apply Hmatched. exists 0%nat. split; [apply elem_of_cons; by left | by split].
  - intros (r & _ & _ & Hap)%Hmatched. vm_compute in Hap. discriminate Hap.
Defined.

Lemma match_networks_one_entry_per_network_witness :
  exists result ev,
    match_networks Demo.dashboard "org" [0; 1]%nat ["N1"; "N2"] []
      (State (Demo.Org 1 Demo.one_ap) Demo.fetched)
    = (Ok result, State (Demo.Org 1 Demo.one_ap) Demo.fetched, ev)
    /\ PyDict.keys result = ["N1"; "N2"].
Proof.
  assert (Hrun : exists result s' ev,
             match_networks Demo.dashboard "org" [0; 1]%nat ["N1"; "N2"] []
               (State (Demo.Org 1 Demo.one_ap) Demo.fetched) = (Ok result, s', ev)).
  { eexists _, _, _. vm_compute. reflexivity. }
  destruct Hrun as (result & s' & ev & Hrun).
  assert (Hnodup : NoDup ["N1"; "N2"]).
  { apply NoDup_cons. split; [by intros [=]%list_elem_of_singleton | apply NoDup_singleton]. }
  destruct (match_networks_one_entry_per_network Demo.dashboard _ _ _ _ _ _ _ Hnodup Hrun)
    as (-> & Hkeys & _).
  by exists result, ev.
Defined.

Lemma get_all_ssids_stops_at_failed_fetch_witness :
  get_all_ssids (Faulty.dashboard Faulty.outage)
    [Network "N1" "Branch-A" ["wireless"]; Network "N2" "Branch-B" ["wireless"];
     Network "N4" "Depot" ["wireless"]]
    (Demo.start 1 Demo.one_ap)
  = (Raise (APIError "502 Bad Gateway"),
     State (Demo.Org 1 Demo.one_ap) (Demo.ssids_of "N1" ++ []),
     fetch_events [Network "N1" "Branch-A" ["wireless"]; Network "N2" "Branch-B" ["wireless"]]).
Proof.
  apply (get_all_ssids_stops_at_failed_fetch (Faulty.dashboard Faulty.outage)
           (Demo.start 1 Demo.one_ap) [Network "N1" "Branch-A" ["wireless"]]
           [Demo.ssids_of "N1"] (Network "N2" "Branch-B" ["wireless"])
           [Network "N4" "Depot" ["wireless"]]).
  - by repeat constructor.
  - by repeat constructor.
  - repeat constructor; eexists; vm_compute; reflexivity.
  - reflexivity.
Defined.

Lemma get_all_ssids_stops_at_unnamed_ssid_witness :
  exists s',
    get_all_ssids (Faulty.dashboard Faulty.broken)
      [Network "N1" "Branch-A" ["wireless"]; Network "N2" "Branch-B" ["wireless"]]
      (Demo.start 1 Demo.one_ap)
    = (Raise (KeyError "name"), s', fetch_events [Network "N1" "Branch-A" ["wireless"]]).
Proof.
  eexists.
  apply (get_all_ssids_stops_at_unnamed_ssid (Faulty.dashboard Faulty.broken)
           (Demo.start 1 Demo.one_ap) [] [] (Network "N1" "Branch-A" ["wireless"])
           [Network "N2" "Branch-B" ["wireless"]]
           [Demo.ssid "Guest" 0 "psk"] {["number" := VInt 1]} [{["name" := VStr "Staff"]}]).
  - by repeat constructor.
  - constructor.
  - constructor.
  - reflexivity.
  - repeat constructor. eexists. vm_compute. reflexivity.
  - reflexivity.
Defined.

Lemma get_psk_net_ssids_stops_at_missing_key_witness :
  exists s',
    get_psk_net_ssids (Faulty.dashboard Faulty.broken) "N2" (Demo.start 1 Demo.one_ap)
    = (Raise (KeyError "authMode"), s', [EGetNetworkWirelessSsids "N2"]).
Proof.
  eexists.
  apply (get_psk_net_ssids_stops_at_missing_key (Faulty.dashboard Faulty.broken)
           (Demo.start 1 Demo.one_ap) "N2" [Demo.ssid "Lab" 0 "open"]
           {["name" := VStr "Staff"]} []).
  - reflexivity.
  - constructor; [|constructor]. split; [eexists; vm_compute; reflexivity|].
    intros Hpsk. vm_compute in Hpsk. discriminate Hpsk.
  - reflexivity.
Defined.

Lemma resolve_networks_dictionary_witness :
  exists net_id_to_name ev,
    resolve_networks Demo.dashboard "org" ["Branch-A"; "Branch-B"; "Branch-A"] []
      (Demo.start 1 Demo.one_ap)
    = (Ok (Some net_id_to_name), Demo.start 1 Demo.one_ap, ev)
    /\ NoDup (PyDict.keys net_id_to_name).
Proof.
  assert (Hrun : exists net_id_to_name s' ev,
             resolve_networks Demo.dashboard "org" ["Branch-A"; "Branch-B"; "Branch-A"] []
               (Demo.start 1 Demo.one_ap) = (Ok (Some net_id_to_name), s', ev)).
  { eexists _, _, _. vm_compute. reflexivity. }
  destruct Hrun as (net_id_to_name & s' & ev & Hrun).
  destruct (resolve_networks_dictionary Demo.dashboard _ _ _ Demo.networks _ _ _ eq_refl Hrun)
    as (-> & _ & Hnodup & _).
  by exists net_id_to_name, ev.
Defined.

Lemma configure_networks_completes_witness :
  exists s' ev,
    configure_networks Demo.dashboard [("N1", "Branch-A")] [("Guest", 0%nat)]
      [("N1", {["Guest"]})] ["N1"] (State (Demo.Org 0 Demo.one_ap) Demo.fetched)
    = (Ok tt, s', ev)
    /\ length (List.filter is_update ev) = 1%nat.
Proof.
  destruct (configure_networks_completes Demo.dashboard [("N1", "Branch-A")]
              [("Guest", 0%nat)] [("N1", {["Guest"]})] ["N1"]
              (State (Demo.Org 0 Demo.one_ap) Demo.fetched)) as (s' & ev & Hrun & Hcount).
  - constructor; [|constructor]. split; [by exists "Branch-A"|].
    exists {["Guest"]}. split; [done|]. unfold catalogue_covers.
    rewrite elements_singleton. constructor; [|constructor].
    exists 0%nat, (Demo.ssid "Guest" 0 "psk"). split; [done|]. split; [done|]. by eexists.
  - exists s', ev. split; [done|]. rewrite Hcount. reflexivity.
Defined.

Lemma main_batch_writes_slot_3_of_targets_witness :
  exists r s' ev,
    main_batch Demo.dashboard "org" ["Branch-A"; "nowhere"] (Demo.start 1 Demo.one_ap)
    = (r, s', ev)
    /\ Forall (slot_3_on ["N1"]) ev.
Proof.
  destruct (main_batch Demo.dashboard "org" ["Branch-A"; "nowhere"]
              (Demo.start 1 Demo.one_ap)) as [[r s'] ev] eqn:Hrun.
  exists r, s', ev. split; [done|].
  exact (main_batch_writes_slot_3_of_targets Demo.dashboard (Demo.start 1 Demo.one_ap)
           "org" ["Branch-A"; "nowhere"] Demo.networks r s' ev eq_refl Hrun).
Defined.

Lemma configure_net_ssids_handler_needs_name_witness :
  exists s',
    configure_net_ssids Demo.dashboard "N1" 0%nat
      (State (Demo.Org 0 Demo.one_ap) [{["number" := VInt 5]}])
    = (Raise (KeyError "name"), s',
       [EUpdateNetworkWirelessSsid "N1" (VInt 3) (delete "number" {["number" := VInt 5]})]).
Proof.
  eexists.
  exact (configure_net_ssids_handler_needs_name Demo.dashboard
           (State (Demo.Org 0 Demo.one_ap) [{["number" := VInt 5]}]) "N1" 0%nat
           {["number" := VInt 5]} (APIError "400 Bad Request") (Demo.Org 0 Demo.one_ap)
           eq_refl eq_refl eq_refl).
Defined.

Lemma update_functions_report_the_answer_witness :
  exists configured s' ev,
    configure_net_ssids Demo.dashboard "N1" 0%nat (State (Demo.Org 0 Demo.one_ap) Demo.fetched)
    = (Ok configured, s', ev).
Proof.
  destruct (update_functions_report_the_answer Demo.dashboard
              (State (Demo.Org 0 Demo.one_ap) Demo.fetched) "N1" 0%nat
              (Demo.ssid "Guest" 0 "psk") (VInt 1) "newpass123" eq_refl
              ltac:(by eexists)) as [(configured & s' & ev & Hrun & _) _].
  by exists configured, s', ev.
Defined.

Lemma prompt_loop_end_of_input_witness :
  prompt_loop Demo.dashboard [("N1", "Branch-A")] [PskSsid (VStr "Guest") (VInt 0) "N1"]
    ["0"] (Demo.start 1 Demo.one_ap)
  = (Raise EOFError, Demo.start 1 Demo.one_ap,
     [EPrompt index_prompt; ERead "0"; EPrompt psk_prompt]).
Proof.
  exact (proj2 (prompt_loop_end_of_input Demo.dashboard [("N1", "Branch-A")]
                  [PskSsid (VStr "Guest") (VInt 0) "N1"] (Demo.start 1 Demo.one_ap)
                  "0" 0 (PskSsid (VStr "Guest") (VInt 0) "N1") "Branch-A"
                  ltac:(discriminate) eq_refl eq_refl eq_refl)).
Defined.

Lemma prompt_loop_updates_listed_entries_only_witness :
  exists r s' ev,
    prompt_loop Demo.dashboard [("N1", "Branch-A")] [PskSsid (VStr "Guest") (VInt 0) "N1"]
      ["-1"; "swordfish"; "7"] (Demo.start 1 Demo.one_ap) = (r, s', ev)
    /\ rotation_trace [PskSsid (VStr "Guest") (VInt 0) "N1"] ev
    /\ lines_read ev `prefix_of` ["-1"; "swordfish"; "7"].
Proof.
  destruct (prompt_loop Demo.dashboard [("N1", "Branch-A")]
              [PskSsid (VStr "Guest") (VInt 0) "N1"] ["-1"; "swordfish"; "7"]
              (Demo.start 1 Demo.one_ap)) as [[r s'] ev] eqn:Hrun.
  exists r, s', ev. split; [done|].
  destruct (prompt_loop_updates_listed_entries_only Demo.dashboard _ _ _ _ _ _ _ Hrun)
    as (Htrace & Hread & _).
  by split.
Defined.

Lemma listing_prints_index_of_first_equal_witness :
  print_psk_ssids [("N1", "Branch-A")]
    [PskSsid (VStr "Guest") (VInt 0) "N1"; PskSsid (VStr "Guest") (VInt 0) "N1"]
    [PskSsid (VStr "Guest") (VInt 0) "N1"; PskSsid (VStr "Guest") (VInt 0) "N1"]
    (Demo.start 1 Demo.one_ap)
  = (Ok tt, Demo.start 1 Demo.one_ap,
     [EPrint "0 - Guest of Branch-A"; EPrint "0 - Guest of Branch-A"]).
Proof.
  destruct (listing_prints_index_of_first_equal (D := Demo.org) [("N1", "Branch-A")]
              [PskSsid (VStr "Guest") (VInt 0) "N1"; PskSsid (VStr "Guest") (VInt 0) "N1"]
              (Demo.start 1 Demo.one_ap))
    as (indices & Hrun & Hlen & Hindex).
  - repeat constructor; by eexists.
  - destruct indices as [|j0 [|j1 [|? ?]]]; try discriminate Hlen.
    destruct (Hindex 0%nat _ j0 eq_refl eq_refl) as [Hj0 _].
    destruct (Hindex 1%nat _ j1 eq_refl eq_refl) as [Hj1 (first & _ & _ & Hbefore)].
    assert (j0 = 0%nat) as -> by lia.
    assert (j1 = 0%nat) as ->.
    { destruct j1 as [|[|?]]; [done| |lia].
      specialize (Hbefore 0%nat _ ltac:(lia) eq_refl). vm_compute in Hbefore.
      discriminate Hbefore. }
    rewrite Hrun. reflexivity.
Defined.

Lemma get_all_ssids_stops_at_unrendered_line_witness :
  exists msg,
    get_all_ssids Demo.dashboard
      [Network "N1" "Branch-A" ["wireless"]; Network "N4" "Depot[/b]" ["wireless"];
       Network "N2" "Branch-B" ["appliance"; "wireless"]]
      (Demo.start 1 Demo.one_ap)
    = (Raise (MarkupError msg),
       State (Demo.Org 1 Demo.one_ap) (Demo.ssids_of "N1" ++ []),
       fetch_events [Network "N1" "Branch-A" ["wireless"]]).
Proof.
  eexists.
  apply (get_all_ssids_stops_at_unrendered_line Demo.dashboard
           (Demo.start 1 Demo.one_ap) [Network "N1" "Branch-A" ["wireless"]]
           [Demo.ssids_of "N1"] (Network "N4" "Depot[/b]" ["wireless"])
           [Network "N2" "Branch-B" ["appliance"; "wireless"]]).
  - by repeat constructor.
  - by repeat constructor.
  - repeat constructor; eexists; vm_compute; reflexivity.
  - reflexivity.
Defined.

Lemma get_ap_ssids_stops_at_unrendered_tag_witness :
  exists msg,
    get_ap_ssids Demo.dashboard "org" "N1" [0; 1; 2]%nat
      (State (Demo.Org 1 Demo.one_ap)
         [Demo.ssid "Guest" 0 "psk"; Demo.ssid "Lab[/]" 1 "open"; Demo.ssid "Staff" 2 "psk"])
    = (Raise (MarkupError msg),
       State (Demo.Org 1 Demo.one_ap)
         [Demo.ssid "Guest" 0 "psk"; Demo.ssid "Lab[/]" 1 "open"; Demo.ssid "Staff" 2 "psk"],
       [EProgress "Retrieving all APs with the tag Guest";
        EGetOrganizationDevices "org" "N1" "Guest"]).
Proof.
  eexists.
  apply (get_ap_ssids_stops_at_unrendered_tag Demo.dashboard (Demo.Org 1 Demo.one_ap)
           [Demo.ssid "Guest" 0 "psk"; Demo.ssid "Lab[/]" 1 "open"; Demo.ssid "Staff" 2 "psk"]
           "org" "N1" [0%nat] 1%nat [2%nat] "Lab[/]").
  - constructor; [|constructor]. exists "Guest".
    split; [reflexivity|]. split; [reflexivity | by eexists].
  - reflexivity.
  - reflexivity.
Defined.

Lemma matched_names_are_in_the_catalogue_witness :
  exists all_ssids ssid_dict matched s' ev1 ev3,
    get_all_ssids Demo.dashboard
      [Network "N1" "Branch-A" ["wireless"]; Network "N2" "Branch-B" ["appliance"; "wireless"]]
      (Demo.start 1 Demo.one_ap) = (Ok all_ssids, s', ev1)
    /\ make_ssid_dict all_ssids s' = (Ok ssid_dict, s', [])
    /\ get_ap_ssids Demo.dashboard "org" "N1" all_ssids s' = (Ok matched, s', ev3)
    /\ catalogue_covers ssid_dict (heap s') (elements matched).
Proof.
  assert (Hruns : exists all_ssids ssid_dict matched s' ev1 ev3,
             get_all_ssids Demo.dashboard
               [Network "N1" "Branch-A" ["wireless"];
                Network "N2" "Branch-B" ["appliance"; "wireless"]]
               (Demo.start 1 Demo.one_ap) = (Ok all_ssids, s', ev1)
             /\ make_ssid_dict all_ssids s' = (Ok ssid_dict, s', [])
             /\ get_ap_ssids Demo.dashboard "org" "N1" all_ssids s' = (Ok matched, s', ev3)).
  { eexists _, _, _, _, _, _. split; [vm_compute; reflexivity|].
    split; vm_compute; reflexivity. }
  destruct Hruns as (all_ssids & ssid_dict & matched & s' & ev1 & ev3 & Hall & Hdict & Hmatch).
  exists all_ssids, ssid_dict, matched, s', ev1, ev3.
  split; [done|]. split; [done|]. split; [done|].
  apply (matched_names_are_in_the_catalogue Demo.dashboard (Demo.start 1 Demo.one_ap)
           [Network "N1" "Branch-A" ["wireless"];
            Network "N2" "Branch-B" ["appliance"; "wireless"]]
           [Demo.ssids_of "N1"; Demo.ssids_of "N2"] "org" "N1"
           all_ssids ssid_dict matched s' s' s' ev1 [] ev3).
  - by repeat constructor.
  - repeat constructor; eexists; vm_compute; reflexivity.
  - exact Hall.
  - exact Hdict.
  - exact Hmatch.
Defined.

Lemma main_stops_when_the_listing_fails_witness :
  exists ev,
    main Faulty.unauthorized "org" ["Branch-A"; "Branch-B"] ["n"] (Demo.start 1 Demo.one_ap)
    = (Raise (APIError "401 Unauthorized"), Demo.start 1 Demo.one_ap, ev).
Proof.
  eexists.
  exact (main_stops_when_the_listing_fails Faulty.unauthorized (Demo.start 1 Demo.one_ap)
           "org" "Branch-A" ["Branch-B"] ["n"] (APIError "401 Unauthorized")
           eq_refl eq_refl).
Defined.

Lemma main_batch_names_known_witness :
  exists net_id_to_name psk_ssids s1 ev1,
    main_batch Demo.dashboard "org" ["Branch-A"] (Demo.start 1 Demo.one_ap)
    = (Ok (Some (net_id_to_name, psk_ssids)), s1, ev1)
    /\ Forall (fun ssid => is_Some (PyDict.get net_id_to_name (psk_net_id ssid))) psk_ssids.
Proof.
  assert (Hbatch : exists net_id_to_name psk_ssids s1 ev1,
             main_batch Demo.dashboard "org" ["Branch-A"] (Demo.start 1 Demo.one_ap)
             = (Ok (Some (net_id_to_name, psk_ssids)), s1, ev1)).
  { eexists _, _, _, _. vm_compute. reflexivity. }
  destruct Hbatch as (net_id_to_name & psk_ssids & s1 & ev1 & Hbatch).
  exists net_id_to_name, psk_ssids, s1, ev1. split; [done|].
  exact (main_batch_names_known Demo.dashboard _ _ _ _ _ _ _ Hbatch).
Defined.
